(** * Reputes Work Tracker backend: the task-record rules of [app.py]

    A shallow embedding of the request handlers of [app.py] and of the
    helpers they call, with the properties of the task lifecycle proved
    over it.

    Modelling conventions.
    - Python [str] values are [string]s read as sequences of code points
      below 256: [strip], [upper] and the digit classes are Python's on
      those code points.
    - Python [int] is [Z]; [datetime.date] is a record of year, month and
      day with Python's proleptic Gregorian ordinal; [strptime] follows
      CPython's [_strptime]; [strftime] writes years with four digits, which
      is what every platform does from year 1000 on, and the statements
      that read the digits of a written date are about those years.
    - The random generator is outside the program: what it hands to
      [random.randint] is a parameter, which [randint] brings into its
      range.
    - A parsed JSON body is a value of [json]; a Python exception raised by
      the handler's own code is a value of [exn], turned into a 500 answer
      at the handler boundary as the [except Exception] clause does.
    - The spreadsheet is explicit state: the cells of Sheet2!A:M as a list
      of rows, together with the log of the remote calls issued. Remote
      calls are taken to succeed whenever the tab they address exists. *)

From Stdlib Require Import ZArith Lia Ascii String List Bool.
From stdpp Require Import base strings list gmap.

Local Open Scope string_scope.
Local Open Scope list_scope.
Local Open Scope Z_scope.

(** ** Python strings *)

Module PyStr.

(** Code point of a character. *)
Definition ord (c : ascii) : Z := Z.of_N (N_of_ascii c).

(** [str.isspace] on one character: TAB, LF, VT, FF, CR, the four
    separators FS, GS, RS, US, the space, NEL (U+0085) and the no-break
    space (U+00A0). *)
Definition is_space (c : ascii) : bool :=
  let n := ord c in
  ((9 <=? n) && (n <=? 13)) || ((28 <=? n) && (n <=? 31)) || (n =? 32)
  || (n =? 133) || (n =? 160).

Definition is_digit (c : ascii) : bool :=
  let n := ord c in (48 <=? n) && (n <=? 57).

(** [str.lstrip()], [str.rstrip()], [str.strip()] with no argument. *)
Fixpoint lstrip (s : string) : string :=
  match s with
  | EmptyString => EmptyString
  | String c r => if is_space c then lstrip r else s
  end.

Fixpoint rstrip (s : string) : string :=
  match s with
  | EmptyString => EmptyString
  | String c r =>
      match rstrip r with
      | EmptyString => if is_space c then EmptyString else String c EmptyString
      | r' => String c r'
      end
  end.

Definition strip (s : string) : string := rstrip (lstrip s).

(** [s.replace(" ", "")]. *)
Fixpoint remove_spaces (s : string) : string :=
  match s with
  | EmptyString => EmptyString
  | String c r =>
      if Ascii.eqb c " "%char then remove_spaces r else String c (remove_spaces r)
  end.

(** [s[:n]]. *)
Fixpoint take (n : nat) (s : string) : string :=
  match n, s with
  | O, _ => EmptyString
  | S _, EmptyString => EmptyString
  | S k, String c r => String c (take k r)
  end.

(** The upper case of one character, which can be longer than the
    character: a to z and the accented letters U+00E0 to U+00FE (the
    division sign apart) move down by 32, the sharp s (U+00DF) becomes SS.
    The capitals of the micro sign and of y with diaeresis lie beyond
    U+00FF; these two are left as they are. *)
Definition upper_char (c : ascii) : string :=
  let n := ord c in
  if (97 <=? n) && (n <=? 122) then String (ascii_of_N (Z.to_N (n - 32))) EmptyString
  else if n =? 223 then String "S" (String "S" EmptyString)
  else if (224 <=? n) && (n <=? 254) && negb (n =? 247)
       then String (ascii_of_N (Z.to_N (n - 32))) EmptyString
  else String c EmptyString.

(** [s.upper()]. *)
Fixpoint upper (s : string) : string :=
  match s with
  | EmptyString => EmptyString
  | String c r => String.append (upper_char c) (upper r)
  end.

Definition digit_char (d : Z) : ascii := ascii_of_N (Z.to_N (48 + d)).

(** Decimal digits of a non-negative integer, most significant first. The
    fuel bounds the number of digits: a number has at most one more decimal
    digit than its binary logarithm. *)
Fixpoint digits_acc (fuel : nat) (n : Z) (acc : string) : string :=
  match fuel with
  | O => acc
  | S f =>
      let acc' := String (digit_char (n mod 10)) acc in
      if n / 10 =? 0 then acc' else digits_acc f (n / 10) acc'
  end.

Definition str_of_nonneg (n : Z) : string :=
  digits_acc (S (Z.to_nat (Z.log2 n))) n EmptyString.

(** [str(n)] for an [int]. *)
Definition str_of_int (n : Z) : string :=
  if n <? 0 then String "-"%char (str_of_nonneg (- n)) else str_of_nonneg n.

(** The last [w] decimal digits of [n], zero padded: ["%02d"], ["%04d"]. *)
Fixpoint zero_padded (w : nat) (n : Z) : string :=
  match w with
  | O => EmptyString
  | S k => zero_padded k (n / 10) +:+ String (digit_char (n mod 10)) EmptyString
  end.

(** [int(s)] on a string made of an optional leading space and digits, as
    the groups captured by [strptime] are. *)
Fixpoint int_of_digits_acc (s : string) (acc : Z) : Z :=
  match s with
  | EmptyString => acc
  | String c r =>
      if is_digit c then int_of_digits_acc r (10 * acc + (ord c - 48))
      else int_of_digits_acc r acc
  end.

Definition int_of (s : string) : Z := int_of_digits_acc s 0.

Definition all_digits (s : string) : bool :=
  forallb is_digit (list_ascii_of_string s).

End PyStr.

(** ** Calendar dates *)

Module PyDate.

Record date := mkDate { year : Z; month : Z; day : Z }.

Definition is_leap (y : Z) : bool :=
  (y mod 4 =? 0) && (negb (y mod 100 =? 0) || (y mod 400 =? 0)).

Definition days_in_month (y m : Z) : Z :=
  if m =? 2 then (if is_leap y then 29 else 28)
  else if (m =? 4) || (m =? 6) || (m =? 9) || (m =? 11) then 30
  else 31.

(** What the [date(y, m, d)] constructor accepts. *)
Definition valid_ymd (y m d : Z) : bool :=
  (1 <=? y) && (y <=? 9999) && (1 <=? m) && (m <=? 12) &&
  (1 <=? d) && (d <=? days_in_month y m).

Definition make_date (y m d : Z) : option date :=
  if valid_ymd y m d then Some (mkDate y m d) else None.

Definition days_before_year (y : Z) : Z :=
  let p := y - 1 in p * 365 + p / 4 - p / 100 + p / 400.

Definition days_before_month_table (m : Z) : Z :=
  if m =? 1 then 0 else if m =? 2 then 31 else if m =? 3 then 59
  else if m =? 4 then 90 else if m =? 5 then 120 else if m =? 6 then 151
  else if m =? 7 then 181 else if m =? 8 then 212 else if m =? 9 then 243
  else if m =? 10 then 273 else if m =? 11 then 304 else 334.

Definition days_before_month (y m : Z) : Z :=
  days_before_month_table m + (if (2 <? m) && is_leap y then 1 else 0).

(** [date.toordinal()]. *)
Definition toordinal (d : date) : Z :=
  days_before_year (year d) + days_before_month (year d) (month d) + day d.

(** [(a - b).days]. *)
Definition sub_days (a b : date) : Z := toordinal a - toordinal b.

(** [d.strftime("%Y-%m-%d")] and [d.strftime("%Y%m%d")]. The year is written
    with four digits, as Python documents [%Y] (0001, ..., 9999) and as
    every platform writes the years from 1000 on; below year 1000, which no
    [date.today()] reaches, C libraries differ on the padding. *)
Definition strftime_iso (d : date) : string :=
  PyStr.zero_padded 4 (year d) +:+ "-" +:+ PyStr.zero_padded 2 (month d)
    +:+ "-" +:+ PyStr.zero_padded 2 (day d).

Definition strftime_compact (d : date) : string :=
  PyStr.zero_padded 4 (year d) +:+ PyStr.zero_padded 2 (month d)
    +:+ PyStr.zero_padded 2 (day d).

End PyDate.

Import PyDate.

(** ** [get_delivery_status] *)

Definition get_delivery_status (tat_date completion_date : date) : string :=
  let days_late := sub_days completion_date tat_date in
  if days_late <=? 0 then "On Time"
  else if days_late =? 1 then "Late Submission"
  else "Late Delivery".

(** ** [datetime.strptime] for the four formats of [parse_date]

    [strptime] compiles the format to a regular expression, one group per
    directive, matches it against a prefix of the input with the usual
    leftmost-alternative backtracking, rejects unconverted trailing data,
    and hands the three integers to the [date] constructor. *)

Module Strptime.

Inductive directive :=
| DY                 (* %Y : \d\d\d\d *)
| Dm                 (* %m : 1[0-2]|0[1-9]|[1-9] *)
| Dd                 (* %d : 3[0-1]|[1-2]\d|0[1-9]|[1-9]| [1-9] *)
| DLit (c : ascii).  (* a literal character of the format *)

Record groups := mkGroups { gY : string; gm : string; gd : string }.

Definition in_range (lo hi : Z) (c : ascii) : bool :=
  (lo <=? PyStr.ord c) && (PyStr.ord c <=? hi).

Definition is_char (x : ascii) (c : ascii) : bool := Ascii.eqb x c.

(** One alternative made of one or two character classes: what it captures
    and what input is left, if it matches at the head of [s]. *)
Definition one (p : ascii -> bool) (s : string) : list (string * string) :=
  match s with
  | String a r => if p a then [(String a EmptyString, r)] else []
  | _ => []
  end.

Definition two (p q : ascii -> bool) (s : string) : list (string * string) :=
  match s with
  | String a (String b r) =>
      if p a && q b then [(String a (String b EmptyString), r)] else []
  | _ => []
  end.

Definition four_digits (s : string) : list (string * string) :=
  match s with
  | String a (String b (String c (String d r))) =>
      if PyStr.is_digit a && PyStr.is_digit b && PyStr.is_digit c && PyStr.is_digit d
      then [(String a (String b (String c (String d EmptyString))), r)]
      else []
  | _ => []
  end.

(** The ways a directive can match at the head of [s], in the order the
    regular expression engine tries them. *)
Definition candidates (d : directive) (s : string) : list (string * string) :=
  match d with
  | DY => four_digits s
  | Dm =>
      two (is_char "1") (in_range 48 50) s
      ++ two (is_char "0") (in_range 49 57) s
      ++ one (in_range 49 57) s
  | Dd =>
      two (is_char "3") (in_range 48 49) s
      ++ two (in_range 49 50) PyStr.is_digit s
      ++ two (is_char "0") (in_range 49 57) s
      ++ one (in_range 49 57) s
      ++ two (is_char " ") (in_range 49 57) s
  | DLit c => one (is_char c) s
  end.

Definition capture (d : directive) (v : string) (g : groups) : groups :=
  match d with
  | DY => mkGroups v (gm g) (gd g)
  | Dm => mkGroups (gY g) v (gd g)
  | Dd => mkGroups (gY g) (gm g) v
  | DLit _ => g
  end.

(** First success of [k] over the candidates, in order. *)
Fixpoint first_success {A B : Type} (k : A -> option B) (l : list A) : option B :=
  match l with
  | [] => None
  | x :: r => match k x with Some y => Some y | None => first_success k r end
  end.

(** [format_regex.match(data_string)]: the groups and the unmatched rest. *)
Fixpoint regex_match (fmt : list directive) (s : string) (g : groups)
  : option (groups * string) :=
  match fmt with
  | [] => Some (g, s)
  | d :: fmt' =>
      first_success (fun cr => regex_match fmt' (snd cr) (capture d (fst cr) g))
                    (candidates d s)
  end.

(** [datetime.strptime(s, fmt).date()]; [None] stands for [ValueError]. *)
Definition strptime (s : string) (fmt : list directive) : option date :=
  match regex_match fmt s (mkGroups "" "" "") with
  | None => None                                   (* does not match format *)
  | Some (g, String _ _) => None                   (* unconverted data remains *)
  | Some (g, EmptyString) =>
      make_date (PyStr.int_of (gY g)) (PyStr.int_of (gm g)) (PyStr.int_of (gd g))
  end.

Definition fmt_iso : list directive := [DY; DLit "-"; Dm; DLit "-"; Dd].
Definition fmt_dmy_slash : list directive := [Dd; DLit "/"; Dm; DLit "/"; DY].
Definition fmt_mdy_slash : list directive := [Dm; DLit "/"; Dd; DLit "/"; DY].
Definition fmt_dmy_dash : list directive := [Dd; DLit "-"; Dm; DLit "-"; DY].

End Strptime.

Import Strptime.

(** ** [parse_date] *)

(** ("%Y-%m-%d", "%d/%m/%Y", "%m/%d/%Y", "%d-%m-%Y") *)
Definition DATE_FORMATS : list (list directive) :=
  [fmt_iso; fmt_dmy_slash; fmt_mdy_slash; fmt_dmy_dash].

(** The [for fmt in ...] loop: a [ValueError] moves on to the next format. *)
Fixpoint parse_date_loop (fmts : list (list directive)) (date_str : string)
  : option date :=
  match fmts with
  | [] => None
  | fmt :: rest =>
      match strptime (PyStr.strip date_str) fmt with
      | Some d => Some d
      | None => parse_date_loop rest date_str
      end
  end.

Definition parse_date (date_str : string) : option date :=
  parse_date_loop DATE_FORMATS date_str.

(** ** [generate_task_id] *)

(** [random.randint(a, b)]: an integer N with a <= N <= b. [draw] is what
    the generator hands over; it is taken modulo the width of the range, so
    that the result lies in the range whatever the generator does, and a
    draw that is in the range already is returned as it is. *)
Definition randint (a b draw : Z) : Z := a + (draw - a) mod (b - a + 1).

Definition generate_task_id (client_name worker_name : string) (today : date)
    (draw : Z) : string :=
  let client_code := PyStr.upper (PyStr.take 5 (PyStr.remove_spaces client_name)) in
  let random_num := randint 10000 99999 draw in
  let date_str := strftime_compact today in
  let worker_clean := PyStr.remove_spaces (PyStr.strip worker_name) in
  client_code +:+ "_" +:+ PyStr.str_of_int random_num +:+ "-" +:+ worker_clean
    +:+ "-" +:+ date_str.

(** ** Request bodies and exceptions *)

(** A parsed JSON value, as [request.get_json()] returns it. Numbers are
    integers here; a float behaves like one for all the handlers do with it
    (truth value, not being a string). *)
#[warnings="-register-all"]
Inductive json :=
| JNull
| JBool (b : bool)
| JNum (n : Z)
| JStr (s : string)
| JArray (items : list json)
| JObject (fields : gmap string json).

Definition type_name (v : json) : string :=
  match v with
  | JNull => "NoneType"
  | JBool _ => "bool"
  | JNum _ => "int"
  | JStr _ => "str"
  | JArray _ => "list"
  | JObject _ => "dict"
  end.

(** Python truth value. *)
Definition truthy (v : json) : bool :=
  match v with
  | JNull => false
  | JBool b => b
  | JNum n => negb (n =? 0)
  | JStr s => negb (String.eqb s "")
  | JArray items => match items with [] => false | _ => true end
  | JObject fields => negb (bool_decide (fields = ∅))
  end.

Inductive exn :=
| AttributeError (ty attr : string)
| KeyError (key : string)
| TypeError (msg : string)
| HttpError (msg : string).

(** [str(e)] *)
Definition str_exn (e : exn) : string :=
  match e with
  | AttributeError ty attr =>
      "'" +:+ ty +:+ "' object has no attribute '" +:+ attr +:+ "'"
  | KeyError key => "'" +:+ key +:+ "'"
  | TypeError msg => msg
  | HttpError msg => msg
  end.

Inductive result (A : Type) :=
| Ok (a : A)
| Raise (e : exn).
Arguments Ok {A} a.
Arguments Raise {A} e.

Definition rbind {A B : Type} (m : result A) (k : A -> result B) : result B :=
  match m with
  | Ok a => k a
  | Raise e => Raise e
  end.

Notation "'let?' x := m 'in' k" := (rbind m (fun x => k))
  (at level 10, x name, m at level 100, k at level 200).

(** [data.get(key, default)] *)
Definition dict_get (data : json) (key : string) (default : json) : result json :=
  match data with
  | JObject fields =>
      Ok (match fields !! key with Some v => v | None => default end)
  | _ => Raise (AttributeError (type_name data) "get")
  end.

(** [data[key]] with a string key *)
Definition dict_index (data : json) (key : string) : result json :=
  match data with
  | JObject fields =>
      match fields !! key with Some v => Ok v | None => Raise (KeyError key) end
  | JArray _ => Raise (TypeError "list indices must be integers or slices, not str")
  | JStr _ => Raise (TypeError "string indices must be integers, not 'str'")
  | _ => Raise (TypeError ("'" +:+ type_name data +:+ "' object is not subscriptable"))
  end.

(** [v.strip()] *)
Definition py_strip (v : json) : result string :=
  match v with
  | JStr s => Ok (PyStr.strip s)
  | _ => Raise (AttributeError (type_name v) "strip")
  end.

(** ** The sheet *)

(** A sheet row: the cells the Sheets API returns for it, all strings. *)
Abbreviation row := (list string).

(** Sheet2 column order (0-indexed). *)
Module COL.
Definition Date : nat := 0.
Definition Tastype : nat := 1.
Definition Business_ID : nat := 2.
Definition TAT : nat := 3.
Definition Task_Describtion : nat := 4.
Definition Employee_Name : nat := 5.
Definition Collegaue : nat := 6.
Definition Status : nat := 7.
Definition ChnageOnStatus : nat := 8.
Definition Total_DaysRequired : nat := 9.
Definition Total_Days_taken : nat := 10.
Definition Task_Delivery_Status : nat := 11.
Definition ID : nat := 12.
End COL.

Definition NUM_COLS : nat := 13.

Definition HEADER : row :=
  ["Date"; "Tastype"; "Business ID"; "TAT"; "Task Describtion"; "Employee Name";
   "Collegaue"; "Status"; "ChnageOnStatus"; "Total DaysRequired";
   "Total Days taken"; "Task Delivery Status"; "ID"].

(** [safe_get(row, idx)]: the cell, or the empty string past the end. *)
Definition safe_get (r : row) (idx : nat) : string :=
  match r !! idx with
  | Some val => val
  | None => ""
  end.

(** The A1 ranges the handlers address. *)
Inductive range :=
| A1_M1             (* Sheet2!A1:M1 *)
| A_M               (* Sheet2!A:M *)
| Ai_Mi (i : nat).  (* Sheet2!A{i}:M{i} *)

(** Remote calls, in the vocabulary of the Sheets client. *)
Inductive call :=
| SpreadsheetsGet
| BatchUpdateAddSheet
| ValuesGet (r : range)
| ValuesUpdate (r : range) (values : row)
| ValuesAppend (r : range) (values : row).

Definition is_write (c : call) : bool :=
  match c with
  | SpreadsheetsGet | ValuesGet _ => false
  | BatchUpdateAddSheet | ValuesUpdate _ _ | ValuesAppend _ _ => true
  end.

(** The remote store: the rows of the Sheet2 tab ([None] when the tab does
    not exist) and the calls issued so far, oldest first. *)
Record world := mkWorld { sheet2 : option (list row); calls : list call }.

Definition M (A : Type) : Type := world -> result A * world.

Definition ret {A : Type} (a : A) : M A := fun w => (Ok a, w).

Definition raise {A : Type} (e : exn) : M A := fun w => (Raise e, w).

Definition bind {A B : Type} (m : M A) (k : A -> M B) : M B :=
  fun w =>
    match m w with
    | (Ok a, w') => k a w'
    | (Raise e, w') => (Raise e, w')
    end.

Definition lift {A : Type} (r : result A) : M A := fun w => (r, w).

Notation "'let!' x := m 'in' k" := (bind m (fun x => k))
  (at level 10, x name, m at level 100, k at level 200).

Definition log (c : call) : M unit :=
  fun w => (Ok tt, mkWorld (sheet2 w) (calls w ++ [c])).

(** The error of a values call on a tab that does not exist. No handler
    reaches it, each of them running [ensure_sheet2_with_header] first. *)
Definition no_such_tab : exn := HttpError "Unable to parse range: Sheet2".

(** *** The Sheets client *)

(** [sheets.get(spreadsheetId=...)]: is there a tab titled Sheet2? *)
Definition spreadsheets_get : M bool :=
  let! _ := log SpreadsheetsGet in
  fun w => (Ok (match sheet2 w with Some _ => true | None => false end), w).

(** [sheets.batchUpdate] with one [addSheet] request. *)
Definition batch_update_add_sheet : M unit :=
  let! _ := log BatchUpdateAddSheet in
  fun w => (Ok tt, mkWorld (Some (default [] (sheet2 w))) (calls w)).

(** The [values] entry of [values().get(range=Sheet2!A1:M1)]: absent (the
    empty list) when row 1 holds no non-empty cell. *)
Definition header_values (cells : list row) : list row :=
  match cells with
  | [] => []
  | r :: _ => if forallb (String.eqb "") r then [] else [r]
  end.

Definition values_get_header : M (list row) :=
  let! _ := log (ValuesGet A1_M1) in
  fun w =>
    match sheet2 w with
    | Some cells => (Ok (header_values cells), w)
    | None => (Raise no_such_tab, w)
    end.

(** [values().get(range=Sheet2!A:M)] *)
Definition values_get_all : M (list row) :=
  let! _ := log (ValuesGet A_M) in
  fun w =>
    match sheet2 w with
    | Some cells => (Ok cells, w)
    | None => (Raise no_such_tab, w)
    end.

(** Writing sheet row [i] (1-indexed): in place when the row exists, after
    as many empty rows as it takes otherwise. *)
Definition write_row (i : nat) (values : row) (cells : list row) : list row :=
  if (i - 1 <? length cells)%nat then <[(i - 1)%nat := values]> cells
  else cells ++ replicate (i - 1 - length cells) [] ++ [values].

Definition values_update (r : range) (i : nat) (values : row) : M unit :=
  let! _ := log (ValuesUpdate r values) in
  fun w =>
    match sheet2 w with
    | Some cells => (Ok tt, mkWorld (Some (write_row i values cells)) (calls w))
    | None => (Raise no_such_tab, w)
    end.

(** [values().append(range=Sheet2!A:M, insertDataOption=INSERT_ROWS)] *)
Definition values_append (values : row) : M unit :=
  let! _ := log (ValuesAppend A_M values) in
  fun w =>
    match sheet2 w with
    | Some cells => (Ok tt, mkWorld (Some (cells ++ [values])) (calls w))
    | None => (Raise no_such_tab, w)
    end.

(** ** [ensure_sheet2_with_header] *)
Definition ensure_sheet2_with_header : M unit :=
  let! exists_ := spreadsheets_get in
  let! _ := (if exists_ then ret tt else batch_update_add_sheet) in
  let! existing_header := values_get_header in
  match existing_header with
  | [] => values_update A1_M1 1 HEADER
  | _ :: _ => ret tt
  end.

(** ** Answers *)

(** One entry of the [tasks] list of the listing endpoints. *)
Record task := mkTask {
  rowIndex : nat;
  t_Date : string;
  t_Tastype : string;
  t_Business_ID : string;
  t_TAT : string;
  t_Task_Describtion : string;
  t_Employee_Name : string;
  t_Collegaue : string;
  t_Status : string;
  t_ChnageOnStatus : string;
  t_Total_DaysRequired : string;
  t_Total_Days_taken : string;
  t_Task_Delivery_Status : string;
  t_ID : string
}.

Inductive body :=
| ErrorBody (error : string)
| TasksBody (tasks : list task)
| CreatedBody (taskId message : string)
| UpdatedBody (message : string).

Record response := mkResponse { status_code : Z; payload : body }.

(** The [try: ... except Exception as e: return jsonify(error=str(e)), 500]
    wrapper of every handler. *)
Definition handler (m : M response) (w : world) : response * world :=
  match m w with
  | (Ok r, w') => (r, w')
  | (Raise e, w') => (mkResponse 500 (ErrorBody (str_exn e)), w')
  end.

(** ** GET /api/tasks and GET /api/tasks/active *)

Definition task_of_row (i : nat) (r : row) : task :=
  {| rowIndex := i;
     t_Date := safe_get r COL.Date;
     t_Tastype := safe_get r COL.Tastype;
     t_Business_ID := safe_get r COL.Business_ID;
     t_TAT := safe_get r COL.TAT;
     t_Task_Describtion := safe_get r COL.Task_Describtion;
     t_Employee_Name := safe_get r COL.Employee_Name;
     t_Collegaue := safe_get r COL.Collegaue;
     t_Status := safe_get r COL.Status;
     t_ChnageOnStatus := safe_get r COL.ChnageOnStatus;
     t_Total_DaysRequired := safe_get r COL.Total_DaysRequired;
     t_Total_Days_taken := safe_get r COL.Total_Days_taken;
     t_Task_Delivery_Status := safe_get r COL.Task_Delivery_Status;
     t_ID := safe_get r COL.ID |}.

(** [for i, row in enumerate(rows, start=i): tasks.append({...})] *)
Fixpoint all_tasks_from (i : nat) (rows : list row) : list task :=
  match rows with
  | [] => []
  | r :: rest => task_of_row i r :: all_tasks_from (S i) rest
  end.

(** [excluded = {"Completed", "Cancelled"}] *)
Definition excluded (status : string) : bool :=
  String.eqb status "Completed" || String.eqb status "Cancelled".

(** The same loop with the [continue] on excluded statuses. *)
Fixpoint active_tasks_from (i : nat) (rows : list row) : list task :=
  match rows with
  | [] => []
  | r :: rest =>
      let status := PyStr.strip (safe_get r COL.Status) in
      if excluded status then active_tasks_from (S i) rest
      else task_of_row i r :: active_tasks_from (S i) rest
  end.

Definition get_tasks : world -> response * world :=
  handler (
    let! _ := ensure_sheet2_with_header in
    let! rows := values_get_all in
    match rows with
    | [] => ret (mkResponse 200 (TasksBody []))
    | _ :: data_rows => ret (mkResponse 200 (TasksBody (all_tasks_from 2 data_rows)))
    end).

Definition get_active_tasks : world -> response * world :=
  handler (
    let! _ := ensure_sheet2_with_header in
    let! rows := values_get_all in
    match rows with
    | [] => ret (mkResponse 200 (TasksBody []))
    | _ :: data_rows => ret (mkResponse 200 (TasksBody (active_tasks_from 2 data_rows)))
    end).

(** ** POST /api/tasks/create *)

Definition REQUIRED : list string :=
  ["taskType"; "clientId"; "tat"; "taskDescription"; "workerName"].

(** The validation loop: the first required field whose stripped value is
    empty, if any. A value that is not a string makes [.strip()] raise. *)
Fixpoint first_missing (data : json) (fields : list string) : result (option string) :=
  match fields with
  | [] => Ok None
  | field :: rest =>
      let? v := dict_get data field (JStr "") in
      let? s := py_strip v in
      if String.eqb s "" then Ok (Some field) else first_missing data rest
  end.

(** [data[key].strip()] and [data.get(key, default).strip()] *)
Definition index_strip (data : json) (key : string) : result string :=
  let? v := dict_index data key in py_strip v.

Definition get_strip (data : json) (key : string) (default : string) : result string :=
  let? v := dict_get data key (JStr default) in py_strip v.

(** The row built by [create_task]. Every index assigned is below
    [NUM_COLS], the length of the list, so no assignment is out of range. *)
Definition new_row (today_str task_type client_id tat_str description worker_name
    colleague : string) (days_required : option Z) (task_id : string) : row :=
  let row := replicate NUM_COLS "" in
  let row := <[COL.Date := today_str]> row in
  let row := <[COL.Tastype := task_type]> row in
  let row := <[COL.Business_ID := client_id]> row in
  let row := <[COL.TAT := tat_str]> row in
  let row := <[COL.Task_Describtion := description]> row in
  let row := <[COL.Employee_Name := worker_name]> row in
  let row := <[COL.Collegaue := colleague]> row in
  let row := <[COL.Status := "Pending"]> row in
  let row := <[COL.ChnageOnStatus := ""]> row in
  let row := <[COL.Total_DaysRequired :=
                 match days_required with
                 | Some n => PyStr.str_of_int n
                 | None => ""
                 end]> row in
  let row := <[COL.Total_Days_taken := ""]> row in
  let row := <[COL.Task_Delivery_Status := ""]> row in
  <[COL.ID := task_id]> row.

(** [today] is [datetime.date.today()], [draw] what the random generator
    hands to the [randint] call inside [generate_task_id]. *)
Definition create_task (today : date) (draw : Z) (data : json)
  : world -> response * world :=
  handler (
    let! missing := lift (first_missing data REQUIRED) in
    match missing with
    | Some field =>
        ret (mkResponse 400 (ErrorBody ("Missing required field: " +:+ field)))
    | None =>
        let today_str := strftime_iso today in
        let! task_type := lift (index_strip data "taskType") in
        let! client_id := lift (index_strip data "clientId") in
        let! tat_str := lift (index_strip data "tat") in
        let! description := lift (index_strip data "taskDescription") in
        let! worker_name := lift (index_strip data "workerName") in
        let! colleague := lift (get_strip data "colleague" "NONE") in
        let colleague := if String.eqb colleague "" then "NONE" else colleague in
        let days_required :=
          match parse_date tat_str with
          | Some tat_date => Some (sub_days tat_date today)
          | None => None
          end in
        let task_id := generate_task_id client_id worker_name today draw in
        let row := new_row today_str task_type client_id tat_str description
                     worker_name colleague days_required task_id in
        let! _ := ensure_sheet2_with_header in
        let! _ := values_append row in
        ret (mkResponse 200
               (CreatedBody task_id ("Task created successfully! ID: " +:+ task_id)))
    end).

(** ** PUT /api/tasks/update *)

(** [list(row) + [""] * (NUM_COLS - len(row))] *)
Definition pad (r : row) : row := r ++ replicate (NUM_COLS - length r) "".

(** The lookup loop over [enumerate(rows)]: the 1-indexed sheet position and
    the padded copy of the first row whose stripped ID cell is [task_id]. *)
Fixpoint find_target (i : nat) (rows : list row) (task_id : string)
  : option (nat * row) :=
  match rows with
  | [] => None
  | r :: rest =>
      if String.eqb (PyStr.strip (safe_get r COL.ID)) task_id
      then Some ((i + 1)%nat, pad r)
      else find_target (S i) rest task_id
  end.

(** [if data.get(key): target_row[col] = data[key].strip()] *)
Definition reassign (data : json) (key : string) (col : nat) (target_row : row)
  : result row :=
  let? provided := dict_get data key JNull in
  if truthy provided then
    let? v := index_strip data key in Ok (<[col := v]> target_row)
  else Ok target_row.

(** The [if new_status in ("Completed", "Cancelled")] block. *)
Definition close_row (today : date) (target_row : row) : row :=
  let assigned_date_str := safe_get target_row COL.Date in
  let tat_str := safe_get target_row COL.TAT in
  let assigned_date := parse_date assigned_date_str in
  let tat_date := parse_date tat_str in
  let target_row :=
    match assigned_date with
    | Some a => <[COL.Total_Days_taken := PyStr.str_of_int (sub_days today a)]> target_row
    | None => target_row
    end in
  match tat_date with
  | Some t => <[COL.Task_Delivery_Status := get_delivery_status t today]> target_row
  | None => target_row
  end.

Definition is_closing (new_status : string) : bool :=
  String.eqb new_status "Completed" || String.eqb new_status "Cancelled".

Definition update_task (today : date) (data : json) : world -> response * world :=
  handler (
    let! task_id := lift (get_strip data "taskId" "") in
    let! new_status := lift (get_strip data "newStatus" "") in
    if String.eqb task_id "" then
      ret (mkResponse 400 (ErrorBody "taskId is required"))
    else if String.eqb new_status "" then
      ret (mkResponse 400 (ErrorBody "newStatus is required"))
    else
      let! _ := ensure_sheet2_with_header in
      let! rows := values_get_all in
      match find_target 0 rows task_id with
      | None =>
          ret (mkResponse 404 (ErrorBody ("Task ID '" +:+ task_id +:+ "' not found")))
      | Some (target_row_index, target_row) =>
          let today_str := strftime_iso today in
          let target_row := <[COL.Status := new_status]> target_row in
          let target_row := <[COL.ChnageOnStatus := today_str]> target_row in
          let! target_row := lift (reassign data "newWorker" COL.Employee_Name target_row) in
          let! target_row := lift (reassign data "newColleague" COL.Collegaue target_row) in
          let target_row :=
            if is_closing new_status then close_row today target_row else target_row in
          let target_row := pad target_row in
          let! _ := values_update (Ai_Mi target_row_index) target_row_index
                      (take NUM_COLS target_row) in
          ret (mkResponse 200
                 (UpdatedBody ("Task '" +:+ task_id +:+ "' updated to '" +:+ new_status
                               +:+ "' successfully.")))
      end).

(** ** Derived descriptions used in the statements *)

(** [int(s)] on the output of [str]: an optional minus sign, then digits. *)
Definition int_of_str (s : string) : Z :=
  match s with
  | String "-" r => - PyStr.int_of r
  | _ => PyStr.int_of s
  end.

(** The sheet once [ensure_sheet2_with_header] has run: the tab exists and
    row 1 is not blank. *)
Definition after_ensure (s : option (list row)) : list row :=
  let cells := default [] s in
  match header_values cells with
  | [] => write_row 1 HEADER cells
  | _ :: _ => cells
  end.

(** The remote calls [ensure_sheet2_with_header] issues from a given sheet. *)
Definition ensure_calls (s : option (list row)) : list call :=
  [SpreadsheetsGet]
  ++ (match s with None => [BatchUpdateAddSheet] | Some _ => [] end)
  ++ [ValuesGet A1_M1]
  ++ (match header_values (default [] s) with
      | [] => [ValuesUpdate A1_M1 HEADER]
      | _ :: _ => []
      end).

(** A request field holding a string that is not blank. *)
Definition nonblank_str (fields : gmap string json) (key : string) : Prop :=
  exists s, fields !! key = Some (JStr s) /\ PyStr.strip s <> "".

(** A request field that is missing, or a blank string. *)
Definition missing_or_blank (fields : gmap string json) (key : string) : Prop :=
  fields !! key = None \/ exists s, fields !! key = Some (JStr s) /\ PyStr.strip s = "".

(** An optional request field the handlers can read with [.strip()]: left
    out, a string, or any value Python takes for false. *)
Definition optional_str (fields : gmap string json) (key : string) : Prop :=
  match fields !! key with
  | None => True
  | Some (JStr _) => True
  | Some v => truthy v = false
  end.

(** The identifier as the specification words it: the client identifier
    uppercased, then spaces removed, then cut to five characters; the
    number drawn; the worker name with its spaces removed; the date. *)
Definition spec_task_id (client_name worker_name : string) (today : date)
    (draw : Z) : string :=
  PyStr.take 5 (PyStr.remove_spaces (PyStr.upper client_name)) +:+ "_"
    +:+ PyStr.str_of_int (randint 10000 99999 draw) +:+ "-"
    +:+ PyStr.remove_spaces worker_name +:+ "-" +:+ strftime_compact today.

(** Every code point of the string is below 128. *)
Definition ascii_only (s : string) : bool :=
  forallb (fun c => PyStr.ord c <? 128) (list_ascii_of_string s).

(** The active view as the specification words it: the tasks of the full
    view whose status is not exactly "Completed" or "Cancelled". *)
Definition spec_active_tasks (tasks : list task) : list task :=
  List.filter (fun t => negb (excluded (t_Status t))) tasks.

(** The active view as the code computes it: the same test on the stripped
    status. *)
Definition stripped_active_tasks (tasks : list task) : list task :=
  List.filter (fun t => negb (excluded (PyStr.strip (t_Status t)))) tasks.

(** The calls a run has added to the log, and a run that leaves the sheet
    as it was and adds no write. *)
Definition new_calls (before after : world) : list call :=
  drop (length (calls before)) (calls after).

Definition writes_nothing (before after : world) : Prop :=
  sheet2 after = sheet2 before
  /\ forallb (fun c => negb (is_write c)) (new_calls before after) = true.

(** The colleague cell [create_task] stores for a request. *)
Definition colleague_of (fields : gmap string json) : string :=
  match fields !! "colleague" with
  | Some (JStr c) => if String.eqb (PyStr.strip c) "" then "NONE" else PyStr.strip c
  | _ => "NONE"
  end.

(** The row [create_task] builds from the five required strings of a
    request, as they arrive. *)
Definition created_row (today : date) (random_num : Z)
    (fields : gmap string json)
    (task_type client_id tat description worker_name : string) : row :=
  new_row (strftime_iso today) (PyStr.strip task_type) (PyStr.strip client_id)
    (PyStr.strip tat) (PyStr.strip description) (PyStr.strip worker_name)
    (colleague_of fields)
    (match parse_date (PyStr.strip tat) with
     | Some tat_date => Some (sub_days tat_date today)
     | None => None
     end)
    (generate_task_id (PyStr.strip client_id) (PyStr.strip worker_name) today random_num).

(** A create request that passes validation: the five required fields are
    non-blank strings with the given contents, and the colleague, when
    given, is a string. *)
Definition valid_create_request (fields : gmap string json)
    (task_type client_id tat description worker_name : string) : Prop :=
  (fields !! "taskType" = Some (JStr task_type) /\ PyStr.strip task_type <> "")
  /\ (fields !! "clientId" = Some (JStr client_id) /\ PyStr.strip client_id <> "")
  /\ (fields !! "tat" = Some (JStr tat) /\ PyStr.strip tat <> "")
  /\ (fields !! "taskDescription" = Some (JStr description)
      /\ PyStr.strip description <> "")
  /\ (fields !! "workerName" = Some (JStr worker_name)
      /\ PyStr.strip worker_name <> "")
  /\ (fields !! "colleague" = None
      \/ exists c, fields !! "colleague" = Some (JStr c)).

(** What [if data.get(key): ... = data[key].strip()] leaves in a cell that
    held [old], for a field the handler can read. *)
Definition new_cell (fields : gmap string json) (key old : string) : string :=
  match fields !! key with
  | Some (JStr s) => if String.eqb s "" then old else PyStr.strip s
  | _ => old
  end.

Definition reassigned (fields : gmap string json) (key : string) (col : nat)
    (target_row : row) : row :=
  <[col := new_cell fields key (safe_get target_row col)]> target_row.

(** The row [update_task] writes back, from the padded copy of the row it
    found. *)
Definition updated_row (today : date) (fields : gmap string json)
    (new_status : string) (target_row : row) : row :=
  let target_row := <[COL.Status := new_status]> target_row in
  let target_row := <[COL.ChnageOnStatus := strftime_iso today]> target_row in
  let target_row := reassigned fields "newWorker" COL.Employee_Name target_row in
  let target_row := reassigned fields "newColleague" COL.Collegaue target_row in
  let target_row :=
    if is_closing new_status then close_row today target_row else target_row in
  take NUM_COLS (pad target_row).

(** The same row, cell by cell, from the stored row. *)
Definition updated_cells (today : date) (fields : gmap string json)
    (new_status : string) (stored : row) : row :=
  [safe_get stored COL.Date;
   safe_get stored COL.Tastype;
   safe_get stored COL.Business_ID;
   safe_get stored COL.TAT;
   safe_get stored COL.Task_Describtion;
   new_cell fields "newWorker" (safe_get stored COL.Employee_Name);
   new_cell fields "newColleague" (safe_get stored COL.Collegaue);
   new_status;
   strftime_iso today;
   safe_get stored COL.Total_DaysRequired;
   (if is_closing new_status then
      match parse_date (safe_get stored COL.Date) with
      | Some assigned_date => PyStr.str_of_int (sub_days today assigned_date)
      | None => safe_get stored COL.Total_Days_taken
      end
    else safe_get stored COL.Total_Days_taken);
   (if is_closing new_status then
      match parse_date (safe_get stored COL.TAT) with
      | Some tat_date => get_delivery_status tat_date today
      | None => safe_get stored COL.Task_Delivery_Status
      end
    else safe_get stored COL.Task_Delivery_Status);
   safe_get stored COL.ID].

Definition updated_message (task_id new_status : string) : string :=
  "Task '" +:+ task_id +:+ "' updated to '" +:+ new_status +:+ "' successfully.".

(** ** Sample data *)

(** A JSON object from its fields. *)
Definition obj (l : list (string * json)) : json := JObject (list_to_map l).

Definition sample_fields : gmap string json :=
  list_to_map [("taskType", JStr "Audit"); ("clientId", JStr "Ashraf Traders");
               ("tat", JStr "2026-03-01"); ("taskDescription", JStr " books ");
               ("workerName", JStr "Abhishek Kumar")].

(** The row [create_task] appends for [sample_fields] on 2026-02-23 with
    75076 drawn. *)
Definition sample_row : row :=
  ["2026-02-23"; "Audit"; "Ashraf Traders"; "2026-03-01"; "books";
   "Abhishek Kumar"; "NONE"; "Pending"; ""; "6"; ""; "";
   "ASHRA_75076-AbhishekKumar-20260223"].

(** A closed task whose status cell carries a trailing space. *)
Definition padded_status_row : row :=
  ["2026-02-23"; "Audit"; "Ashraf Traders"; "2026-03-01"; "books";
   "Abhishek Kumar"; "NONE"; "Completed "; "2026-03-02"; "6"; "7";
   "Late Submission"; "ASHRA_75076-AbhishekKumar-20260223"].

(** A task whose status is written in lower case. *)
Definition lowercase_status_row : row :=
  ["2026-02-23"; "Audit"; "Ashraf Traders"; "2026-03-01"; "books";
   "Abhishek Kumar"; "NONE"; "completed"; "2026-03-02"; "6"; "7";
   "Late Submission"; "ASHRA_75076-AbhishekKumar-20260223"].

(** A client identifier with a sharp s (U+00DF): "stra", sharp s, "e co". *)
Definition sharp_s_client : string := "stra" +:+ String "223" "e co".

Definition sharp_s_fields : gmap string json :=
  <["clientId" := JStr sharp_s_client]> sample_fields.

Definition no_tab : world := mkWorld None [].
Definition empty_tab : world := mkWorld (Some []) [].
Definition sheet_of (rows : list row) : world := mkWorld (Some (HEADER :: rows)) [].

(** Update requests: closing the sample task, naming a task that does not
    exist, and naming the header label. *)
Definition close_fields : gmap string json :=
  list_to_map [("taskId", JStr "ASHRA_75076-AbhishekKumar-20260223");
               ("newStatus", JStr "Completed")].

Definition unknown_fields : gmap string json :=
  list_to_map [("taskId", JStr "NO-SUCH-TASK"); ("newStatus", JStr "In Progress")].

Definition header_fields : gmap string json :=
  list_to_map [("taskId", JStr "ID"); ("newStatus", JStr "In Progress")].

(** ** GET /api/sheet1

    The part of [get_sheet1] after the read of Sheet1!A:C: from the rows the
    API returned to the three lists of the answer. *)

(** [list(dict.fromkeys(xs))]: keys are inserted in order, and a key that
    is already there keeps its place. *)
Fixpoint fromkeys_into (keys xs : list string) : list string :=
  match xs with
  | [] => keys
  | x :: rest =>
      if existsb (String.eqb x) keys then fromkeys_into keys rest
      else fromkeys_into (keys ++ [x]) rest
  end.

Definition dict_fromkeys (xs : list string) : list string := fromkeys_into [] xs.

Record sheet1_lists := mkSheet1 {
  workers : list string;
  clients : list string;
  taskTypes : list string
}.

(** [if len(row) >= idx + 1 and row[idx].strip(): xs.append(row[idx].strip())] *)
Definition append_cell (r : row) (idx : nat) (xs : list string) : list string :=
  match r !! idx with
  | Some cell =>
      if String.eqb (PyStr.strip cell) "" then xs else xs ++ [PyStr.strip cell]
  | None => xs
  end.

(** The [for row in data_rows] loop over the three accumulators. *)
Fixpoint sheet1_loop (data_rows : list row) (acc : sheet1_lists) : sheet1_lists :=
  match data_rows with
  | [] => acc
  | r :: rest =>
      sheet1_loop rest
        (mkSheet1 (append_cell r 0 (workers acc)) (append_cell r 1 (clients acc))
           (append_cell r 2 (taskTypes acc)))
  end.

Definition get_sheet1 (rows : list row) : sheet1_lists :=
  let data_rows := match rows with [] => [] | _ :: rest => rest end in
  let acc := sheet1_loop data_rows (mkSheet1 [] [] []) in
  mkSheet1 (dict_fromkeys (workers acc)) (dict_fromkeys (clients acc))
    (dict_fromkeys (taskTypes acc)).

(** ** Further descriptions used in the statements *)

(** The list of the answer that is read from column [idx] of Sheet1. *)
Definition sheet1_column (idx : nat) (l : sheet1_lists) : list string :=
  match idx with
  | O => workers l
  | S O => clients l
  | _ => taskTypes l
  end.

(** The first occurrences of a list, in order: the head, then the first
    occurrences of the rest without the head. *)
Fixpoint first_occurrences (xs : list string) : list string :=
  match xs with
  | [] => []
  | x :: rest =>
      x :: List.filter (fun y => negb (String.eqb y x)) (first_occurrences rest)
  end.

(** Calendar order on dates. *)
Definition date_lt (a b : date) : Prop :=
  year a < year b
  \/ (year a = year b
      /\ (month a < month b \/ (month a = month b /\ day a < day b))).

Definition valid_date (d : date) : Prop :=
  valid_ymd (year d) (month d) (day d) = true.

(** No space character in a string. *)
Definition no_space (s : string) : bool :=
  forallb (fun c => negb (Ascii.eqb c " ")) (list_ascii_of_string s).

(** A well-formed update request: identifier and new status are strings
    whose stripped values are [task_id] and [new_status], neither empty,
    and the optional reassignments can be read. *)
Definition update_request (fields : gmap string json) (task_id new_status : string)
  : Prop :=
  get_strip (JObject fields) "taskId" "" = Ok task_id /\ task_id <> ""
  /\ get_strip (JObject fields) "newStatus" "" = Ok new_status /\ new_status <> ""
  /\ optional_str fields "newWorker" /\ optional_str fields "newColleague".

(** Row [k] (0-indexed) is the first of [rows] whose stripped identifier
    cell is [task_id]: the row the lookup of [update_task] selects. *)
Definition first_match (rows : list row) (task_id : string) (k : nat) (stored : row)
  : Prop :=
  rows !! k = Some stored
  /\ PyStr.strip (safe_get stored COL.ID) = task_id
  /\ (forall j r, (j < k)%nat -> rows !! j = Some r ->
                  PyStr.strip (safe_get r COL.ID) <> task_id).

(** What [data.get(key, "")] holds when it is a string. *)
Definition field_text (fields : gmap string json) (key : string) : option string :=
  match fields !! key with
  | None => Some ""
  | Some (JStr s) => Some s
  | Some _ => None
  end.

(** More sample data. *)
Definition sample_sheet1 : list row :=
  [["Worker Names"; "Client Names"; "Task Types"];
   [" Abhishek Kumar "; "Ashraf Traders"; "Audit"];
   ["Ravi"; "Ashraf Traders"];
   ["Abhishek Kumar"; "  "; "GST"];
   [];
   [""; "Zed Corp"; "Audit"]].

(** * Properties *)

(** ** Strings and integers *)

Lemma digit_char_is_digit (k : Z) :
  0 <= k <= 9 -> PyStr.is_digit (PyStr.digit_char k) = true.
Proof.
  intros H.
  assert (Hk : k = 0 \/ k = 1 \/ k = 2 \/ k = 3 \/ k = 4 \/ k = 5 \/ k = 6
               \/ k = 7 \/ k = 8 \/ k = 9) by lia.
  repeat (destruct Hk as [-> | Hk]; [reflexivity |]). subst; reflexivity.
Qed.

Lemma digit_char_value (k : Z) :
  0 <= k <= 9 -> PyStr.ord (PyStr.digit_char k) - 48 = k.
Proof.
  intros H.
  assert (Hk : k = 0 \/ k = 1 \/ k = 2 \/ k = 3 \/ k = 4 \/ k = 5 \/ k = 6
               \/ k = 7 \/ k = 8 \/ k = 9) by lia.
  repeat (destruct Hk as [-> | Hk]; [reflexivity |]). subst; reflexivity.
Qed.

Lemma mod10_range (n : Z) : 0 <= n mod 10 <= 9.
Proof. pose proof (Z.mod_pos_bound n 10). lia. Qed.

(** Reading back the digits [digits_acc] has put in front of [acc]. *)
Lemma int_of_digits_acc_digits (fuel : nat) :
  forall n acc, 0 <= n < 2 ^ Z.of_nat fuel ->
    exists k, 0 <= k /\ forall a,
      PyStr.int_of_digits_acc (PyStr.digits_acc fuel n acc) a
      = PyStr.int_of_digits_acc acc (a * 10 ^ k + n).
Proof.
  induction fuel as [|f IH]; intros n acc Hn.
  - exists 0. split; [lia|]. intros a. simpl in *.
    replace n with 0 by lia. f_equal. lia.
  - cbn [PyStr.digits_acc]. pose proof (mod10_range n) as Hm.
    destruct (n / 10 =? 0) eqn:Hq.
    + apply Z.eqb_eq in Hq. exists 1. split; [lia|]. intros a.
      cbn [PyStr.int_of_digits_acc]. rewrite digit_char_is_digit by exact Hm.
      rewrite digit_char_value by exact Hm. f_equal.
      pose proof (Z.div_mod n 10). lia.
    + apply Z.eqb_neq in Hq.
      assert (Hlt : 0 <= n / 10 < 2 ^ Z.of_nat f).
      { rewrite Nat2Z.inj_succ, Z.pow_succ_r in Hn by lia.
        split; [apply Z.div_pos; lia|].
        apply Z.div_lt_upper_bound; lia. }
      destruct (IH (n / 10) (String (PyStr.digit_char (n mod 10)) acc) Hlt)
        as [k [Hk Heq]].
      exists (k + 1). split; [lia|]. intros a. rewrite Heq.
      cbn [PyStr.int_of_digits_acc]. rewrite digit_char_is_digit by exact Hm.
      rewrite digit_char_value by exact Hm. f_equal.
      rewrite Z.pow_add_r by lia. pose proof (Z.div_mod n 10). lia.
Qed.

Lemma int_of_str_of_nonneg (n : Z) : 0 <= n -> PyStr.int_of (PyStr.str_of_nonneg n) = n.
Proof.
  intros Hn. unfold PyStr.int_of, PyStr.str_of_nonneg.
  destruct (int_of_digits_acc_digits (S (Z.to_nat (Z.log2 n))) n EmptyString) as [k [_ Heq]].
  - split; [exact Hn|]. rewrite Nat2Z.inj_succ, Z2Nat.id by apply Z.log2_nonneg.
    destruct (Z.eq_dec n 0) as [-> | Hne]; [reflexivity|].
    apply Z.log2_spec. lia.
  - rewrite Heq. reflexivity.
Qed.

Lemma str_of_nonneg_head (n : Z) :
  exists c r, PyStr.str_of_nonneg n = String c r /\ PyStr.is_digit c = true.
Proof.
  unfold PyStr.str_of_nonneg.
  generalize (Z.to_nat (Z.log2 n)) as f. intros f.
  assert (G : forall fuel m acc,
             (exists c r, acc = String c r /\ PyStr.is_digit c = true) ->
             exists c r, PyStr.digits_acc fuel m acc = String c r
                         /\ PyStr.is_digit c = true).
  { induction fuel as [|g IH]; intros m acc Hacc; [exact Hacc|].
    cbn [PyStr.digits_acc].
    assert (Hd : exists c r, String (PyStr.digit_char (m mod 10)) acc = String c r
                             /\ PyStr.is_digit c = true).
    { eexists _, _. split; [reflexivity|]. apply digit_char_is_digit, mod10_range. }
    destruct (m / 10 =? 0); [exact Hd | apply IH, Hd]. }
  cbn [PyStr.digits_acc].
  assert (Hd : exists c r, String (PyStr.digit_char (n mod 10)) EmptyString = String c r
                           /\ PyStr.is_digit c = true).
  { eexists _, _. split; [reflexivity|]. apply digit_char_is_digit, mod10_range. }
  destruct (n / 10 =? 0); [exact Hd | apply G, Hd].
Qed.

(** [str] of an integer reads back as that integer, whatever its sign: the
    fuel of [str_of_nonneg] never runs out. *)
Lemma int_of_str_of_int (n : Z) : int_of_str (PyStr.str_of_int n) = n.
Proof.
  unfold PyStr.str_of_int. destruct (n <? 0) eqn:Hs.
  - apply Z.ltb_lt in Hs. cbn [int_of_str].
    rewrite int_of_str_of_nonneg by lia. lia.
  - apply Z.ltb_ge in Hs.
    destruct (str_of_nonneg_head n) as [c [r [Heq Hc]]].
    pose proof (int_of_str_of_nonneg n Hs) as Hv. rewrite Heq in *.
    unfold int_of_str.
    destruct (Ascii.eqb_spec c "-") as [-> | Hne]; [discriminate Hc|].
    destruct c as [[] [] [] [] [] [] [] []]; try exact Hv. congruence.
Qed.

Lemma digits_acc_five (fuel : nat) (n : Z) :
  (5 <= fuel)%nat -> 10000 <= n <= 99999 ->
  PyStr.digits_acc fuel n EmptyString
  = String (PyStr.digit_char (n / 10000 mod 10))
      (String (PyStr.digit_char (n / 1000 mod 10))
         (String (PyStr.digit_char (n / 100 mod 10))
            (String (PyStr.digit_char (n / 10 mod 10))
               (String (PyStr.digit_char (n mod 10)) EmptyString)))).
Proof.
  intros Hf Hn.
  do 5 (destruct fuel as [|fuel]; [lia|]).
  assert (E1 : n / 10 / 10 = n / 100) by (rewrite Z.div_div by lia; reflexivity).
  assert (E2 : n / 100 / 10 = n / 1000) by (rewrite Z.div_div by lia; reflexivity).
  assert (E3 : n / 1000 / 10 = n / 10000) by (rewrite Z.div_div by lia; reflexivity).
  assert (E4 : n / 10000 / 10 = 0) by (rewrite Z.div_div by lia; apply Z.div_small; lia).
  assert (N1 : (n / 10 =? 0) = false) 
    by (apply Z.eqb_neq; Z.to_euclidean_division_equations; lia).
  assert (N2 : (n / 100 =? 0) = false) 
    by (apply Z.eqb_neq; Z.to_euclidean_division_equations; lia).
  assert (N3 : (n / 1000 =? 0) = false) 
    by (apply Z.eqb_neq; Z.to_euclidean_division_equations; lia).
  assert (N4 : (n / 10000 =? 0) = false) 
    by (apply Z.eqb_neq; Z.to_euclidean_division_equations; lia).
  cbn [PyStr.digits_acc].
  rewrite N1, E1, N2, E2, N3, E3, N4, E4. reflexivity.
Qed.

(** [str] of a number drawn by [randint(10000, 99999)]: five digits. *)
Lemma str_of_int_five_digits (n : Z) :
  10000 <= n <= 99999 ->
  String.length (PyStr.str_of_int n) = 5%nat
  /\ PyStr.all_digits (PyStr.str_of_int n) = true.
Proof.
  intros Hn. unfold PyStr.str_of_int.
  replace (n <? 0) with false by (symmetry; apply Z.ltb_ge; lia).
  unfold PyStr.str_of_nonneg. rewrite digits_acc_five; [| |exact Hn].
  - split; [reflexivity|]. unfold PyStr.all_digits.
    cbn [list_ascii_of_string forallb].
    rewrite !digit_char_is_digit by apply mod10_range. reflexivity.
  - assert (Z.log2 10000 <= Z.log2 n) by (apply Z.log2_le_mono; lia).
    change (Z.log2 10000) with 13 in H. lia.
Qed.

Lemma append_cons (c : ascii) (r b : string) :
  String c r +:+ b = String c (r +:+ b).
Proof. reflexivity. Qed.

Lemma length_append (a b : string) :
  String.length (a +:+ b) = (String.length a + String.length b)%nat.
Proof.
  induction a as [|c r IH]; [reflexivity|].
  rewrite append_cons. cbn [String.length]. now rewrite IH.
Qed.

Lemma int_of_digits_acc_app (a b : string) (acc : Z) :
  PyStr.int_of_digits_acc (a +:+ b) acc
  = PyStr.int_of_digits_acc b (PyStr.int_of_digits_acc a acc).
Proof.
  revert acc. induction a as [|c r IH]; intros acc; [reflexivity|].
  rewrite append_cons. cbn [PyStr.int_of_digits_acc].
  destruct (PyStr.is_digit c); apply IH.
Qed.

Lemma zero_padded_value (w : nat) :
  forall n acc, 0 <= n ->
    PyStr.int_of_digits_acc (PyStr.zero_padded w n) acc
    = acc * 10 ^ Z.of_nat w + n mod 10 ^ Z.of_nat w.
Proof.
  induction w as [|k IH]; intros n acc Hn.
  - cbn [PyStr.zero_padded PyStr.int_of_digits_acc]. change (10 ^ Z.of_nat 0) with 1.
    rewrite Z.mod_1_r. lia.
  - cbn [PyStr.zero_padded]. rewrite int_of_digits_acc_app.
    rewrite IH by (apply Z.div_pos; lia).
    cbn [PyStr.int_of_digits_acc].
    rewrite digit_char_is_digit, digit_char_value by apply mod10_range.
    rewrite Nat2Z.inj_succ, Z.pow_succ_r by lia.
    rewrite (Z.rem_mul_r n 10 (10 ^ Z.of_nat k)) by lia. lia.
Qed.

Lemma zero_padded_length (w : nat) (n : Z) :
  String.length (PyStr.zero_padded w n) = w.
Proof.
  revert n. induction w as [|k IH]; intros n; [reflexivity|].
  cbn [PyStr.zero_padded]. rewrite length_append, IH. cbn [String.length]. lia.
Qed.

Lemma all_digits_app (a b : string) :
  PyStr.all_digits (a +:+ b) = PyStr.all_digits a && PyStr.all_digits b.
Proof.
  unfold PyStr.all_digits. induction a as [|c r IH]; [reflexivity|].
  rewrite append_cons. cbn [list_ascii_of_string forallb]. rewrite IH.
  now rewrite andb_assoc.
Qed.

Lemma zero_padded_all_digits (w : nat) (n : Z) :
  PyStr.all_digits (PyStr.zero_padded w n) = true.
Proof.
  revert n. induction w as [|k IH]; intros n; [reflexivity|].
  cbn [PyStr.zero_padded]. rewrite all_digits_app, IH.
  unfold PyStr.all_digits. cbn [list_ascii_of_string forallb].
  now rewrite digit_char_is_digit by apply mod10_range.
Qed.

(** A zero-padded field wide enough for the number reads back as it. *)
Lemma zero_padded_int_of (w : nat) (n : Z) :
  0 <= n < 10 ^ Z.of_nat w -> PyStr.int_of (PyStr.zero_padded w n) = n.
Proof.
  intros Hn. unfold PyStr.int_of. rewrite zero_padded_value by lia.
  rewrite Z.mod_small by lia. lia.
Qed.

Lemma valid_ymd_bounds (y m d : Z) :
  valid_ymd y m d = true -> 1 <= y <= 9999 /\ 1 <= m <= 12 /\ 1 <= d <= 31.
Proof.
  unfold valid_ymd, days_in_month. intros H.
  repeat (apply andb_true_iff in H; destruct H as [H ?]).
  repeat match goal with
         | [ H : (_ <=? _) = true |- _ ] => apply Z.leb_le in H
         end.
  repeat match goal with
         | [ H : context [if ?b then _ else _] |- _ ] => destruct b
         end; lia.
Qed.

(** On a character below 128 [upper] gives one character, again below
    128, which is a space only if the character was. *)
Lemma upper_char_ascii (c : ascii) :
  (PyStr.ord c <? 128) = true ->
  exists c' : ascii,
    PyStr.upper_char c = String c' EmptyString
    /\ Ascii.eqb c' " " = Ascii.eqb c " "
    /\ (PyStr.ord c' <? 128) = true.
Proof.
  destruct c as [[] [] [] [] [] [] [] []]; intros H; vm_compute in H;
    try discriminate H; eexists; repeat split.
Qed.

Lemma ascii_only_cons (c : ascii) (r : string) :
  ascii_only (String c r) = (PyStr.ord c <? 128) && ascii_only r.
Proof. reflexivity. Qed.

Lemma upper_cons_ascii (c : ascii) (r : string) :
  (PyStr.ord c <? 128) = true ->
  exists c' : ascii,
    PyStr.upper (String c r) = String c' (PyStr.upper r)
    /\ Ascii.eqb c' " " = Ascii.eqb c " ".
Proof.
  intros H. destruct (upper_char_ascii c H) as [c' [E [Hsp _]]].
  exists c'. split; [|exact Hsp]. cbn [PyStr.upper]. now rewrite E.
Qed.

Lemma upper_take_ascii (n : nat) (s : string) :
  ascii_only s = true ->
  PyStr.upper (PyStr.take n s) = PyStr.take n (PyStr.upper s).
Proof.
  revert s. induction n as [|k IH]; intros [|c r] H; try reflexivity.
  rewrite ascii_only_cons in H. apply andb_true_iff in H as [Hc Hr].
  cbn [PyStr.take].
  destruct (upper_cons_ascii c (PyStr.take k r) Hc) as [c1 [E1 _]].
  destruct (upper_cons_ascii c r Hc) as [c2 [E2 _]].
  rewrite E1, E2. cbn [PyStr.take]. rewrite (IH r Hr). f_equal.
  cbn [PyStr.upper] in E1, E2.
  destruct (upper_char_ascii c Hc) as [c' [E _]]. rewrite E in E1, E2.
  injection E1 as <-. injection E2 as <-. reflexivity.
Qed.

Lemma upper_remove_spaces_ascii (s : string) :
  ascii_only s = true ->
  PyStr.upper (PyStr.remove_spaces s) = PyStr.remove_spaces (PyStr.upper s).
Proof.
  induction s as [|c r IH]; intros H; [reflexivity|].
  rewrite ascii_only_cons in H. apply andb_true_iff in H as [Hc Hr].
  destruct (upper_cons_ascii c r Hc) as [c2 [E2 Hsp]]. rewrite E2.
  cbn [PyStr.remove_spaces]. rewrite Hsp.
  destruct (Ascii.eqb c " "); [now apply IH|].
  destruct (upper_cons_ascii c (PyStr.remove_spaces r) Hc) as [c1 [E1 _]].
  rewrite E1, (IH Hr). f_equal.
  cbn [PyStr.upper] in E1, E2.
  destruct (upper_char_ascii c Hc) as [c' [E _]]. rewrite E in E1, E2.
  injection E1 as <-. injection E2 as <-. reflexivity.
Qed.

Lemma ascii_only_remove_spaces (s : string) :
  ascii_only s = true -> ascii_only (PyStr.remove_spaces s) = true.
Proof.
  induction s as [|c r IH]; intros H; [reflexivity|].
  rewrite ascii_only_cons in H. apply andb_true_iff in H as [Hc Hr].
  cbn [PyStr.remove_spaces]. destruct (Ascii.eqb c " "); [now apply IH|].
  rewrite ascii_only_cons, Hc. now apply IH.
Qed.

(** On a client identifier made of characters below 128 the client code
    does not depend on whether upper-casing comes first or last. *)
Lemma client_code_orders_ascii (s : string) :
  ascii_only s = true ->
  PyStr.upper (PyStr.take 5 (PyStr.remove_spaces s))
  = PyStr.take 5 (PyStr.remove_spaces (PyStr.upper s)).
Proof.
  intros H. rewrite upper_take_ascii by now apply ascii_only_remove_spaces.
  now rewrite upper_remove_spaces_ascii.
Qed.

(** The draw of [randint] is in its range, and a draw that is in the range
    is the result. *)
Lemma randint_range (a b draw : Z) : a <= b -> a <= randint a b draw <= b.
Proof.
  intros H. unfold randint. pose proof (Z.mod_pos_bound (draw - a) (b - a + 1)). lia.
Qed.

Lemma randint_in_range (a b draw : Z) : a <= draw <= b -> randint a b draw = draw.
Proof. intros H. unfold randint. rewrite Z.mod_small; lia. Qed.

Lemma randint_periodic (a b draw : Z) :
  a <= b -> randint a b (draw + (b - a + 1)) = randint a b draw.
Proof.
  intros H. unfold randint. f_equal.
  replace (draw + (b - a + 1) - a) with (draw - a + 1 * (b - a + 1)) by lia.
  apply Z.mod_add. lia.
Qed.

(** Uniformity: among any [b - a + 1] consecutive draws, each number of
    the range is the result of exactly one. *)
Lemma randint_uniform (a b start v : Z) :
  a <= v <= b ->
  exists k : Z,
    (0 <= k < b - a + 1 /\ randint a b (start + k) = v)
    /\ (forall k' : Z,
          0 <= k' < b - a + 1 -> randint a b (start + k') = v -> k' = k).
Proof.
  intros Hv. set (N := b - a + 1). assert (HN : 0 < N) by (unfold N; lia).
  assert (Hchar : forall k, 0 <= k < N ->
            (randint a b (start + k) = v <-> k = (v - start) mod N)).
  { intros k Hk. unfold randint. fold N. split; intros H.
    - pose proof (Z.div_mod (start + k - a) N ltac:(lia)) as E1.
      apply (Z.mod_unique_pos (v - start) N (- ((start + k - a) / N)) k Hk). lia.
    - pose proof (Z.div_mod (v - start) N ltac:(lia)) as E2.
      rewrite <- (Z.mod_unique_pos (start + k - a) N (- ((v - start) / N)) (v - a));
        unfold N in *; lia. }
  pose proof (Z.mod_pos_bound (v - start) N HN) as Hb.
  exists ((v - start) mod N). split.
  - split; [exact Hb|]. now apply Hchar.
  - intros k' Hk' H. now apply Hchar.
Qed.

(** ** C1: delivery-status classification *)

(** C1. For every pair of dates the delivery status is a function of
    daysLate = (completion - TAT).days alone, defined everywhere: "On Time"
    when daysLate <= 0, "Late Submission" when daysLate = 1, "Late Delivery"
    when daysLate > 1. *)
Theorem get_delivery_status_total_classification :
  exists classify : Z -> string,
    (forall tat completion : date,
        get_delivery_status tat completion = classify (sub_days completion tat))
    /\ (forall daysLate : Z,
           (daysLate <= 0 /\ classify daysLate = "On Time")
           \/ (daysLate = 1 /\ classify daysLate = "Late Submission")
           \/ (daysLate > 1 /\ classify daysLate = "Late Delivery")).
Proof.
  exists (fun d => if d <=? 0 then "On Time"
                   else if d =? 1 then "Late Submission" else "Late Delivery").
  split; [reflexivity|]. intros d.
  destruct (Z.leb_spec d 0) as [Hle | Hgt]; [left; split; [lia | reflexivity]|].
  destruct (Z.eqb_spec d 1) as [-> | Hne]; [right; left; split; reflexivity|].
  right; right. split; [lia | reflexivity].
Qed.

(** The three dates of the specification's example, TAT 2024-01-10. *)
Example delivery_status_examples :
  get_delivery_status (mkDate 2024 1 10) (mkDate 2024 1 10) = "On Time"
  /\ get_delivery_status (mkDate 2024 1 10) (mkDate 2024 1 11) = "Late Submission"
  /\ get_delivery_status (mkDate 2024 1 10) (mkDate 2024 1 13) = "Late Delivery"
  /\ get_delivery_status (mkDate 2024 3 1) (mkDate 2024 2 28) = "On Time"
  /\ get_delivery_status (mkDate 2024 2 28) (mkDate 2024 3 1) = "Late Delivery"
  /\ get_delivery_status (mkDate 2023 2 28) (mkDate 2023 3 1) = "Late Submission".
Proof. repeat split. Qed.

(** ** C2: task identifier *)

Lemma int_of_str_of_int_nonneg (n : Z) :
  0 <= n -> PyStr.int_of (PyStr.str_of_int n) = n.
Proof.
  intros H. unfold PyStr.str_of_int.
  replace (n <? 0) with false by (symmetry; apply Z.ltb_ge; lia).
  now apply int_of_str_of_nonneg.
Qed.

(** A client identifier with a sharp s among its first five characters that
    are not spaces: the code cuts first and uppercases after, which turns
    the sharp s into SS and gives a client code of six characters, where
    uppercasing first and cutting after gives five. The request goes
    through [create_task] as any other. *)
Lemma generate_task_id_sharp_s_counterexample :
  fst (create_task (mkDate 2026 2 23) 75076 (JObject sharp_s_fields) no_tab)
  = mkResponse 200
      (CreatedBody "STRASS_75076-AbhishekKumar-20260223"
         "Task created successfully! ID: STRASS_75076-AbhishekKumar-20260223")
  /\ generate_task_id sharp_s_client "Abhishek Kumar" (mkDate 2026 2 23) 75076
     = "STRASS_75076-AbhishekKumar-20260223"
  /\ spec_task_id sharp_s_client "Abhishek Kumar" (mkDate 2026 2 23) 75076
     = "STRAS_75076-AbhishekKumar-20260223"
  /\ generate_task_id sharp_s_client "Abhishek Kumar" (mkDate 2026 2 23) 75076
     <> spec_task_id sharp_s_client "Abhishek Kumar" (mkDate 2026 2 23) 75076.
Proof. repeat split. discriminate. Qed.

(** C2, amended. For every client identifier, worker name and creation
    date (a valid date from year 1000 on) the generated identifier has the
    form CLIENTCODE_RANDOM5-WORKER-YYYYMMDD, where CLIENTCODE is the client
    identifier with spaces removed, truncated to 5 characters and then
    uppercased, which on identifiers made of characters below 128 is the
    identifier uppercased, spaces removed, truncated to 5 characters;
    RANDOM5 is a uniformly random 5-digit number in [10000, 99999]: the
    five digits of the number [randint] returns, which lies in the range,
    is the draw itself when the draw is in the range, and among any 90000
    consecutive draws takes each number of the range exactly once; WORKER
    is the worker name with internal spaces removed, the name taken
    stripped of the white space around it, as [create_task] passes it;
    YYYYMMDD is the creation date in 4+2+2 digits. For "Ashraf Traders",
    "Abhishek Kumar" and 2026-02-23 it is
    ASHRA_ddddd-AbhishekKumar-20260223. *)
Theorem generate_task_id_form (client_name worker_name : string) (today : date)
    (draw : Z) :
  valid_ymd (year today) (month today) (day today) = true ->
  1000 <= year today ->
  exists CLIENTCODE RANDOM5 WORKER YYYY MM DD : string,
    generate_task_id client_name worker_name today draw
    = CLIENTCODE +:+ "_" +:+ RANDOM5 +:+ "-" +:+ WORKER +:+ "-"
        +:+ (YYYY +:+ MM +:+ DD)
    /\ CLIENTCODE = PyStr.upper (PyStr.take 5 (PyStr.remove_spaces client_name))
    /\ (ascii_only client_name = true ->
        CLIENTCODE = PyStr.take 5 (PyStr.remove_spaces (PyStr.upper client_name)))
    /\ (RANDOM5 = PyStr.str_of_int (randint 10000 99999 draw)
        /\ String.length RANDOM5 = 5%nat /\ PyStr.all_digits RANDOM5 = true
        /\ PyStr.int_of RANDOM5 = randint 10000 99999 draw
        /\ 10000 <= PyStr.int_of RANDOM5 <= 99999)
    /\ (forall n, 10000 <= n <= 99999 -> randint 10000 99999 n = n)
    /\ (forall start v, 10000 <= v <= 99999 ->
        exists k,
          (0 <= k < 90000 /\ randint 10000 99999 (start + k) = v)
          /\ (forall k', 0 <= k' < 90000 ->
                         randint 10000 99999 (start + k') = v -> k' = k))
    /\ WORKER = PyStr.remove_spaces (PyStr.strip worker_name)
    /\ (PyStr.strip worker_name = worker_name ->
        WORKER = PyStr.remove_spaces worker_name)
    /\ (String.length YYYY = 4%nat /\ PyStr.all_digits YYYY = true
        /\ PyStr.int_of YYYY = year today)
    /\ (String.length MM = 2%nat /\ PyStr.all_digits MM = true
        /\ PyStr.int_of MM = month today)
    /\ (String.length DD = 2%nat /\ PyStr.all_digits DD = true
        /\ PyStr.int_of DD = day today)
    /\ generate_task_id "Ashraf Traders" "Abhishek Kumar" (mkDate 2026 2 23) draw
      = "ASHRA_" +:+ RANDOM5 +:+ "-AbhishekKumar-20260223".
Proof.
  intros Hv Hy0. apply valid_ymd_bounds in Hv. destruct Hv as [Hy [Hm Hd]].
  pose proof (randint_range 10000 99999 draw ltac:(lia)) as Hr.
  destruct (str_of_int_five_digits _ Hr) as [Hlen Hdig].
  exists (PyStr.upper (PyStr.take 5 (PyStr.remove_spaces client_name))),
    (PyStr.str_of_int (randint 10000 99999 draw)),
    (PyStr.remove_spaces (PyStr.strip worker_name)),
    (PyStr.zero_padded 4 (year today)), (PyStr.zero_padded 2 (month today)),
    (PyStr.zero_padded 2 (day today)).
  split; [reflexivity|]. split; [reflexivity|].
  split; [intros Ha; now apply client_code_orders_ascii|].
  split.
  { rewrite int_of_str_of_int_nonneg by lia. repeat split; try assumption; lia. }
  split; [intros n Hn; now apply randint_in_range|].
  split; [intros start v Hv'; exact (randint_uniform 10000 99999 start v Hv')|].
  split; [reflexivity|]. split; [now intros ->|].
  repeat split;
    try apply zero_padded_length; try apply zero_padded_all_digits;
    try (apply zero_padded_int_of; change (10 ^ Z.of_nat 4) with 10000;
         change (10 ^ Z.of_nat 2) with 100; lia).
Qed.

Lemma generate_task_id_form_witness :
  valid_ymd 2026 2 23 = true
  /\ 1000 <= 2026
  /\ exists RANDOM5 : string,
      generate_task_id "Ashraf Traders" "Abhishek Kumar" (mkDate 2026 2 23) 75076
      = "ASHRA_" +:+ RANDOM5 +:+ "-AbhishekKumar-20260223"
      /\ String.length RANDOM5 = 5%nat
      /\ PyStr.int_of RANDOM5 = 75076.
Proof.
  split; [reflexivity|]. split; [lia|].
  destruct (generate_task_id_form "Ashraf Traders" "Abhishek Kumar"
              (mkDate 2026 2 23) 75076 eq_refl ltac:(cbn; lia))
    as [code [r5 [wk [yyyy [mm [dd [_ [_ [_ [[_ [Hlen [_ [Hint _]]]] Hrest]]]]]]]]]].
  exists r5. split; [apply Hrest|]. split; [exact Hlen|].
  rewrite Hint. reflexivity.
Defined.

(** ** C3: date parsing *)

Lemma parse_date_loop_none (fmts : list (list directive)) (date_str : string) :
  parse_date_loop fmts date_str = None
  <-> Forall (fun fmt => strptime (PyStr.strip date_str) fmt = None) fmts.
Proof.
  induction fmts as [|fmt rest IH]; cbn [parse_date_loop].
  - split; [constructor | reflexivity].
  - destruct (strptime (PyStr.strip date_str) fmt) eqn:E.
    + split; [discriminate|]. intros H. inversion H; congruence.
    + rewrite IH. split; [now constructor | intros H; now inversion H].
Qed.

(** C3. For every input string [parse_date] tries ISO year-month-day, then
    day/month/year, then month/day/year, then day-month-year with dashes, on
    the stripped string, and returns the date of the first format that
    parses; it returns the absent value exactly when all four fail, and is
    defined on every string. The specification's five sample strings
    behave as it says, and "05/03/2024", which both slash formats accept,
    is read day first. *)
Theorem parse_date_priority_order :
  (forall date_str : string,
      parse_date date_str
      = match strptime (PyStr.strip date_str) fmt_iso with
        | Some d => Some d
        | None =>
            match strptime (PyStr.strip date_str) fmt_dmy_slash with
            | Some d => Some d
            | None =>
                match strptime (PyStr.strip date_str) fmt_mdy_slash with
                | Some d => Some d
                | None => strptime (PyStr.strip date_str) fmt_dmy_dash
                end
            end
        end)
  /\ (forall date_str : string,
         parse_date date_str = None
         <-> Forall (fun fmt => strptime (PyStr.strip date_str) fmt = None)
               [fmt_iso; fmt_dmy_slash; fmt_mdy_slash; fmt_dmy_dash])
  /\ parse_date "2024-03-05" = Some (mkDate 2024 3 5)
  /\ parse_date "05/03/2024" = Some (mkDate 2024 3 5)
  /\ strptime "05/03/2024" fmt_mdy_slash = Some (mkDate 2024 5 3)
  /\ parse_date "03/05/2024" = Some (mkDate 2024 5 3)
  /\ parse_date "03/25/2024" = Some (mkDate 2024 3 25)
  /\ parse_date "05-03-2024" = Some (mkDate 2024 3 5)
  /\ parse_date "not-a-date" = None.
Proof.
  split.
  { intros s. unfold parse_date, DATE_FORMATS. cbn [parse_date_loop].
    repeat match goal with
           | [ |- context [match ?x with Some _ => _ | None => _ end] ] =>
               destruct x; try reflexivity
           end. }
  split; [intros s; apply parse_date_loop_none|].
  repeat split.
Qed.

(** Further inputs: surrounding white space is ignored, single digits and a
    space-padded day are accepted, impossible days and trailing text are
    not. *)
Example parse_date_examples :
  parse_date "  2024-03-05 " = Some (mkDate 2024 3 5)
  /\ parse_date "2024-3- 5" = Some (mkDate 2024 3 5)
  /\ parse_date "1/1/2024" = Some (mkDate 2024 1 1)
  /\ parse_date "29/02/2024" = Some (mkDate 2024 2 29)
  /\ parse_date "29/02/2023" = None
  /\ parse_date "31/04/2024" = None
  /\ parse_date "0000-01-01" = None
  /\ parse_date "2024-03-05x" = None
  /\ parse_date "" = None.
Proof. repeat split. Qed.

(** ** Running the handlers *)

Lemma ensure_run (w : world) :
  ensure_sheet2_with_header w
  = (Ok tt, mkWorld (Some (after_ensure (sheet2 w)))
              (calls w ++ ensure_calls (sheet2 w))).
Proof.
  destruct w as [[cells|] cs];
    cbv [ensure_sheet2_with_header after_ensure ensure_calls bind
         spreadsheets_get batch_update_add_sheet values_get_header
         values_update log ret sheet2 calls default from_option id].
  - destruct (header_values cells) as [|h t] eqn:E;
      rewrite <- ?app_assoc; reflexivity.
  - cbv [header_values]. rewrite <- ?app_assoc. reflexivity.
Qed.

Lemma values_get_all_run (cells : list row) (cs : list call) :
  values_get_all (mkWorld (Some cells) cs)
  = (Ok cells, mkWorld (Some cells) (cs ++ [ValuesGet A_M])).
Proof. reflexivity. Qed.

Lemma all_tasks_from_nil_or_tail (rows : list row) :
  match rows with
  | [] => []
  | _ :: data_rows => all_tasks_from 2 data_rows
  end = all_tasks_from 2 (tail rows).
Proof. now destruct rows. Qed.

Lemma active_tasks_from_filter (i : nat) (rows : list row) :
  active_tasks_from i rows = stripped_active_tasks (all_tasks_from i rows).
Proof.
  revert i. induction rows as [|r rest IH]; intros i; [reflexivity|].
  cbn [active_tasks_from all_tasks_from]. unfold stripped_active_tasks.
  cbn [List.filter]. change (t_Status (task_of_row i r)) with (safe_get r COL.Status).
  rewrite IH. unfold stripped_active_tasks.
  now destruct (excluded (PyStr.strip (safe_get r COL.Status))).
Qed.

Lemma get_tasks_run (w : world) :
  get_tasks w
  = (mkResponse 200 (TasksBody (all_tasks_from 2 (tail (after_ensure (sheet2 w))))),
     mkWorld (Some (after_ensure (sheet2 w)))
       (calls w ++ ensure_calls (sheet2 w) ++ [ValuesGet A_M])).
Proof.
  unfold get_tasks, handler, bind. rewrite ensure_run, values_get_all_run.
  rewrite <- app_assoc. now destruct (after_ensure (sheet2 w)).
Qed.

Lemma get_active_tasks_run (w : world) :
  get_active_tasks w
  = (mkResponse 200
       (TasksBody (stripped_active_tasks
                     (all_tasks_from 2 (tail (after_ensure (sheet2 w)))))),
     mkWorld (Some (after_ensure (sheet2 w)))
       (calls w ++ ensure_calls (sheet2 w) ++ [ValuesGet A_M])).
Proof.
  unfold get_active_tasks, handler, bind. rewrite ensure_run, values_get_all_run.
  rewrite <- app_assoc.
  destruct (after_ensure (sheet2 w)) as [|h data_rows]; [reflexivity|].
  cbn [tail ret]. now rewrite active_tasks_from_filter.
Qed.

(** ** C5: the active view *)

(** A closed task whose status cell is "Completed" followed by a space is in
    the full view, is not exactly "Completed", and is nevertheless left out
    of the active view. *)
Lemma active_view_exact_match_counterexample :
  exists t : task,
    fst (get_tasks (sheet_of [padded_status_row])) = mkResponse 200 (TasksBody [t])
    /\ t_Status t = "Completed "
    /\ spec_active_tasks [t] = [t]
    /\ fst (get_active_tasks (sheet_of [padded_status_row]))
       = mkResponse 200 (TasksBody [])
    /\ fst (get_active_tasks (sheet_of [padded_status_row]))
       <> mkResponse 200 (TasksBody (spec_active_tasks [t])).
Proof.
  exists (task_of_row 2 padded_status_row). repeat split. discriminate.
Qed.

(** C5, amended. For every sheet, the active view returns exactly the tasks
    of the full view, in order and with the same row positions, whose
    status, once leading and trailing white space is stripped, is neither
    "Completed" nor "Cancelled"; the comparison is case-sensitive, so
    "completed" is not excluded, while "Completed" with surrounding white
    space is. Both views leave the sheet in the same state. *)
Theorem active_view_filters_stripped_status (w : world) :
  exists tasks : list task,
    fst (get_tasks w) = mkResponse 200 (TasksBody tasks)
    /\ fst (get_active_tasks w)
       = mkResponse 200
           (TasksBody
              (List.filter
                 (fun t => negb (String.eqb (PyStr.strip (t_Status t)) "Completed"
                                 || String.eqb (PyStr.strip (t_Status t)) "Cancelled"))
                 tasks))
    /\ snd (get_active_tasks w) = snd (get_tasks w)
    /\ excluded (PyStr.strip "completed") = false
    /\ excluded (PyStr.strip " Completed ") = true.
Proof.
  exists (all_tasks_from 2 (tail (after_ensure (sheet2 w)))).
  rewrite get_tasks_run, get_active_tasks_run. repeat split.
Qed.

(** The lower-case status of the specification's example stays listed. *)
Example active_view_keeps_lowercase :
  fst (get_active_tasks (sheet_of [lowercase_status_row; padded_status_row; sample_row]))
  = mkResponse 200
      (TasksBody [task_of_row 2 lowercase_status_row; task_of_row 4 sample_row]).
Proof. reflexivity. Qed.

(** ** C6: validation of a create request *)

Lemma first_missing_nonblank (fields : gmap string json) (g : string) (rest : list string) :
  nonblank_str fields g ->
  first_missing (JObject fields) (g :: rest) = first_missing (JObject fields) rest.
Proof.
  intros [s [Hs Hne]]. cbn [first_missing dict_get rbind py_strip]. rewrite Hs.
  cbn [rbind py_strip]. apply String.eqb_neq in Hne. now rewrite Hne.
Qed.

Lemma first_missing_blank (fields : gmap string json) (f : string) (rest : list string) :
  missing_or_blank fields f ->
  first_missing (JObject fields) (f :: rest) = Ok (Some f).
Proof.
  intros [Hnone | [s [Hs Hb]]]; cbn [first_missing dict_get rbind py_strip].
  - rewrite Hnone. reflexivity.
  - rewrite Hs. cbn [rbind py_strip]. now rewrite Hb.
Qed.

(** The loop stops at the first required field that is missing or blank. *)
Lemma first_missing_names (fields : gmap string json) (pre : list string)
    (f : string) (post : list string) :
  Forall (nonblank_str fields) pre ->
  missing_or_blank fields f ->
  first_missing (JObject fields) (pre ++ f :: post) = Ok (Some f).
Proof.
  intros Hpre Hf. induction Hpre as [|g pre Hg _ IH].
  - now apply first_missing_blank.
  - cbn [app]. now rewrite first_missing_nonblank.
Qed.

Lemma first_missing_none (fields : gmap string json) (l : list string) :
  Forall (nonblank_str fields) l -> first_missing (JObject fields) l = Ok None.
Proof.
  intros H. induction H as [|g l Hg _ IH]; [reflexivity|].
  now rewrite first_missing_nonblank.
Qed.

(** A request is answered 400, naming the first required field that is
    missing or blank, before any remote call. *)
Lemma create_task_rejects_first_missing (today : date) (random_num : Z)
    (fields : gmap string json) (pre : list string) (f : string)
    (post : list string) (w : world) :
  REQUIRED = pre ++ f :: post ->
  Forall (nonblank_str fields) pre ->
  missing_or_blank fields f ->
  create_task today random_num (JObject fields) w
  = (mkResponse 400 (ErrorBody ("Missing required field: " +:+ f)), w).
Proof.
  intros Hreq Hpre Hf. unfold create_task, handler, bind, lift.
  rewrite Hreq, (first_missing_names fields pre f post Hpre Hf). reflexivity.
Qed.

(** C6. For every create request in which one of the five required fields
    (taskType, clientId, tat, taskDescription, workerName) is missing or
    blank while the others hold non-blank strings, creation is answered 400
    with the message naming that field, and the remote store is left
    untouched: no call is issued, so no write is attempted. *)
Theorem create_task_rejects_blank_field (today : date) (random_num : Z)
    (fields : gmap string json) (f : string) (w : world) :
  In f REQUIRED ->
  missing_or_blank fields f ->
  (forall g, In g REQUIRED -> g <> f -> nonblank_str fields g) ->
  create_task today random_num (JObject fields) w
  = (mkResponse 400 (ErrorBody ("Missing required field: " +:+ f)), w)
  /\ calls (snd (create_task today random_num (JObject fields) w)) = calls w
  /\ sheet2 (snd (create_task today random_num (JObject fields) w)) = sheet2 w.
Proof.
  intros Hin Hf Hothers.
  assert (E : create_task today random_num (JObject fields) w
              = (mkResponse 400 (ErrorBody ("Missing required field: " +:+ f)), w)).
  { assert (Hsplit : exists pre post, REQUIRED = pre ++ f :: post /\ ~ In f pre).
    { unfold REQUIRED in *. cbn [In] in Hin.
      destruct Hin as [<- | [<- | [<- | [<- | [<- | []]]]]].
      - exists [], ["clientId"; "tat"; "taskDescription"; "workerName"].
        split; [reflexivity | intros []].
      - exists ["taskType"], ["tat"; "taskDescription"; "workerName"].
        split; [reflexivity|]. cbn [In]. intros [H | []]; discriminate H.
      - exists ["taskType"; "clientId"], ["taskDescription"; "workerName"].
        split; [reflexivity|]. cbn [In]. intros [H | [H | []]]; discriminate H.
      - exists ["taskType"; "clientId"; "tat"], ["workerName"].
        split; [reflexivity|]. cbn [In].
        intros [H | [H | [H | []]]]; discriminate H.
      - exists ["taskType"; "clientId"; "tat"; "taskDescription"], [].
        split; [reflexivity|]. cbn [In].
        intros [H | [H | [H | [H | []]]]]; discriminate H. }
    destruct Hsplit as [pre [post [Hreq Hnotin]]].
    apply (create_task_rejects_first_missing today random_num fields pre f post w Hreq);
      [|exact Hf].
    apply List.Forall_forall. intros g Hg. apply Hothers.
    - rewrite Hreq. apply in_or_app. now left.
    - intros ->. now apply Hnotin. }
  rewrite E. repeat split.
Qed.

Lemma create_task_rejects_blank_field_witness :
  In "tat" REQUIRED
  /\ missing_or_blank (<["tat" := JStr "   "]> sample_fields) "tat"
  /\ create_task (mkDate 2026 2 23) 75076
       (JObject (<["tat" := JStr "   "]> sample_fields)) no_tab
     = (mkResponse 400 (ErrorBody "Missing required field: tat"), no_tab).
Proof.
  assert (Hin : In "tat" REQUIRED) by (cbn; tauto).
  assert (Hb : missing_or_blank (<["tat" := JStr "   "]> sample_fields) "tat").
  { right. exists "   ". split; reflexivity. }
  split; [exact Hin|]. split; [exact Hb|].
  apply (create_task_rejects_blank_field (mkDate 2026 2 23) 75076
           (<["tat" := JStr "   "]> sample_fields) "tat" no_tab Hin Hb).
  intros g Hg Hne. unfold REQUIRED in Hg. cbn [In] in Hg.
  destruct Hg as [<- | [<- | [<- | [<- | [<- | []]]]]]; try congruence.
  - exists "Audit". split; [reflexivity | discriminate].
  - exists "Ashraf Traders". split; [reflexivity | discriminate].
  - exists " books ". split; [reflexivity | discriminate].
  - exists "Abhishek Kumar". split; [reflexivity | discriminate].
Defined.

(** ** C7 and C8: the row a create request appends *)

Lemma rstrip_idempotent (s : string) : PyStr.rstrip (PyStr.rstrip s) = PyStr.rstrip s.
Proof.
  induction s as [|c r IH]; [reflexivity|].
  cbn [PyStr.rstrip]. destruct (PyStr.rstrip r) as [|d x] eqn:E.
  - destruct (PyStr.is_space c) eqn:Hc; [reflexivity|].
    cbn [PyStr.rstrip]. now rewrite Hc.
  - change (PyStr.rstrip (String c (String d x)))
      with (match PyStr.rstrip (String d x) with
            | EmptyString =>
                if PyStr.is_space c then EmptyString else String c EmptyString
            | r' => String c r'
            end).
    now rewrite IH.
Qed.

Lemma lstrip_head (s : string) :
  PyStr.lstrip s = EmptyString
  \/ exists c r, PyStr.lstrip s = String c r /\ PyStr.is_space c = false.
Proof.
  induction s as [|c r IH]; [now left|].
  cbn [PyStr.lstrip]. destruct (PyStr.is_space c) eqn:Hc; [exact IH|].
  right. now exists c, r.
Qed.

Lemma rstrip_keeps_head (c : ascii) (r : string) :
  PyStr.is_space c = false -> exists r', PyStr.rstrip (String c r) = String c r'.
Proof.
  intros Hc. cbn [PyStr.rstrip]. destruct (PyStr.rstrip r) as [|d x].
  - rewrite Hc. now exists EmptyString.
  - now exists (String d x).
Qed.

Lemma strip_idempotent (s : string) : PyStr.strip (PyStr.strip s) = PyStr.strip s.
Proof.
  unfold PyStr.strip.
  destruct (lstrip_head s) as [E | [c [r [E Hc]]]]; rewrite E; [reflexivity|].
  destruct (rstrip_keeps_head c r Hc) as [r' E']. rewrite E'.
  cbn [PyStr.lstrip]. rewrite Hc, <- E'. apply rstrip_idempotent.
Qed.

(** [parse_date] does its own stripping. *)
Lemma parse_date_strip (s : string) : parse_date (PyStr.strip s) = parse_date s.
Proof.
  unfold parse_date, DATE_FORMATS. cbn [parse_date_loop].
  now rewrite strip_idempotent.
Qed.

Lemma index_strip_str (fields : gmap string json) (key s : string) :
  fields !! key = Some (JStr s) ->
  index_strip (JObject fields) key = Ok (PyStr.strip s).
Proof. intros H. unfold index_strip, dict_index. now rewrite H. Qed.

Lemma get_strip_colleague (fields : gmap string json) :
  fields !! "colleague" = None \/ (exists c, fields !! "colleague" = Some (JStr c)) ->
  exists c0, get_strip (JObject fields) "colleague" "NONE" = Ok c0
             /\ (if String.eqb c0 "" then "NONE" else c0) = colleague_of fields.
Proof.
  unfold get_strip, dict_get, colleague_of.
  intros [H | [c H]]; rewrite H; cbn [rbind py_strip]; eexists; split; reflexivity.
Qed.

Lemma new_row_cells (today_str task_type client_id tat_str description worker_name
    colleague : string) (days_required : option Z) (task_id : string) :
  new_row today_str task_type client_id tat_str description worker_name colleague
    days_required task_id
  = [today_str; task_type; client_id; tat_str; description; worker_name; colleague;
     "Pending"; "";
     match days_required with Some n => PyStr.str_of_int n | None => "" end;
     ""; ""; task_id].
Proof. reflexivity. Qed.

(** A well-formed create request succeeds: after the self-healing step one
    row is appended, and the answer carries its identifier. *)
Lemma create_task_run (today : date) (random_num : Z) (fields : gmap string json)
    (task_type client_id tat description worker_name : string) (w : world) :
  fields !! "taskType" = Some (JStr task_type) -> PyStr.strip task_type <> "" ->
  fields !! "clientId" = Some (JStr client_id) -> PyStr.strip client_id <> "" ->
  fields !! "tat" = Some (JStr tat) -> PyStr.strip tat <> "" ->
  fields !! "taskDescription" = Some (JStr description) -> PyStr.strip description <> "" ->
  fields !! "workerName" = Some (JStr worker_name) -> PyStr.strip worker_name <> "" ->
  fields !! "colleague" = None \/ (exists c, fields !! "colleague" = Some (JStr c)) ->
  create_task today random_num (JObject fields) w
  = (mkResponse 200
       (CreatedBody
          (generate_task_id (PyStr.strip client_id) (PyStr.strip worker_name)
             today random_num)
          ("Task created successfully! ID: "
             +:+ generate_task_id (PyStr.strip client_id) (PyStr.strip worker_name)
                   today random_num)),
     mkWorld
       (Some (after_ensure (sheet2 w)
              ++ [created_row today random_num fields task_type client_id tat
                    description worker_name]))
       (calls w ++ ensure_calls (sheet2 w)
        ++ [ValuesAppend A_M
              (created_row today random_num fields task_type client_id tat
                 description worker_name)])).
Proof.
  intros H1 N1 H2 N2 H3 N3 H4 N4 H5 N5 Hc.
  unfold create_task, handler, bind, lift.
  rewrite first_missing_none.
  2:{ unfold REQUIRED. repeat constructor; eexists; eauto. }
  rewrite (index_strip_str _ _ _ H1), (index_strip_str _ _ _ H2),
    (index_strip_str _ _ _ H3), (index_strip_str _ _ _ H4),
    (index_strip_str _ _ _ H5).
  destruct (get_strip_colleague fields Hc) as [c0 [Hg Hcol]]. rewrite Hg.
  rewrite ensure_run. unfold values_append, bind, log, ret.
  cbn [sheet2 calls]. rewrite Hcol, <- app_assoc. reflexivity.
Qed.

Lemma sample_fields_valid :
  valid_create_request sample_fields "Audit" "Ashraf Traders" "2026-03-01"
    " books " "Abhishek Kumar".
Proof.
  unfold valid_create_request.
  repeat split; try reflexivity; try discriminate. now left.
Qed.

(** C7. For every valid creation request, the days-required cell of the
    appended row is the decimal writing of (TAT date - today).days, a signed
    integer (negative when the TAT date is before today), when the TAT
    string parses to a date, and is empty when it does not. *)
Theorem create_task_days_required (today : date) (random_num : Z)
    (fields : gmap string json)
    (task_type client_id tat description worker_name : string) (w : world) :
  valid_create_request fields task_type client_id tat description worker_name ->
  exists r : row,
    status_code (fst (create_task today random_num (JObject fields) w)) = 200
    /\ snd (create_task today random_num (JObject fields) w)
       = mkWorld (Some (after_ensure (sheet2 w) ++ [r]))
           (calls w ++ ensure_calls (sheet2 w) ++ [ValuesAppend A_M r])
    /\ match parse_date tat with
       | Some tat_date =>
           safe_get r COL.Total_DaysRequired
           = PyStr.str_of_int (sub_days tat_date today)
           /\ int_of_str (safe_get r COL.Total_DaysRequired)
              = toordinal tat_date - toordinal today
           /\ (toordinal tat_date < toordinal today ->
               int_of_str (safe_get r COL.Total_DaysRequired) < 0)
       | None => safe_get r COL.Total_DaysRequired = ""
       end.
Proof.
  intros [[H1 N1] [[H2 N2] [[H3 N3] [[H4 N4] [[H5 N5] Hc]]]]].
  exists (created_row today random_num fields task_type client_id tat description
            worker_name).
  rewrite (create_task_run today random_num fields task_type client_id tat
             description worker_name w H1 N1 H2 N2 H3 N3 H4 N4 H5 N5 Hc).
  split; [reflexivity|]. split; [reflexivity|].
  unfold created_row. rewrite new_row_cells, parse_date_strip.
  destruct (parse_date tat) as [tat_date|]; [|reflexivity].
  change (safe_get _ COL.Total_DaysRequired)
    with (PyStr.str_of_int (sub_days tat_date today)).
  rewrite int_of_str_of_int. unfold sub_days. repeat split. lia.
Qed.

Lemma create_task_days_required_witness :
  valid_create_request sample_fields "Audit" "Ashraf Traders" "2026-03-01"
    " books " "Abhishek Kumar"
  /\ exists r : row,
      snd (create_task (mkDate 2026 2 23) 75076 (JObject sample_fields) no_tab)
      = mkWorld (Some (after_ensure None ++ [r]))
          (ensure_calls None ++ [ValuesAppend A_M r])
      /\ safe_get r COL.Total_DaysRequired = "6".
Proof.
  split; [exact sample_fields_valid|].
  destruct (create_task_days_required (mkDate 2026 2 23) 75076 sample_fields
              "Audit" "Ashraf Traders" "2026-03-01" " books " "Abhishek Kumar"
              no_tab sample_fields_valid) as [r [_ [Hw Hd]]].
  exists r. split; [exact Hw|]. apply Hd.
Defined.

(** A TAT in the past gives a negative count, an unreadable one an empty
    cell. *)
Example create_task_days_required_examples :
  sheet2 (snd (create_task (mkDate 2026 2 23) 75076
                 (JObject (<["tat" := JStr "20/02/2026"]> sample_fields)) no_tab))
  = Some [HEADER;
          ["2026-02-23"; "Audit"; "Ashraf Traders"; "20/02/2026"; "books";
           "Abhishek Kumar"; "NONE"; "Pending"; ""; "-3"; ""; "";
           "ASHRA_75076-AbhishekKumar-20260223"]]
  /\ sheet2 (snd (create_task (mkDate 2026 2 23) 75076
                    (JObject (<["tat" := JStr "next week"]> sample_fields)) no_tab))
     = Some [HEADER;
             ["2026-02-23"; "Audit"; "Ashraf Traders"; "next week"; "books";
              "Abhishek Kumar"; "NONE"; "Pending"; ""; ""; ""; "";
              "ASHRA_75076-AbhishekKumar-20260223"]].
Proof. split; reflexivity. Qed.

(** C8. For every valid creation request the appended row has exactly 13
    columns, status "Pending", empty status-changed date, days-taken and
    delivery-status, and colleague "NONE" whenever the request's colleague
    is absent or blank (the stripped colleague otherwise). *)
Theorem create_task_row_defaults (today : date) (random_num : Z)
    (fields : gmap string json)
    (task_type client_id tat description worker_name : string) (w : world) :
  valid_create_request fields task_type client_id tat description worker_name ->
  exists r : row,
    status_code (fst (create_task today random_num (JObject fields) w)) = 200
    /\ snd (create_task today random_num (JObject fields) w)
       = mkWorld (Some (after_ensure (sheet2 w) ++ [r]))
           (calls w ++ ensure_calls (sheet2 w) ++ [ValuesAppend A_M r])
    /\ length r = 13%nat
    /\ safe_get r COL.Status = "Pending"
    /\ safe_get r COL.ChnageOnStatus = ""
    /\ safe_get r COL.Total_Days_taken = ""
    /\ safe_get r COL.Task_Delivery_Status = ""
    /\ (fields !! "colleague" = None -> safe_get r COL.Collegaue = "NONE")
    /\ (forall c, fields !! "colleague" = Some (JStr c) ->
                  safe_get r COL.Collegaue
                  = if String.eqb (PyStr.strip c) "" then "NONE" else PyStr.strip c).
Proof.
  intros [[H1 N1] [[H2 N2] [[H3 N3] [[H4 N4] [[H5 N5] Hc]]]]].
  exists (created_row today random_num fields task_type client_id tat description
            worker_name).
  rewrite (create_task_run today random_num fields task_type client_id tat
             description worker_name w H1 N1 H2 N2 H3 N3 H4 N4 H5 N5 Hc).
  unfold created_row. rewrite new_row_cells.
  repeat split.
  - intros Hnone. change (safe_get _ COL.Collegaue) with (colleague_of fields).
    unfold colleague_of. now rewrite Hnone.
  - intros c Hsome. change (safe_get _ COL.Collegaue) with (colleague_of fields).
    unfold colleague_of. now rewrite Hsome.
Qed.

Lemma create_task_row_defaults_witness :
  valid_create_request sample_fields "Audit" "Ashraf Traders" "2026-03-01"
    " books " "Abhishek Kumar"
  /\ exists r : row,
      snd (create_task (mkDate 2026 2 23) 75076 (JObject sample_fields) no_tab)
      = mkWorld (Some (after_ensure None ++ [r]))
          (ensure_calls None ++ [ValuesAppend A_M r])
      /\ length r = 13%nat
      /\ safe_get r COL.Status = "Pending"
      /\ safe_get r COL.Collegaue = "NONE".
Proof.
  split; [exact sample_fields_valid|].
  destruct (create_task_row_defaults (mkDate 2026 2 23) 75076 sample_fields
              "Audit" "Ashraf Traders" "2026-03-01" " books " "Abhishek Kumar"
              no_tab sample_fields_valid)
    as [r [_ [Hw [Hlen [Hst [_ [_ [_ [Hcol _]]]]]]]]].
  exists r. repeat split; [exact Hw | exact Hlen | exact Hst |].
  apply Hcol. reflexivity.
Defined.

(** The sample request, end to end, and a blank colleague. *)
Example create_task_sample :
  create_task (mkDate 2026 2 23) 75076 (JObject sample_fields) no_tab
  = (mkResponse 200
       (CreatedBody "ASHRA_75076-AbhishekKumar-20260223"
          "Task created successfully! ID: ASHRA_75076-AbhishekKumar-20260223"),
     mkWorld (Some [HEADER; sample_row])
       [SpreadsheetsGet; BatchUpdateAddSheet; ValuesGet A1_M1;
        ValuesUpdate A1_M1 HEADER; ValuesAppend A_M sample_row])
  /\ sheet2 (snd (create_task (mkDate 2026 2 23) 75076
                    (JObject (<["colleague" := JStr "  "]> sample_fields))
                    (sheet_of [])))
     = Some [HEADER; sample_row].
Proof. split; reflexivity. Qed.

(** ** The dates the handlers write parse back *)

Lemma digit_char_not_space (k : Z) :
  0 <= k <= 9 -> PyStr.is_space (PyStr.digit_char k) = false.
Proof.
  intros H.
  assert (Hk : k = 0 \/ k = 1 \/ k = 2 \/ k = 3 \/ k = 4 \/ k = 5 \/ k = 6
               \/ k = 7 \/ k = 8 \/ k = 9) by lia.
  repeat (destruct Hk as [-> | Hk]; [reflexivity |]). subst; reflexivity.
Qed.

Lemma regex_match_head (d : directive) (fmt : list directive) (s v rest : string)
    (others : list (string * string)) (g : groups) (res : groups * string) :
  candidates d s = (v, rest) :: others ->
  regex_match fmt rest (capture d v g) = Some res ->
  regex_match (d :: fmt) s g = Some res.
Proof.
  intros Hc Hr. cbn [regex_match]. rewrite Hc. cbn [first_success fst snd].
  now rewrite Hr.
Qed.

Lemma candidates_year (a b c d : Z) (rest : string) :
  0 <= a <= 9 -> 0 <= b <= 9 -> 0 <= c <= 9 -> 0 <= d <= 9 ->
  candidates DY
    (String (PyStr.digit_char a) (String (PyStr.digit_char b)
       (String (PyStr.digit_char c) (String (PyStr.digit_char d) rest))))
  = [(String (PyStr.digit_char a) (String (PyStr.digit_char b)
        (String (PyStr.digit_char c) (String (PyStr.digit_char d) EmptyString))),
      rest)].
Proof.
  intros Ha Hb Hc Hd. cbn [candidates four_digits].
  now rewrite !digit_char_is_digit by assumption.
Qed.

Lemma candidates_month (m : Z) (rest : string) :
  1 <= m <= 12 ->
  exists others,
    candidates Dm
      (String (PyStr.digit_char (m / 10 mod 10)) (String (PyStr.digit_char (m mod 10)) rest))
    = (String (PyStr.digit_char (m / 10 mod 10))
         (String (PyStr.digit_char (m mod 10)) EmptyString), rest) :: others.
Proof.
  intros H.
  assert (Hm : m = 1 \/ m = 2 \/ m = 3 \/ m = 4 \/ m = 5 \/ m = 6 \/ m = 7
               \/ m = 8 \/ m = 9 \/ m = 10 \/ m = 11 \/ m = 12) by lia.
  repeat (destruct Hm as [-> | Hm]; [eexists; reflexivity |]).
  subst. eexists; reflexivity.
Qed.

Lemma candidates_day (d : Z) (rest : string) :
  1 <= d <= 31 ->
  exists others,
    candidates Dd
      (String (PyStr.digit_char (d / 10 mod 10)) (String (PyStr.digit_char (d mod 10)) rest))
    = (String (PyStr.digit_char (d / 10 mod 10))
         (String (PyStr.digit_char (d mod 10)) EmptyString), rest) :: others.
Proof.
  intros H.
  assert (Hd : d = 1 \/ d = 2 \/ d = 3 \/ d = 4 \/ d = 5 \/ d = 6 \/ d = 7
               \/ d = 8 \/ d = 9 \/ d = 10 \/ d = 11 \/ d = 12 \/ d = 13
               \/ d = 14 \/ d = 15 \/ d = 16 \/ d = 17 \/ d = 18 \/ d = 19
               \/ d = 20 \/ d = 21 \/ d = 22 \/ d = 23 \/ d = 24 \/ d = 25
               \/ d = 26 \/ d = 27 \/ d = 28 \/ d = 29 \/ d = 30 \/ d = 31) by lia.
  repeat (destruct Hd as [-> | Hd]; [eexists; reflexivity |]).
  subst. eexists; reflexivity.
Qed.

Lemma strftime_iso_chars (d : date) :
  strftime_iso d
  = String (PyStr.digit_char (year d / 10 / 10 / 10 mod 10))
      (String (PyStr.digit_char (year d / 10 / 10 mod 10))
         (String (PyStr.digit_char (year d / 10 mod 10))
            (String (PyStr.digit_char (year d mod 10))
               (String "-"
                  (String (PyStr.digit_char (month d / 10 mod 10))
                     (String (PyStr.digit_char (month d mod 10))
                        (String "-"
                           (String (PyStr.digit_char (day d / 10 mod 10))
                              (String (PyStr.digit_char (day d mod 10))
                                 EmptyString))))))))).
Proof. reflexivity. Qed.

(** [strptime] reads the ISO writing of a valid date back as that date. *)
Lemma strptime_strftime_iso (d : date) :
  valid_ymd (year d) (month d) (day d) = true ->
  strptime (strftime_iso d) fmt_iso = Some d.
Proof.
  intros Hv. pose proof (valid_ymd_bounds _ _ _ Hv) as [Hy [Hm Hd]].
  rewrite strftime_iso_chars. unfold strptime, fmt_iso.
  destruct (candidates_month (month d)
              (String "-" (String (PyStr.digit_char (day d / 10 mod 10))
                             (String (PyStr.digit_char (day d mod 10)) EmptyString)))
              Hm) as [om Hcm].
  destruct (candidates_day (day d) EmptyString Hd) as [od Hcd].
  erewrite regex_match_head; cycle 1.
  { apply candidates_year; apply mod10_range. }
  { eapply regex_match_head; [reflexivity|].
    eapply regex_match_head; [exact Hcm|].
    eapply regex_match_head; [reflexivity|].
    eapply regex_match_head; [exact Hcd|]. reflexivity. }
  cbn [capture gY gm gd].
  change (String (PyStr.digit_char (year d / 10 / 10 / 10 mod 10)) _)
    with (PyStr.zero_padded 4 (year d)).
  change (String (PyStr.digit_char (month d / 10 mod 10)) _)
    with (PyStr.zero_padded 2 (month d)).
  change (String (PyStr.digit_char (day d / 10 mod 10)) _)
    with (PyStr.zero_padded 2 (day d)).
  rewrite !zero_padded_int_of
    by (change (10 ^ Z.of_nat 4) with 10000; change (10 ^ Z.of_nat 2) with 100; lia).
  unfold make_date. rewrite Hv. now destruct d.
Qed.

Lemma strip_strftime_iso (d : date) : PyStr.strip (strftime_iso d) = strftime_iso d.
Proof.
  rewrite strftime_iso_chars. unfold PyStr.strip. cbn [PyStr.lstrip].
  rewrite digit_char_not_space by apply mod10_range.
  cbn [PyStr.rstrip].
  rewrite (digit_char_not_space (day d mod 10)) by apply mod10_range.
  reflexivity.
Qed.

(** The date cell written by [create_task] and [update_task] is read back by
    [parse_date] as the date it came from. *)
Lemma parse_date_strftime_iso (d : date) :
  valid_ymd (year d) (month d) (day d) = true ->
  parse_date (strftime_iso d) = Some d.
Proof.
  intros Hv. unfold parse_date, DATE_FORMATS. cbn [parse_date_loop].
  now rewrite strip_strftime_iso, strptime_strftime_iso.
Qed.

(** A row appended on a valid day can later be closed: its assignment date
    parses back to that day. *)
Lemma created_row_date_parses (today : date) (random_num : Z)
    (fields : gmap string json)
    (task_type client_id tat description worker_name : string) :
  valid_ymd (year today) (month today) (day today) = true ->
  parse_date
    (safe_get (created_row today random_num fields task_type client_id tat
                 description worker_name) COL.Date)
  = Some today.
Proof.
  intros Hv. unfold created_row. rewrite new_row_cells.
  change (safe_get _ COL.Date) with (strftime_iso today).
  now apply parse_date_strftime_iso.
Qed.

(** ** The update flow *)

Lemma find_target_first (rows : list row) :
  forall (i k : nat) (task_id : string) (stored : row),
    rows !! k = Some stored ->
    PyStr.strip (safe_get stored COL.ID) = task_id ->
    (forall j r, (j < k)%nat -> rows !! j = Some r ->
                 PyStr.strip (safe_get r COL.ID) <> task_id) ->
    find_target i rows task_id = Some ((i + k + 1)%nat, pad stored).
Proof.
  induction rows as [|r rest IH]; intros i k task_id stored Hk Hid Hfirst.
  - discriminate Hk.
  - cbn [find_target]. destruct k as [|k].
    + injection Hk as ->. apply String.eqb_eq in Hid. rewrite Hid.
      do 2 f_equal. lia.
    + assert (Hr : PyStr.strip (safe_get r COL.ID) <> task_id)
        by (apply (Hfirst 0%nat r); [lia | reflexivity]).
      apply String.eqb_neq in Hr. rewrite Hr.
      rewrite (IH (S i) k task_id stored Hk Hid).
      * do 2 f_equal. lia.
      * intros j r' Hj Hr'. apply (Hfirst (S j) r'); [lia | exact Hr'].
Qed.

Lemma find_target_none (rows : list row) (task_id : string) :
  forall i,
    Forall (fun r => PyStr.strip (safe_get r COL.ID) <> task_id) rows ->
    find_target i rows task_id = None.
Proof.
  induction rows as [|r rest IH]; intros i H; [reflexivity|].
  inversion H as [|? ? Hr Hrest]; subst. cbn [find_target].
  apply String.eqb_neq in Hr. rewrite Hr. now apply IH.
Qed.

Lemma insert_safe_get (r : row) (col : nat) : <[col := safe_get r col]> r = r.
Proof.
  unfold safe_get. destruct (r !! col) as [v|] eqn:L.
  - now apply list_insert_id.
  - apply list_insert_ge. now apply lookup_ge_None.
Qed.

Lemma reassign_optional (fields : gmap string json) (key : string) (col : nat)
    (target_row : row) :
  optional_str fields key ->
  reassign (JObject fields) key col target_row
  = Ok (reassigned fields key col target_row).
Proof.
  unfold optional_str, reassign, reassigned, new_cell, index_strip, dict_get,
    dict_index.
  destruct (fields !! key) as [[| b | n | s | items | m]|] eqn:E;
    cbn [rbind]; intros H; try rewrite H; rewrite ?insert_safe_get;
    try reflexivity.
  cbn [truthy]. destruct (String.eqb s "") eqn:Es; cbn [negb];
    [now rewrite insert_safe_get|].
  reflexivity.
Qed.

(** The padded copy of a row: its first thirteen cells, read with
    [safe_get], then whatever the row holds beyond them. *)
Lemma pad_cells (r : row) :
  pad r
  = [safe_get r 0; safe_get r 1; safe_get r 2; safe_get r 3; safe_get r 4;
     safe_get r 5; safe_get r 6; safe_get r 7; safe_get r 8; safe_get r 9;
     safe_get r 10; safe_get r 11; safe_get r 12] ++ drop 13 r.
Proof.
  do 13 (destruct r as [|? r]; [reflexivity|]).
  unfold pad, NUM_COLS. cbn [length Nat.sub replicate drop safe_get].
  rewrite app_nil_r. reflexivity.
Qed.

Lemma close_row_inserts (today : date) (r : row) :
  close_row today r
  = <[COL.Task_Delivery_Status :=
        match parse_date (safe_get r COL.TAT) with
        | Some tat_date => get_delivery_status tat_date today
        | None => safe_get r COL.Task_Delivery_Status
        end]>
      (<[COL.Total_Days_taken :=
           match parse_date (safe_get r COL.Date) with
           | Some assigned_date => PyStr.str_of_int (sub_days today assigned_date)
           | None => safe_get r COL.Total_Days_taken
           end]> r).
Proof.
  unfold close_row.
  destruct (parse_date (safe_get r COL.Date)) as [a|];
    destruct (parse_date (safe_get r COL.TAT)) as [t|];
    rewrite ?insert_safe_get; try reflexivity.
  - replace (safe_get r COL.Task_Delivery_Status)
      with (safe_get (<[COL.Total_Days_taken :=
                          PyStr.str_of_int (sub_days today a)]> r)
              COL.Task_Delivery_Status).
    + now rewrite insert_safe_get.
    + unfold safe_get. now rewrite list_lookup_insert_ne by discriminate.
Qed.

Lemma updated_row_cells (today : date) (fields : gmap string json)
    (new_status : string) (stored : row) :
  updated_row today fields new_status (pad stored)
  = updated_cells today fields new_status stored.
Proof.
  unfold updated_row, updated_cells. rewrite close_row_inserts, (pad_cells stored).
  unfold reassigned. destruct (is_closing new_status); reflexivity.
Qed.

Lemma updated_cells_length (today : date) (fields : gmap string json)
    (new_status : string) (stored : row) :
  length (updated_cells today fields new_status stored) = 13%nat.
Proof. reflexivity. Qed.

Lemma write_row_in_range (k : nat) (values : row) (cells : list row) :
  (k < length cells)%nat -> write_row (S k) values cells = <[k := values]> cells.
Proof.
  intros H. unfold write_row. replace (S k - 1)%nat with k by lia.
  apply Nat.ltb_lt in H. now rewrite H.
Qed.

(** A well-formed update request whose identifier the lookup finds: the
    row is rewritten in place and the answer is 200. *)
Lemma update_task_run (today : date) (fields : gmap string json)
    (task_id new_status : string) (w : world) (i : nat) (target_row : row) :
  get_strip (JObject fields) "taskId" "" = Ok task_id -> task_id <> "" ->
  get_strip (JObject fields) "newStatus" "" = Ok new_status -> new_status <> "" ->
  optional_str fields "newWorker" -> optional_str fields "newColleague" ->
  find_target 0 (after_ensure (sheet2 w)) task_id = Some (i, target_row) ->
  update_task today (JObject fields) w
  = (mkResponse 200 (UpdatedBody (updated_message task_id new_status)),
     mkWorld
       (Some (write_row i (updated_row today fields new_status target_row)
                (after_ensure (sheet2 w))))
       (calls w ++ ensure_calls (sheet2 w)
        ++ [ValuesGet A_M;
            ValuesUpdate (Ai_Mi i) (updated_row today fields new_status target_row)])).
Proof.
  intros Hid Nid Hst Nst Hw Hc Hfind.
  unfold update_task, handler, bind, lift. rewrite Hid, Hst.
  apply String.eqb_neq in Nid, Nst. rewrite Nid, Nst.
  rewrite ensure_run, values_get_all_run, Hfind.
  rewrite (reassign_optional _ _ _ _ Hw), (reassign_optional _ _ _ _ Hc).
  unfold values_update, bind, log, ret. cbn [sheet2 calls].
  rewrite <- !app_assoc. reflexivity.
Qed.

(** A well-formed update request whose identifier no fetched row carries:
    404, and nothing after the self-healing step but the read. *)
Lemma update_task_not_found_run (today : date) (data : json)
    (task_id new_status : string) (w : world) :
  get_strip data "taskId" "" = Ok task_id -> task_id <> "" ->
  get_strip data "newStatus" "" = Ok new_status -> new_status <> "" ->
  Forall (fun r => PyStr.strip (safe_get r COL.ID) <> task_id)
    (after_ensure (sheet2 w)) ->
  update_task today data w
  = (mkResponse 404 (ErrorBody ("Task ID '" +:+ task_id +:+ "' not found")),
     mkWorld (Some (after_ensure (sheet2 w)))
       (calls w ++ ensure_calls (sheet2 w) ++ [ValuesGet A_M])).
Proof.
  intros Hid Nid Hst Nst Hnone.
  unfold update_task, handler, bind, lift. rewrite Hid, Hst.
  apply String.eqb_neq in Nid, Nst. rewrite Nid, Nst.
  rewrite ensure_run, values_get_all_run, (find_target_none _ _ 0%nat Hnone).
  unfold ret. rewrite <- app_assoc. reflexivity.
Qed.

Lemma new_calls_app (w : world) (s : option (list row)) (cs : list call) :
  new_calls w (mkWorld s (calls w ++ cs)) = cs.
Proof. unfold new_calls. cbn [calls]. apply drop_app_length. Qed.

Lemma after_ensure_with_header (cells : list row) :
  header_values cells <> [] -> after_ensure (Some cells) = cells.
Proof.
  cbv [after_ensure default from_option id].
  destruct (header_values cells); [congruence | reflexivity].
Qed.

Lemma ensure_calls_with_header (cells : list row) :
  header_values cells <> [] ->
  ensure_calls (Some cells) = [SpreadsheetsGet; ValuesGet A1_M1].
Proof.
  cbv [ensure_calls default from_option id].
  destruct (header_values cells); [congruence | reflexivity].
Qed.

(** ** C4: closing a task *)

(** C4. For every stored row and every well-formed update request that
    names it and whose new status is "Completed" or "Cancelled", with the
    stored assignment date and TAT parsable, the row written back in place
    has days-taken = (today - assignment date).days and the delivery status
    of the classification rule applied to (TAT, today); status and
    status-changed date are the new status and today; employee and
    colleague change only when the request provides them; every other
    field, description and client identifier among them, is as stored. *)
Theorem update_task_closing_frame (today : date) (fields : gmap string json)
    (task_id new_status : string) (w : world) (k : nat) (stored : row)
    (assigned_date tat_date : date) :
  get_strip (JObject fields) "taskId" "" = Ok task_id -> task_id <> "" ->
  get_strip (JObject fields) "newStatus" "" = Ok new_status ->
  new_status = "Completed" \/ new_status = "Cancelled" ->
  optional_str fields "newWorker" -> optional_str fields "newColleague" ->
  after_ensure (sheet2 w) !! k = Some stored ->
  PyStr.strip (safe_get stored COL.ID) = task_id ->
  (forall j r, (j < k)%nat -> after_ensure (sheet2 w) !! j = Some r ->
               PyStr.strip (safe_get r COL.ID) <> task_id) ->
  parse_date (safe_get stored COL.Date) = Some assigned_date ->
  parse_date (safe_get stored COL.TAT) = Some tat_date ->
  exists r' : row,
    update_task today (JObject fields) w
    = (mkResponse 200 (UpdatedBody (updated_message task_id new_status)),
       mkWorld (Some (<[k := r']> (after_ensure (sheet2 w))))
         (calls w ++ ensure_calls (sheet2 w)
          ++ [ValuesGet A_M; ValuesUpdate (Ai_Mi (S k)) r']))
    /\ length r' = 13%nat
    /\ safe_get r' COL.Total_Days_taken
       = PyStr.str_of_int (sub_days today assigned_date)
    /\ int_of_str (safe_get r' COL.Total_Days_taken)
       = toordinal today - toordinal assigned_date
    /\ safe_get r' COL.Task_Delivery_Status = get_delivery_status tat_date today
    /\ safe_get r' COL.Status = new_status
    /\ safe_get r' COL.ChnageOnStatus = strftime_iso today
    /\ safe_get r' COL.Employee_Name
       = new_cell fields "newWorker" (safe_get stored COL.Employee_Name)
    /\ safe_get r' COL.Collegaue
       = new_cell fields "newColleague" (safe_get stored COL.Collegaue)
    /\ safe_get r' COL.Task_Describtion = safe_get stored COL.Task_Describtion
    /\ safe_get r' COL.Business_ID = safe_get stored COL.Business_ID
    /\ safe_get r' COL.Date = safe_get stored COL.Date
    /\ safe_get r' COL.Tastype = safe_get stored COL.Tastype
    /\ safe_get r' COL.TAT = safe_get stored COL.TAT
    /\ safe_get r' COL.Total_DaysRequired = safe_get stored COL.Total_DaysRequired
    /\ safe_get r' COL.ID = safe_get stored COL.ID.
Proof.
  intros Hid Nid Hst Hclosing Hw Hc Hk Hrow Hfirst Hdate Htat.
  assert (Nst : new_status <> "") by (destruct Hclosing as [-> | ->]; discriminate).
  assert (Hcl : is_closing new_status = true) by (destruct Hclosing as [-> | ->]; reflexivity).
  pose proof (find_target_first _ 0%nat k task_id stored Hk Hrow Hfirst) as Hfind.
  cbn [Nat.add] in Hfind. replace (k + 1)%nat with (S k) in Hfind by lia.
  exists (updated_cells today fields new_status stored).
  rewrite (update_task_run today fields task_id new_status w (S k) (pad stored)
             Hid Nid Hst Nst Hw Hc Hfind).
  rewrite updated_row_cells, write_row_in_range by (eapply lookup_lt_Some; exact Hk).
  split; [reflexivity|]. unfold updated_cells. rewrite Hcl, Hdate, Htat.
  repeat split.
  change (safe_get _ COL.Total_Days_taken)
    with (PyStr.str_of_int (sub_days today assigned_date)).
  now rewrite int_of_str_of_int.
Qed.

Lemma update_task_closing_frame_witness :
  sheet2 (sheet_of [sample_row]) = Some [HEADER; sample_row]
  /\ parse_date (safe_get sample_row COL.Date) = Some (mkDate 2026 2 23)
  /\ parse_date (safe_get sample_row COL.TAT) = Some (mkDate 2026 3 1)
  /\ exists r' : row,
      update_task (mkDate 2026 3 2) (JObject close_fields) (sheet_of [sample_row])
      = (mkResponse 200
           (UpdatedBody
              (updated_message "ASHRA_75076-AbhishekKumar-20260223" "Completed")),
         mkWorld (Some [HEADER; r'])
           [SpreadsheetsGet; ValuesGet A1_M1; ValuesGet A_M; ValuesUpdate (Ai_Mi 2) r'])
      /\ safe_get r' COL.Total_Days_taken = "7"
      /\ safe_get r' COL.Task_Delivery_Status = "Late Submission"
      /\ safe_get r' COL.Task_Describtion = "books"
      /\ safe_get r' COL.Business_ID = "Ashraf Traders".
Proof.
  split; [reflexivity|]. split; [reflexivity|]. split; [reflexivity|].
  assert (Hfirst : forall j r, (j < 1)%nat ->
            after_ensure (sheet2 (sheet_of [sample_row])) !! j = Some r ->
            PyStr.strip (safe_get r COL.ID) <> "ASHRA_75076-AbhishekKumar-20260223").
  { intros j r Hj Hr. destruct j as [|j]; [|lia].
    injection Hr as <-. discriminate. }
  destruct (update_task_closing_frame (mkDate 2026 3 2) close_fields
              "ASHRA_75076-AbhishekKumar-20260223" "Completed"
              (sheet_of [sample_row]) 1 sample_row (mkDate 2026 2 23) (mkDate 2026 3 1)
              eq_refl ltac:(discriminate) eq_refl (or_introl eq_refl) I I eq_refl eq_refl
              Hfirst eq_refl eq_refl)
    as [r' [Hrun [_ [Hdays [_ [Hdel [_ [_ [_ [_ [Hdesc [Hcli _]]]]]]]]]]]].
  exists r'. repeat split; [exact Hrun | exact Hdays | exact Hdel | exact Hdesc | exact Hcli].
Defined.

(** The sample task, closed one day after its TAT, with a reassignment. *)
Example update_task_sample :
  sheet2 (snd (update_task (mkDate 2026 3 2)
                 (JObject (<["newWorker" := JStr " Ravi "]> close_fields))
                 (sheet_of [sample_row])))
  = Some [HEADER;
          ["2026-02-23"; "Audit"; "Ashraf Traders"; "2026-03-01"; "books";
           "Ravi"; "NONE"; "Completed"; "2026-03-02"; "6"; "7"; "Late Submission";
           "ASHRA_75076-AbhishekKumar-20260223"]].
Proof. reflexivity. Qed.

(** ** C9: an identifier that is not in the sheet *)

(** On a tab without rows no stored row carries the identifier, the answer
    is 404, and yet the store has been written: the self-healing step put
    the header row in before the lookup. *)
Lemma update_not_found_writes_header_counterexample :
  sheet2 empty_tab = Some []
  /\ update_task (mkDate 2026 3 2) (JObject unknown_fields) empty_tab
     = (mkResponse 404 (ErrorBody "Task ID 'NO-SUCH-TASK' not found"),
        mkWorld (Some [HEADER])
          [SpreadsheetsGet; ValuesGet A1_M1; ValuesUpdate A1_M1 HEADER; ValuesGet A_M])
  /\ ~ writes_nothing empty_tab
         (snd (update_task (mkDate 2026 3 2) (JObject unknown_fields) empty_tab)).
Proof.
  split; [reflexivity|]. split; [reflexivity|].
  intros [Hsheet _]. discriminate Hsheet.
Qed.

(** C9, amended. For every well-formed update request (non-blank taskId and
    newStatus) whose stripped identifier equals the stripped identifier
    cell of no row fetched from the sheet, the update answers 404 with the
    "not found" message, distinct from the 400 and 500 answers, and issues
    no row update or append: after the self-healing step, which creates a
    missing tab or header row, it only reads. When tab and header row
    already exist nothing is written to the store. *)
Theorem update_task_not_found (today : date) (data : json)
    (task_id new_status : string) (w : world) :
  get_strip data "taskId" "" = Ok task_id -> task_id <> "" ->
  get_strip data "newStatus" "" = Ok new_status -> new_status <> "" ->
  Forall (fun r => PyStr.strip (safe_get r COL.ID) <> task_id)
    (after_ensure (sheet2 w)) ->
  fst (update_task today data w)
  = mkResponse 404 (ErrorBody ("Task ID '" +:+ task_id +:+ "' not found"))
  /\ sheet2 (snd (update_task today data w)) = Some (after_ensure (sheet2 w))
  /\ new_calls w (snd (update_task today data w))
     = ensure_calls (sheet2 w) ++ [ValuesGet A_M]
  /\ (forall c, In c (new_calls w (snd (update_task today data w))) ->
                is_write c = true ->
                c = BatchUpdateAddSheet \/ c = ValuesUpdate A1_M1 HEADER)
  /\ (forall cells, sheet2 w = Some cells -> header_values cells <> [] ->
                    writes_nothing w (snd (update_task today data w))).
Proof.
  intros Hid Nid Hst Nst Hnone.
  rewrite (update_task_not_found_run today data task_id new_status w
             Hid Nid Hst Nst Hnone).
  cbn [fst snd sheet2]. rewrite new_calls_app.
  split; [reflexivity|]. split; [reflexivity|]. split; [reflexivity|]. split.
  - intros c Hin Hwrite. unfold ensure_calls in Hin.
    destruct (sheet2 w) as [cells|]; cbv [default from_option id] in Hin;
      destruct (header_values _); cbn [app In] in Hin;
      repeat (destruct Hin as [<- | Hin]; [try discriminate Hwrite; auto|]);
      destruct Hin.
  - intros cells Hcells Hhdr. unfold writes_nothing. rewrite new_calls_app.
    rewrite Hcells, (after_ensure_with_header cells Hhdr),
      (ensure_calls_with_header cells Hhdr).
    split; reflexivity.
Qed.

Lemma update_task_not_found_witness :
  get_strip (JObject unknown_fields) "taskId" "" = Ok "NO-SUCH-TASK"
  /\ get_strip (JObject unknown_fields) "newStatus" "" = Ok "In Progress"
  /\ fst (update_task (mkDate 2026 3 2) (JObject unknown_fields) (sheet_of [sample_row]))
     = mkResponse 404 (ErrorBody "Task ID 'NO-SUCH-TASK' not found")
  /\ writes_nothing (sheet_of [sample_row])
       (snd (update_task (mkDate 2026 3 2) (JObject unknown_fields)
               (sheet_of [sample_row]))).
Proof.
  split; [reflexivity|]. split; [reflexivity|].
  assert (Hnone : Forall (fun r => PyStr.strip (safe_get r COL.ID) <> "NO-SUCH-TASK")
                    (after_ensure (sheet2 (sheet_of [sample_row])))).
  { repeat constructor; discriminate. }
  destruct (update_task_not_found (mkDate 2026 3 2) (JObject unknown_fields)
              "NO-SUCH-TASK" "In Progress" (sheet_of [sample_row])
              eq_refl ltac:(discriminate) eq_refl ltac:(discriminate) Hnone)
    as [Hresp [_ [_ [_ Hquiet]]]].
  split; [exact Hresp|].
  apply (Hquiet [HEADER; sample_row]); [reflexivity | discriminate].
Defined.

(** A blank newStatus is answered 400 and a null taskId 500, both before any
    remote call: the 404 answer is a separate outcome. *)
Example update_task_other_failures :
  update_task (mkDate 2026 3 2) (obj [("taskId", JStr "NO-SUCH-TASK")]) empty_tab
  = (mkResponse 400 (ErrorBody "newStatus is required"), empty_tab)
  /\ update_task (mkDate 2026 3 2) (obj [("taskId", JNull)]) empty_tab
     = (mkResponse 500 (ErrorBody "'NoneType' object has no attribute 'strip'"),
        empty_tab).
Proof. split; reflexivity. Qed.

(** ** C10: the header row is part of the lookup *)

Lemma after_ensure_header_facts (rest : list row) :
  after_ensure None = [HEADER]
  /\ after_ensure (Some []) = [HEADER]
  /\ after_ensure (Some (HEADER :: rest)) = HEADER :: rest
  /\ PyStr.strip (safe_get HEADER COL.ID) = "ID".
Proof. repeat split. Qed.

(** C10. The lookup of the update flow scans every fetched row, the header
    row included: when the first row's identifier cell is the header label
    "ID", a well-formed update request with taskId "ID" is answered 200, not
    404, and sheet row 1 is overwritten with the row carrying the new status
    and today's date. *)
Theorem update_task_header_label_matches (today : date)
    (fields : gmap string json) (new_status : string) (w : world)
    (hdr : row) (rest : list row) :
  get_strip (JObject fields) "taskId" "" = Ok "ID" ->
  get_strip (JObject fields) "newStatus" "" = Ok new_status -> new_status <> "" ->
  optional_str fields "newWorker" -> optional_str fields "newColleague" ->
  after_ensure (sheet2 w) = hdr :: rest ->
  PyStr.strip (safe_get hdr COL.ID) = "ID" ->
  exists r' : row,
    update_task today (JObject fields) w
    = (mkResponse 200 (UpdatedBody (updated_message "ID" new_status)),
       mkWorld (Some (r' :: rest))
         (calls w ++ ensure_calls (sheet2 w)
          ++ [ValuesGet A_M; ValuesUpdate (Ai_Mi 1) r']))
    /\ safe_get r' COL.Status = new_status
    /\ safe_get r' COL.ChnageOnStatus = strftime_iso today
    /\ safe_get r' COL.ID = safe_get hdr COL.ID
    /\ status_code (fst (update_task today (JObject fields) w)) <> 404.
Proof.
  intros Hid Hst Nst Hw Hc Hsheet Hlabel.
  assert (Hfind : find_target 0 (after_ensure (sheet2 w)) "ID" = Some (1%nat, pad hdr)).
  { rewrite Hsheet.
    apply (find_target_first (hdr :: rest) 0%nat 0%nat "ID" hdr eq_refl Hlabel).
    intros j r Hj. lia. }
  exists (updated_cells today fields new_status hdr).
  rewrite (update_task_run today fields "ID" new_status w 1 (pad hdr)
             Hid ltac:(discriminate) Hst Nst Hw Hc Hfind).
  rewrite updated_row_cells, Hsheet.
  repeat split. cbn [fst status_code]. discriminate.
Qed.

Lemma update_task_header_label_matches_witness :
  get_strip (JObject header_fields) "taskId" "" = Ok "ID"
  /\ after_ensure (sheet2 (sheet_of [sample_row])) = HEADER :: [sample_row]
  /\ exists r' : row,
      update_task (mkDate 2026 3 2) (JObject header_fields) (sheet_of [sample_row])
      = (mkResponse 200 (UpdatedBody (updated_message "ID" "In Progress")),
         mkWorld (Some [r'; sample_row])
           [SpreadsheetsGet; ValuesGet A1_M1; ValuesGet A_M; ValuesUpdate (Ai_Mi 1) r'])
      /\ safe_get r' COL.Status = "In Progress".
Proof.
  split; [reflexivity|]. split; [reflexivity|].
  destruct (update_task_header_label_matches (mkDate 2026 3 2) header_fields
              "In Progress" (sheet_of [sample_row]) HEADER [sample_row]
              eq_refl eq_refl ltac:(discriminate) I I eq_refl eq_refl)
    as [r' [Hrun [Hstatus _]]].
  exists r'. split; [exact Hrun | exact Hstatus].
Defined.

(** The header row after such a request, on a sheet that had none. *)
Example update_task_header_overwritten :
  update_task (mkDate 2026 3 2) (JObject header_fields) no_tab
  = (mkResponse 200 (UpdatedBody "Task 'ID' updated to 'In Progress' successfully."),
     mkWorld
       (Some [["Date"; "Tastype"; "Business ID"; "TAT"; "Task Describtion";
               "Employee Name"; "Collegaue"; "In Progress"; "2026-03-02";
               "Total DaysRequired"; "Total Days taken"; "Task Delivery Status";
               "ID"]])
       [SpreadsheetsGet; BatchUpdateAddSheet; ValuesGet A1_M1;
        ValuesUpdate A1_M1 HEADER; ValuesGet A_M;
        ValuesUpdate (Ai_Mi 1)
          ["Date"; "Tastype"; "Business ID"; "TAT"; "Task Describtion";
           "Employee Name"; "Collegaue"; "In Progress"; "2026-03-02";
           "Total DaysRequired"; "Total Days taken"; "Task Delivery Status";
           "ID"]]).
Proof. reflexivity. Qed.

(** * More of [app.py] *)

(** ** Reference lists of GET /api/sheet1 *)

Lemma filter_filter_and (p q : string -> bool) (l : list string) :
  List.filter p (List.filter q l) = List.filter (fun x => q x && p x) l.
Proof.
  induction l as [|x l IH]; [reflexivity|]. cbn [List.filter].
  destruct (q x); cbn [List.filter andb]; [destruct (p x)|]; now rewrite IH.
Qed.

Lemma filter_same (p q : string -> bool) (l : list string) :
  (forall x, p x = q x) -> List.filter p l = List.filter q l.
Proof.
  intros H. induction l as [|x l IH]; [reflexivity|].
  cbn [List.filter]. now rewrite H, IH.
Qed.

Lemma existsb_eqb_app (x y : string) (keys : list string) :
  existsb (String.eqb x) (keys ++ [y]) = existsb (String.eqb x) keys || String.eqb x y.
Proof. rewrite existsb_app. cbn [existsb]. now rewrite orb_false_r. Qed.

(** The accumulating loop computes the first occurrences that are not yet
    among the keys. *)
Lemma fromkeys_into_first_occurrences (xs : list string) :
  forall keys,
    fromkeys_into keys xs
    = keys ++ List.filter (fun y => negb (existsb (String.eqb y) keys))
                (first_occurrences xs).
Proof.
  induction xs as [|x rest IH]; intros keys.
  - cbn. now rewrite app_nil_r.
  - cbn [fromkeys_into first_occurrences List.filter].
    destruct (existsb (String.eqb x) keys) eqn:E; cbn [negb].
    + rewrite IH, filter_filter_and. f_equal. apply filter_same. intros y.
      destruct (String.eqb_spec y x) as [-> | Hne]; cbn [negb andb];
        [now rewrite E | reflexivity].
    + rewrite IH, <- app_assoc. cbn [app]. do 2 f_equal.
      rewrite filter_filter_and. apply filter_same. intros y.
      rewrite existsb_eqb_app, negb_orb. apply andb_comm.
Qed.

Lemma sheet1_loop_columns (data_rows : list row) :
  forall acc,
    sheet1_loop data_rows acc
    = mkSheet1
        (workers acc ++ flat_map (fun r => append_cell r 0 []) data_rows)
        (clients acc ++ flat_map (fun r => append_cell r 1 []) data_rows)
        (taskTypes acc ++ flat_map (fun r => append_cell r 2 []) data_rows).
Proof.
  assert (Hcell : forall r idx xs, append_cell r idx xs = xs ++ append_cell r idx []).
  { intros r idx xs. unfold append_cell. destruct (r !! idx) as [cell|];
      [destruct (String.eqb (PyStr.strip cell) "")|]; now rewrite ?app_nil_r. }
  induction data_rows as [|r rest IH]; intros [ws cs ts].
  - cbn. now rewrite !app_nil_r.
  - cbn [sheet1_loop flat_map workers clients taskTypes]. rewrite IH.
    cbn [workers clients taskTypes].
    rewrite (Hcell r 0%nat ws), (Hcell r 1%nat cs), (Hcell r 2%nat ts).
    now rewrite <- !app_assoc.
Qed.

Lemma first_occurrences_In (xs : list string) (x : string) :
  In x (first_occurrences xs) <-> In x xs.
Proof.
  induction xs as [|y rest IH]; [reflexivity|].
  cbn [first_occurrences In]. rewrite filter_In, IH. split.
  - intros [H | [H _]]; auto.
  - intros [H | H]; [now left|].
    destruct (String.eqb_spec x y) as [-> | Hne]; [now left|].
    right. split; [exact H | reflexivity].
Qed.

Lemma first_occurrences_NoDup (xs : list string) : List.NoDup (first_occurrences xs).
Proof.
  induction xs as [|y rest IH]; [constructor|].
  cbn [first_occurrences]. constructor.
  - rewrite filter_In. intros [_ H]. now rewrite String.eqb_refl in H.
  - now apply List.NoDup_filter.
Qed.

Lemma In_flat_map_append_cell (idx : nat) (data_rows : list row) (x : string) :
  In x (flat_map (fun r => append_cell r idx []) data_rows)
  <-> exists r cell, In r data_rows /\ r !! idx = Some cell
                     /\ PyStr.strip cell = x /\ x <> "".
Proof.
  rewrite in_flat_map. split.
  - intros [r [Hr Hx]]. unfold append_cell in Hx.
    destruct (r !! idx) as [cell|] eqn:E; [|destruct Hx].
    destruct (String.eqb_spec (PyStr.strip cell) "") as [Hb | Hnb]; [destruct Hx|].
    cbn [app In] in Hx. destruct Hx as [<- | []]. now exists r, cell.
  - intros [r [cell [Hr [E [<- Hne]]]]]. exists r. split; [exact Hr|].
    unfold append_cell. rewrite E. apply String.eqb_neq in Hne. rewrite Hne.
    now left.
Qed.

(** X1. Each list of the /api/sheet1 answer holds, without repetition and
    in the order of first appearance, exactly the non-blank stripped cells
    of its column in the rows after the header row: the header row never
    contributes, nor does a row too short to have the column. *)
Theorem get_sheet1_lists (rows : list row) (idx : nat) :
  (idx < 3)%nat ->
  sheet1_column idx (get_sheet1 rows)
  = first_occurrences (flat_map (fun r => append_cell r idx []) (tail rows))
  /\ List.NoDup (sheet1_column idx (get_sheet1 rows))
  /\ (forall x,
         In x (sheet1_column idx (get_sheet1 rows))
         <-> exists r cell, In r (tail rows) /\ r !! idx = Some cell
                            /\ PyStr.strip cell = x /\ x <> "").
Proof.
  intros Hidx.
  assert (E : sheet1_column idx (get_sheet1 rows)
              = first_occurrences
                  (flat_map (fun r => append_cell r idx []) (tail rows))).
  { unfold get_sheet1. rewrite sheet1_loop_columns. cbn [workers clients taskTypes app].
    unfold dict_fromkeys. rewrite !fromkeys_into_first_occurrences.
    cbn [existsb negb app].
    assert (Hall : forall l : list string, List.filter (fun _ => true) l = l).
    { induction l as [|y l IH]; [reflexivity|]. cbn. now rewrite IH. }
    rewrite !Hall.
    destruct idx as [|[|[|idx]]]; [| | |lia]; cbn [sheet1_column];
      now destruct rows. }
  rewrite E. split; [reflexivity|]. split; [apply first_occurrences_NoDup|].
  intros x. rewrite first_occurrences_In. apply In_flat_map_append_cell.
Qed.

Lemma get_sheet1_lists_witness :
  (0 < 3)%nat
  /\ sheet1_column 0 (get_sheet1 sample_sheet1) = ["Abhishek Kumar"; "Ravi"]
  /\ get_sheet1 sample_sheet1
     = mkSheet1 ["Abhishek Kumar"; "Ravi"] ["Ashraf Traders"; "Zed Corp"]
         ["Audit"; "GST"].
Proof.
  split; [lia|].
  destruct (get_sheet1_lists sample_sheet1 0 ltac:(lia)) as [E _].
  split; [rewrite E|]; reflexivity.
Defined.

(** ** Rows, padding and positions *)

Lemma safe_get_app_replicate (r : row) (n idx : nat) :
  safe_get (r ++ replicate n "") idx = safe_get r idx.
Proof.
  unfold safe_get. destruct (r !! idx) as [v|] eqn:E.
  - now rewrite (lookup_app_l_Some _ _ _ _ E).
  - apply lookup_ge_None in E. rewrite lookup_app_r by exact E.
    destruct (replicate n "" !! (idx - length r)%nat) as [v|] eqn:E2; [|reflexivity].
    now apply lookup_replicate_1 in E2 as [-> _].
Qed.

(** X2. Padding a row never changes what [safe_get] reads from it, at any
    index: the row is kept as a prefix, the cells added are empty strings,
    and the result has 13 cells, or as many as the row when it has more. *)
Theorem pad_keeps_cells (r : row) :
  (forall idx, safe_get (pad r) idx = safe_get r idx)
  /\ take (length r) (pad r) = r
  /\ length (pad r) = Nat.max 13 (length r)
  /\ pad (pad r) = pad r.
Proof.
  unfold pad, NUM_COLS. split; [intros idx; apply safe_get_app_replicate|].
  split; [apply take_app_length|].
  assert (Hlen : length (r ++ replicate (13 - length r) "") = Nat.max 13 (length r)).
  { rewrite length_app, length_replicate. lia. }
  split; [exact Hlen|].
  rewrite Hlen. replace (13 - Nat.max 13 (length r))%nat with 0%nat by lia.
  cbn [replicate]. apply app_nil_r.
Qed.

Lemma all_tasks_from_lookup (rows : list row) :
  forall (i k : nat) (r : row),
    rows !! k = Some r ->
    all_tasks_from i rows !! k = Some (task_of_row (i + k) r).
Proof.
  induction rows as [|r0 rest IH]; intros i k r Hk; [discriminate Hk|].
  destruct k as [|k]; cbn [all_tasks_from].
  - injection Hk as ->. cbn. do 2 f_equal. lia.
  - change (rest !! k = Some r) in Hk.
    change (all_tasks_from (S i) rest !! k = Some (task_of_row (i + S k) r)).
    rewrite (IH (S i) k r Hk). do 2 f_equal. lia.
Qed.

Lemma all_tasks_from_length (rows : list row) (i : nat) :
  length (all_tasks_from i rows) = length rows.
Proof.
  revert i. induction rows as [|r rest IH]; intros i; [reflexivity|].
  cbn [all_tasks_from length]. now rewrite IH.
Qed.

(** X3. In the full view there is one task per row after the first, in
    sheet order, and the position marker of each is the 1-based number of
    its sheet row: the row at 0-based index k+1 is the k-th task, with
    rowIndex k+2 and the cells of that row as fields. *)
Theorem get_tasks_positions (w : world) (k : nat) (r : row) :
  after_ensure (sheet2 w) !! S k = Some r ->
  exists tasks : list task,
    fst (get_tasks w) = mkResponse 200 (TasksBody tasks)
    /\ length tasks = (length (after_ensure (sheet2 w)) - 1)%nat
    /\ tasks !! k = Some (task_of_row (k + 2) r)
    /\ (forall t, tasks !! k = Some t ->
                  rowIndex t = (k + 2)%nat /\ t_ID t = safe_get r COL.ID
                  /\ t_Status t = safe_get r COL.Status).
Proof.
  intros Hk. rewrite get_tasks_run. cbn [fst].
  exists (all_tasks_from 2 (tail (after_ensure (sheet2 w)))).
  assert (Htail : tail (after_ensure (sheet2 w)) !! k = Some r).
  { destruct (after_ensure (sheet2 w)) as [|h rest]; [discriminate Hk | exact Hk]. }
  pose proof (all_tasks_from_lookup _ 2%nat k r Htail) as Hl.
  replace (2 + k)%nat with (k + 2)%nat in Hl by lia.
  split; [reflexivity|]. split.
  { rewrite all_tasks_from_length. now destruct (after_ensure (sheet2 w)); cbn; lia. }
  split; [exact Hl|].
  intros t Ht. rewrite Hl in Ht. injection Ht as <-. repeat split.
Qed.

Lemma get_tasks_positions_witness :
  after_ensure (sheet2 (sheet_of [lowercase_status_row; sample_row])) !! 2%nat
    = Some sample_row
  /\ exists tasks : list task,
      fst (get_tasks (sheet_of [lowercase_status_row; sample_row]))
      = mkResponse 200 (TasksBody tasks)
      /\ tasks !! 1%nat = Some (task_of_row 3 sample_row).
Proof.
  split; [reflexivity|].
  destruct (get_tasks_positions (sheet_of [lowercase_status_row; sample_row]) 1
              sample_row eq_refl) as [tasks [H1 [_ [H2 _]]]].
  exists tasks. split; [exact H1 | exact H2].
Defined.

(** ** The self-healing step *)

Lemma header_not_blank : forallb (String.eqb "") HEADER = false.
Proof. reflexivity. Qed.

Lemma after_ensure_has_header (s : option (list row)) :
  header_values (after_ensure s) <> [].
Proof.
  cbv [after_ensure default from_option id].
  destruct s as [cells|].
  - destruct (header_values cells) as [|h t] eqn:E.
    + destruct cells as [|r rest]; cbn; discriminate.
    + rewrite E. discriminate.
  - cbn. discriminate.
Qed.

(** X4. [ensure_sheet2_with_header] always succeeds and leaves a sheet whose
    first row is not blank; it never touches a row after the first; and
    it is idempotent: run again on its own result it only reads (the tab
    list and row 1) and changes nothing. *)
Theorem ensure_sheet2_with_header_idempotent (w : world) :
  exists cells : list row,
    ensure_sheet2_with_header w
    = (Ok tt, mkWorld (Some cells) (calls w ++ ensure_calls (sheet2 w)))
    /\ header_values cells <> []
    /\ drop 1 cells = drop 1 (default [] (sheet2 w))
    /\ (forall cs : list call,
           ensure_sheet2_with_header (mkWorld (Some cells) cs)
           = (Ok tt, mkWorld (Some cells) (cs ++ [SpreadsheetsGet; ValuesGet A1_M1]))).
Proof.
  exists (after_ensure (sheet2 w)). split; [apply ensure_run|].
  pose proof (after_ensure_has_header (sheet2 w)) as Hh.
  split; [exact Hh|]. split.
  - cbv [after_ensure default from_option id].
    destruct (sheet2 w) as [cells|]; [|reflexivity].
    destruct (header_values cells); [|reflexivity].
    now destruct cells.
  - intros cs. rewrite ensure_run. cbn [sheet2 calls].
    now rewrite (after_ensure_with_header _ Hh), (ensure_calls_with_header _ Hh).
Qed.

(** X5. On a sheet whose tab and header row exist, both listing endpoints
    are read-only: they answer 200, issue no write and leave the sheet as
    it was. *)
Theorem listing_is_read_only (w : world) (cells : list row) :
  sheet2 w = Some cells ->
  header_values cells <> [] ->
  status_code (fst (get_tasks w)) = 200
  /\ status_code (fst (get_active_tasks w)) = 200
  /\ writes_nothing w (snd (get_tasks w))
  /\ writes_nothing w (snd (get_active_tasks w))
  /\ new_calls w (snd (get_tasks w)) = [SpreadsheetsGet; ValuesGet A1_M1; ValuesGet A_M].
Proof.
  intros Hs Hh. rewrite get_tasks_run, get_active_tasks_run. cbn [fst snd].
  unfold writes_nothing. rewrite !new_calls_app. cbn [sheet2].
  rewrite Hs, (after_ensure_with_header _ Hh), (ensure_calls_with_header _ Hh).
  repeat split.
Qed.

Lemma listing_is_read_only_witness :
  sheet2 (sheet_of [sample_row]) = Some [HEADER; sample_row]
  /\ header_values [HEADER; sample_row] <> []
  /\ writes_nothing (sheet_of [sample_row]) (snd (get_tasks (sheet_of [sample_row]))).
Proof.
  split; [reflexivity|]. split; [discriminate|].
  apply (listing_is_read_only (sheet_of [sample_row]) [HEADER; sample_row] eq_refl).
  discriminate.
Defined.

(** ** Dates *)

Lemma strptime_valid (s : string) (fmt : list directive) (d : date) :
  strptime s fmt = Some d -> valid_date d.
Proof.
  unfold strptime, make_date, valid_date.
  destruct (regex_match fmt s (mkGroups "" "" "")) as [[g [|c rest]]|];
    try discriminate.
  destruct (valid_ymd _ _ _) eqn:E; [|discriminate].
  intros H. injection H as <-. exact E.
Qed.

Lemma parse_date_loop_valid (fmts : list (list directive)) (s : string) (d : date) :
  parse_date_loop fmts s = Some d -> valid_date d.
Proof.
  induction fmts as [|fmt rest IH]; cbn [parse_date_loop]; [discriminate|].
  destruct (strptime (PyStr.strip s) fmt) as [d'|] eqn:E; [|exact IH].
  intros H. injection H as <-. exact (strptime_valid _ _ _ E).
Qed.

(** X6. Whatever the input, a date returned by [parse_date] is a real
    calendar date: year in 1..9999, month in 1..12, day within the length of
    that month (29 February only in leap years). *)
Theorem parse_date_returns_valid_dates (date_str : string) (d : date) :
  parse_date date_str = Some d ->
  1 <= year d <= 9999 /\ 1 <= month d <= 12
  /\ 1 <= day d <= days_in_month (year d) (month d).
Proof.
  intros H. apply parse_date_loop_valid in H. unfold valid_date, valid_ymd in H.
  repeat (apply andb_true_iff in H; destruct H as [H ?]).
  repeat match goal with
         | [ H : (_ <=? _) = true |- _ ] => apply Z.leb_le in H
         end.
  lia.
Qed.

Lemma parse_date_returns_valid_dates_witness :
  parse_date "29/02/2024" = Some (mkDate 2024 2 29)
  /\ 1 <= 29 <= days_in_month 2024 2.
Proof.
  split; [reflexivity|].
  apply (parse_date_returns_valid_dates "29/02/2024" (mkDate 2024 2 29) eq_refl).
Defined.

(** X7. A date written by the handlers reads back: for every valid date
    from year 1000 on, [parse_date] of its ISO writing (the format of the
    Date and status-changed cells) is that date. *)
Theorem parse_date_reads_iso_back (d : date) :
  valid_date d -> 1000 <= year d -> parse_date (strftime_iso d) = Some d.
Proof. intros Hv _. now apply parse_date_strftime_iso. Qed.

Lemma parse_date_reads_iso_back_witness :
  valid_date (mkDate 2026 2 23)
  /\ 1000 <= year (mkDate 2026 2 23)
  /\ strftime_iso (mkDate 2026 2 23) = "2026-02-23"
  /\ parse_date (strftime_iso (mkDate 2026 2 23)) = Some (mkDate 2026 2 23).
Proof.
  split; [reflexivity|]. split; [cbn; lia|]. split; [reflexivity|].
  apply (parse_date_reads_iso_back (mkDate 2026 2 23)); [reflexivity | cbn; lia].
Defined.

Lemma valid_date_bounds (d : date) :
  valid_date d ->
  1 <= year d /\ 1 <= month d <= 12 /\ 1 <= day d <= days_in_month (year d) (month d).
Proof.
  unfold valid_date, valid_ymd. intros H.
  repeat (apply andb_true_iff in H; destruct H as [H ?]).
  repeat match goal with
         | [ H : (_ <=? _) = true |- _ ] => apply Z.leb_le in H
         end.
  lia.
Qed.

Lemma days_before_year_succ (y : Z) :
  days_before_year (y + 1)
  = days_before_year y + 365 + (if is_leap y then 1 else 0).
Proof.
  unfold days_before_year, is_leap. replace (y + 1 - 1) with y by lia.
  destruct (Z.eqb_spec (y mod 4) 0); destruct (Z.eqb_spec (y mod 100) 0);
    destruct (Z.eqb_spec (y mod 400) 0); cbn [negb andb orb];
    Z.to_euclidean_division_equations; lia.
Qed.

Lemma days_before_year_mono (y y' : Z) :
  y <= y' -> days_before_year y <= days_before_year y'.
Proof.
  unfold days_before_year. intros H. Z.to_euclidean_division_equations. lia.
Qed.

Lemma month_cases (m : Z) :
  1 <= m <= 12 ->
  m = 1 \/ m = 2 \/ m = 3 \/ m = 4 \/ m = 5 \/ m = 6 \/ m = 7 \/ m = 8 \/ m = 9
  \/ m = 10 \/ m = 11 \/ m = 12.
Proof. lia. Qed.

Lemma days_before_month_bounds (y m : Z) :
  1 <= m <= 12 ->
  0 <= days_before_month y m
  /\ days_before_month y m + days_in_month y m
     <= 365 + (if is_leap y then 1 else 0).
Proof.
  intros H. apply month_cases in H. unfold days_before_month, days_in_month.
  destruct (is_leap y);
    repeat (destruct H as [-> | H]; [cbn; lia|]); subst; cbn; lia.
Qed.

Lemma days_before_month_step (y m m' : Z) :
  1 <= m -> m < m' -> m' <= 12 ->
  days_before_month y m + days_in_month y m <= days_before_month y m'.
Proof.
  intros H1 H2 H3.
  assert (Hm : 1 <= m <= 12) by lia. assert (Hm' : 1 <= m' <= 12) by lia.
  apply month_cases in Hm. apply month_cases in Hm'.
  unfold days_before_month, days_in_month.
  destruct (is_leap y);
    repeat (destruct Hm as [-> | Hm]);
    repeat (destruct Hm' as [-> | Hm']); subst; try lia; cbn; lia.
Qed.

Lemma toordinal_lt (a b : date) :
  valid_date a -> valid_date b -> date_lt a b -> toordinal a < toordinal b.
Proof.
  intros Ha Hb Hlt.
  apply valid_date_bounds in Ha, Hb.
  destruct Ha as [Hya [Hma Hda]]. destruct Hb as [Hyb [Hmb Hdb]].
  unfold toordinal.
  pose proof (days_before_month_bounds (year a) (month a) Hma) as [Ha0 Ha1].
  pose proof (days_before_month_bounds (year b) (month b) Hmb) as [Hb0 Hb1].
  destruct Hlt as [Hy | [Hy [Hm | [Hm Hd]]]].
  - pose proof (days_before_year_succ (year a)) as Hs.
    pose proof (days_before_year_mono (year a + 1) (year b) ltac:(lia)). lia.
  - rewrite <- Hy in *.
    pose proof (days_before_month_step (year a) (month a) (month b)
                  ltac:(lia) Hm ltac:(lia)). lia.
  - rewrite <- Hy, <- Hm in *. lia.
Qed.

Lemma date_trichotomy (a b : date) : date_lt a b \/ a = b \/ date_lt b a.
Proof.
  destruct a as [ya ma da], b as [yb mb db]. unfold date_lt. cbn [year month day].
  destruct (Z.lt_trichotomy ya yb) as [Hy | [Hy | Hy]];
    destruct (Z.lt_trichotomy ma mb) as [Hm | [Hm | Hm]];
    destruct (Z.lt_trichotomy da db) as [Hd | [Hd | Hd]];
    first [ left; lia | right; right; lia | right; left; subst; reflexivity ].
Qed.

Lemma toordinal_lt_iff (a b : date) :
  valid_date a -> valid_date b -> (toordinal a < toordinal b <-> date_lt a b).
Proof.
  intros Ha Hb. split; [|now apply toordinal_lt].
  intros H. destruct (date_trichotomy a b) as [Hlt | [-> | Hgt]]; [exact Hlt|lia|].
  pose proof (toordinal_lt b a Hb Ha Hgt). lia.
Qed.

(** On valid dates the ordinal follows the calendar: an earlier date
    has a smaller ordinal, and two dates with the same ordinal are the same
    date, so (a - b).days is 0 only for a = b and positive exactly when a
    is after b. *)
Theorem toordinal_calendar_order (a b : date) :
  valid_date a -> valid_date b ->
  (sub_days a b > 0 <-> date_lt b a)
  /\ (sub_days a b = 0 <-> a = b)
  /\ (sub_days a b < 0 <-> date_lt a b).
Proof.
  intros Ha Hb. unfold sub_days.
  pose proof (toordinal_lt_iff a b Ha Hb) as Hab.
  pose proof (toordinal_lt_iff b a Hb Ha) as Hba.
  split; [rewrite <- Hba; lia|]. split; [|rewrite <- Hab; lia].
  split; [|intros ->; lia].
  intros H. destruct (date_trichotomy a b) as [Hlt | [-> | Hgt]]; [|reflexivity|].
  - apply Hab in Hlt. lia.
  - apply Hba in Hgt. lia.
Qed.

(** X8. For valid dates the delivery status is "On Time" exactly when the
    completion date is not after the TAT date in the calendar. *)
Theorem on_time_iff_not_after_tat (tat_date completion_date : date) :
  valid_date tat_date -> valid_date completion_date ->
  (get_delivery_status tat_date completion_date = "On Time"
   <-> ~ date_lt tat_date completion_date).
Proof.
  intros Ht Hc. pose proof (toordinal_lt_iff tat_date completion_date Ht Hc) as Hiff.
  unfold get_delivery_status, sub_days.
  destruct (Z.leb_spec (toordinal completion_date - toordinal tat_date) 0) as [Hle | Hgt].
  - split; [|reflexivity]. intros _ Hlt. apply Hiff in Hlt. lia.
  - split.
    + destruct (toordinal completion_date - toordinal tat_date =? 1); discriminate.
    + intros Hn. exfalso. apply Hn, Hiff. lia.
Qed.

Lemma on_time_iff_not_after_tat_witness :
  valid_date (mkDate 2024 1 10) /\ valid_date (mkDate 2023 12 31)
  /\ get_delivery_status (mkDate 2024 1 10) (mkDate 2023 12 31) = "On Time".
Proof.
  split; [reflexivity|]. split; [reflexivity|].
  apply (on_time_iff_not_after_tat (mkDate 2024 1 10) (mkDate 2023 12 31));
    [reflexivity | reflexivity |].
  unfold date_lt. cbn [year month day]. lia.
Defined.

(** ** The shape of a task identifier *)

Lemma no_space_app (a b : string) : no_space (a +:+ b) = no_space a && no_space b.
Proof.
  unfold no_space. induction a as [|c r IH]; [reflexivity|].
  rewrite append_cons. cbn [list_ascii_of_string forallb]. rewrite IH.
  now rewrite andb_assoc.
Qed.

Lemma no_space_remove_spaces (s : string) : no_space (PyStr.remove_spaces s) = true.
Proof.
  unfold no_space. induction s as [|c r IH]; [reflexivity|].
  cbn [PyStr.remove_spaces]. destruct (Ascii.eqb c " ") eqn:E; [exact IH|].
  cbn [list_ascii_of_string forallb]. now rewrite E, IH.
Qed.

Lemma no_space_take (n : nat) (s : string) :
  no_space s = true -> no_space (PyStr.take n s) = true.
Proof.
  unfold no_space. revert s. induction n as [|k IH]; intros [|c r] H; try reflexivity.
  cbn [PyStr.take list_ascii_of_string forallb] in *.
  apply andb_true_iff in H as [Hc Hr]. now rewrite Hc, IH.
Qed.

Lemma upper_char_no_space (c : ascii) :
  no_space (PyStr.upper_char c) = negb (Ascii.eqb c " ").
Proof. destruct c as [[] [] [] [] [] [] [] []]; reflexivity. Qed.

Lemma no_space_upper (s : string) : no_space (PyStr.upper s) = no_space s.
Proof.
  induction s as [|c r IH]; [reflexivity|].
  cbn [PyStr.upper]. rewrite no_space_app, upper_char_no_space, IH. reflexivity.
Qed.

Lemma digit_char_no_space (k : Z) :
  0 <= k <= 9 -> Ascii.eqb (PyStr.digit_char k) " " = false.
Proof.
  intros H.
  assert (Hk : k = 0 \/ k = 1 \/ k = 2 \/ k = 3 \/ k = 4 \/ k = 5 \/ k = 6
               \/ k = 7 \/ k = 8 \/ k = 9) by lia.
  repeat (destruct Hk as [-> | Hk]; [reflexivity |]). subst; reflexivity.
Qed.

Lemma no_space_digits_acc (fuel : nat) :
  forall n acc, no_space acc = true -> no_space (PyStr.digits_acc fuel n acc) = true.
Proof.
  induction fuel as [|f IH]; intros n acc Hacc; [exact Hacc|].
  cbn [PyStr.digits_acc].
  assert (H : no_space (String (PyStr.digit_char (n mod 10)) acc) = true).
  { unfold no_space in *. cbn [list_ascii_of_string forallb].
    now rewrite digit_char_no_space, Hacc by apply mod10_range. }
  destruct (n / 10 =? 0); [exact H | now apply IH].
Qed.

Lemma no_space_str_of_int (n : Z) : no_space (PyStr.str_of_int n) = true.
Proof.
  unfold PyStr.str_of_int, PyStr.str_of_nonneg.
  destruct (n <? 0).
  - change (no_space (String "-" ?s)) with (no_space s).
    now apply no_space_digits_acc.
  - now apply no_space_digits_acc.
Qed.

Lemma no_space_zero_padded (w : nat) (n : Z) : no_space (PyStr.zero_padded w n) = true.
Proof.
  revert n. induction w as [|k IH]; intros n; [reflexivity|].
  cbn [PyStr.zero_padded]. rewrite no_space_app, IH.
  unfold no_space. cbn [list_ascii_of_string forallb].
  now rewrite digit_char_no_space by apply mod10_range.
Qed.

Lemma take_length_min (n : nat) (s : string) :
  String.length (PyStr.take n s) = Nat.min n (String.length s).
Proof.
  revert s. induction n as [|k IH]; intros [|c r]; try reflexivity.
  cbn [PyStr.take String.length]. now rewrite IH.
Qed.

Lemma ascii_only_take (n : nat) (s : string) :
  ascii_only s = true -> ascii_only (PyStr.take n s) = true.
Proof.
  revert s. induction n as [|k IH]; intros [|c r] H; try reflexivity.
  rewrite ascii_only_cons in H. apply andb_true_iff in H as [Hc Hr].
  cbn [PyStr.take]. rewrite ascii_only_cons, Hc. now apply IH.
Qed.

Lemma upper_char_ascii_fixed (c : ascii) :
  (PyStr.ord c <? 128) = true ->
  exists c' : ascii,
    PyStr.upper_char c = String c' EmptyString
    /\ PyStr.upper_char c' = String c' EmptyString.
Proof.
  destruct c as [[] [] [] [] [] [] [] []]; intros H; vm_compute in H;
    try discriminate H; eexists; split; reflexivity.
Qed.

(** On characters below 128 [upper] keeps the length and is idempotent. *)
Lemma upper_ascii (s : string) :
  ascii_only s = true ->
  String.length (PyStr.upper s) = String.length s
  /\ PyStr.upper (PyStr.upper s) = PyStr.upper s.
Proof.
  induction s as [|c r IH]; intros H; [split; reflexivity|].
  rewrite ascii_only_cons in H. apply andb_true_iff in H as [Hc Hr].
  destruct (IH Hr) as [Hlen Hidem].
  destruct (upper_char_ascii_fixed c Hc) as [c' [E E']].
  cbn [PyStr.upper]. rewrite E. rewrite !append_cons.
  change (EmptyString +:+ PyStr.upper r) with (PyStr.upper r).
  cbn [PyStr.upper String.length]. rewrite E', Hlen, append_cons.
  change (EmptyString +:+ PyStr.upper (PyStr.upper r)) with (PyStr.upper (PyStr.upper r)).
  now rewrite Hidem.
Qed.

(** X9. For every client identifier made of characters below 128, and
    every worker name, date and draw, the generated identifier contains no
    space character and starts with the client code followed by an
    underscore, where the client code is the upper case of the first five
    characters of the client identifier that are not spaces: it has
    exactly min(5, number of such characters) characters and is unchanged
    by upper-casing. *)
Theorem generate_task_id_shape (client_name worker_name : string) (today : date)
    (draw : Z) :
  ascii_only client_name = true ->
  no_space (generate_task_id client_name worker_name today draw) = true
  /\ (exists rest : string,
        generate_task_id client_name worker_name today draw
        = PyStr.upper (PyStr.take 5 (PyStr.remove_spaces client_name))
            +:+ String "_" rest)
  /\ String.length (PyStr.upper (PyStr.take 5 (PyStr.remove_spaces client_name)))
     = Nat.min 5 (String.length (PyStr.remove_spaces client_name))
  /\ PyStr.upper (PyStr.upper (PyStr.take 5 (PyStr.remove_spaces client_name)))
     = PyStr.upper (PyStr.take 5 (PyStr.remove_spaces client_name))
  /\ no_space (PyStr.upper (PyStr.take 5 (PyStr.remove_spaces client_name))) = true.
Proof.
  intros Ha.
  assert (Hcode : ascii_only (PyStr.take 5 (PyStr.remove_spaces client_name)) = true)
    by now apply ascii_only_take, ascii_only_remove_spaces.
  destruct (upper_ascii _ Hcode) as [Hlen Hidem].
  assert (Hns : no_space (PyStr.upper (PyStr.take 5 (PyStr.remove_spaces client_name)))
                = true).
  { rewrite no_space_upper. apply no_space_take, no_space_remove_spaces. }
  split.
  { unfold generate_task_id, strftime_compact.
    rewrite !no_space_app, Hns, no_space_str_of_int, no_space_remove_spaces,
      !no_space_zero_padded. reflexivity. }
  split; [eexists; reflexivity|].
  split; [rewrite Hlen; apply take_length_min|].
  split; [exact Hidem | exact Hns].
Qed.

Lemma generate_task_id_shape_witness :
  ascii_only "Ashraf Traders" = true
  /\ no_space (generate_task_id "Ashraf Traders" "Abhishek Kumar"
                 (mkDate 2026 2 23) 75076) = true
  /\ String.length (PyStr.upper (PyStr.take 5 (PyStr.remove_spaces "Ashraf Traders")))
     = 5%nat.
Proof.
  split; [reflexivity|].
  destruct (generate_task_id_shape "Ashraf Traders" "Abhishek Kumar"
              (mkDate 2026 2 23) 75076 eq_refl) as [Hns [_ [Hlen _]]].
  split; [exact Hns | exact Hlen].
Defined.

(** ** From creation to listing and update *)

Lemma strip_head (s : string) :
  PyStr.strip s <> "" ->
  exists c r, PyStr.strip s = String c r /\ PyStr.is_space c = false.
Proof.
  unfold PyStr.strip. intros Hne.
  destruct (lstrip_head s) as [E | [c [r [E Hc]]]]; rewrite E in *.
  - now destruct Hne.
  - destruct (rstrip_keeps_head c r Hc) as [r' E']. now exists c, r'.
Qed.

(** The upper case of a character that is not white space starts with a
    character that is not white space. *)
Lemma upper_char_head (c : ascii) :
  PyStr.is_space c = false ->
  exists c' r', PyStr.upper_char c = String c' r' /\ PyStr.is_space c' = false.
Proof.
  destruct c as [[] [] [] [] [] [] [] []]; intros H; vm_compute in H;
    try discriminate H; eexists _, _; split; reflexivity.
Qed.

Lemma not_space_not_blank (c : ascii) :
  PyStr.is_space c = false -> Ascii.eqb c " " = false.
Proof.
  intros H. destruct (Ascii.eqb_spec c " ") as [-> | Hne]; [discriminate H | reflexivity].
Qed.

(** Appending in front keeps a string that [rstrip] leaves alone that way. *)
Lemma rstrip_app_stable (a b : string) :
  b <> "" /\ PyStr.rstrip b = b ->
  a +:+ b <> "" /\ PyStr.rstrip (a +:+ b) = a +:+ b.
Proof.
  intros [Hne Hb]. induction a as [|c r [IHne IH]]; [now split|].
  rewrite append_cons. split; [discriminate|].
  cbn [PyStr.rstrip]. rewrite IH. destruct (r +:+ b); [now destruct IHne | reflexivity].
Qed.

Lemma rstrip_zero_padded (k : nat) (n : Z) :
  PyStr.zero_padded (S k) n <> "" /\
  PyStr.rstrip (PyStr.zero_padded (S k) n) = PyStr.zero_padded (S k) n.
Proof.
  cbn [PyStr.zero_padded]. apply rstrip_app_stable. split; [discriminate|].
  cbn [PyStr.rstrip]. now rewrite digit_char_not_space by apply mod10_range.
Qed.

(** The identifier built from a stripped, non-blank client identifier has
    no white space at either end, so stripping it changes nothing. *)
Lemma generate_task_id_strip_stable (client_id worker_name : string) (today : date)
    (random_num : Z) :
  PyStr.strip client_id <> "" ->
  PyStr.strip (generate_task_id (PyStr.strip client_id) worker_name today random_num)
  = generate_task_id (PyStr.strip client_id) worker_name today random_num
  /\ generate_task_id (PyStr.strip client_id) worker_name today random_num <> "".
Proof.
  intros Hne.
  assert (Hr : generate_task_id (PyStr.strip client_id) worker_name today random_num
               <> ""
               /\ PyStr.rstrip
                    (generate_task_id (PyStr.strip client_id) worker_name today
                       random_num)
                  = generate_task_id (PyStr.strip client_id) worker_name today
                      random_num).
  { unfold generate_task_id, strftime_compact.
    apply rstrip_app_stable, rstrip_app_stable, rstrip_app_stable, rstrip_app_stable,
      rstrip_app_stable, rstrip_app_stable, rstrip_app_stable, rstrip_app_stable,
      rstrip_zero_padded. }
  assert (Hl : exists c' rest,
             generate_task_id (PyStr.strip client_id) worker_name today random_num
             = String c' rest /\ PyStr.is_space c' = false).
  { destruct (strip_head client_id Hne) as [c [r [E Hc]]].
    destruct (upper_char_head c Hc) as [c' [r' [Eu Hc']]].
    unfold generate_task_id. rewrite E.
    cbn [PyStr.remove_spaces]. rewrite (not_space_not_blank c Hc).
    cbn [PyStr.take PyStr.upper]. rewrite Eu, !append_cons.
    eexists _, _. split; [reflexivity | exact Hc']. }
  destruct Hr as [Hnonempty Hrstrip]. split; [|exact Hnonempty].
  destruct Hl as [c' [rest [E Hc']]].
  unfold PyStr.strip. rewrite E at 1. cbn [PyStr.lstrip]. rewrite Hc', <- E.
  exact Hrstrip.
Qed.

Lemma find_first_match (rows : list row) (task_id : string) :
  Exists (fun r => PyStr.strip (safe_get r COL.ID) = task_id) rows ->
  exists k stored, first_match rows task_id k stored.
Proof.
  induction rows as [|r rest IH]; intros H; [inversion H|].
  destruct (String.eqb_spec (PyStr.strip (safe_get r COL.ID)) task_id) as [E | Hne].
  - exists 0%nat, r. split; [reflexivity|]. split; [exact E|]. intros j r' Hj. lia.
  - inversion H as [? ? Hhd | ? ? Htl]; subst; [contradiction|].
    destruct (IH Htl) as [k [stored [Hk [Hid Hfirst]]]].
    exists (S k), stored. split; [exact Hk|]. split; [exact Hid|].
    intros [|j] r' Hj Hr'.
    + injection Hr' as <-. exact Hne.
    + apply (Hfirst j r'); [lia | exact Hr'].
Qed.

(** A well-formed update request whose identifier the lookup finds in row
    [k]: that row is rewritten in place, and nothing else is written. *)
Lemma update_task_found (today : date) (fields : gmap string json)
    (task_id new_status : string) (w : world) (k : nat) (stored : row) :
  update_request fields task_id new_status ->
  first_match (after_ensure (sheet2 w)) task_id k stored ->
  update_task today (JObject fields) w
  = (mkResponse 200 (UpdatedBody (updated_message task_id new_status)),
     mkWorld
       (Some (<[k := updated_cells today fields new_status stored]>
                (after_ensure (sheet2 w))))
       (calls w ++ ensure_calls (sheet2 w)
        ++ [ValuesGet A_M;
            ValuesUpdate (Ai_Mi (S k)) (updated_cells today fields new_status stored)])).
Proof.
  intros [Hid [Nid [Hst [Nst [Hw Hc]]]]] [Hk [Hrow Hfirst]].
  pose proof (find_target_first _ 0%nat k task_id stored Hk Hrow Hfirst) as Hfind.
  cbn [Nat.add] in Hfind. replace (k + 1)%nat with (S k) in Hfind by lia.
  rewrite (update_task_run today fields task_id new_status w (S k) (pad stored)
             Hid Nid Hst Nst Hw Hc Hfind).
  now rewrite updated_row_cells, write_row_in_range by (eapply lookup_lt_Some; exact Hk).
Qed.

Lemma header_values_app (cells more : list row) :
  header_values cells <> [] -> header_values (cells ++ more) = header_values cells.
Proof. destruct cells as [|r rest]; [intros H; now destruct H | reflexivity]. Qed.

Lemma after_ensure_app (s : option (list row)) (more : list row) :
  after_ensure (Some (after_ensure s ++ more)) = after_ensure s ++ more.
Proof.
  apply after_ensure_with_header. rewrite header_values_app; apply after_ensure_has_header.
Qed.

(** X10. The identifier a successful [create_task] answers with is found
    by a later [update_task]: a well-formed update request carrying it is
    answered 200, never 404, and rewrites in place row [k] holding
    [stored], where [k] is the first row of the sheet after the creation
    whose stripped identifier cell is that identifier; when no row of the
    sheet before the creation carried the identifier, that row is the
    appended one. *)
Theorem created_task_is_found (today : date) (random_num : Z)
    (fields : gmap string json)
    (task_type client_id tat description worker_name : string) (w : world)
    (taskId message : string)
    (later : date) (ufields : gmap string json) (new_status : string) :
  valid_create_request fields task_type client_id tat description worker_name ->
  fst (create_task today random_num (JObject fields) w)
  = mkResponse 200 (CreatedBody taskId message) ->
  ufields !! "taskId" = Some (JStr taskId) ->
  get_strip (JObject ufields) "newStatus" "" = Ok new_status -> new_status <> "" ->
  optional_str ufields "newWorker" -> optional_str ufields "newColleague" ->
  exists (k : nat) (stored : row),
    (k <= length (after_ensure (sheet2 w)))%nat
    /\ first_match
         (after_ensure (sheet2 w)
          ++ [created_row today random_num fields task_type client_id tat
                description worker_name])
         taskId k stored
    /\ (Forall (fun r => PyStr.strip (safe_get r COL.ID) <> taskId)
          (after_ensure (sheet2 w)) ->
        k = length (after_ensure (sheet2 w))
        /\ stored = created_row today random_num fields task_type client_id tat
                      description worker_name)
    /\ update_task later (JObject ufields)
         (snd (create_task today random_num (JObject fields) w))
       = (mkResponse 200 (UpdatedBody (updated_message taskId new_status)),
          mkWorld
            (Some (<[k := updated_cells later ufields new_status stored]>
                     (after_ensure (sheet2 w)
                      ++ [created_row today random_num fields task_type client_id
                            tat description worker_name])))
            (calls (snd (create_task today random_num (JObject fields) w))
             ++ [SpreadsheetsGet; ValuesGet A1_M1; ValuesGet A_M;
                 ValuesUpdate (Ai_Mi (S k))
                   (updated_cells later ufields new_status stored)])).
Proof.
  intros Hvalid Hresp Htid Hst Nst Hw Hc.
  destruct Hvalid as [[H1 N1] [[H2 N2] [[H3 N3] [[H4 N4] [[H5 N5] Hcol]]]]].
  rewrite (create_task_run today random_num fields task_type client_id tat
             description worker_name w H1 N1 H2 N2 H3 N3 H4 N4 H5 N5 Hcol) in *.
  cbn [fst snd] in *. injection Hresp as <- _.
  destruct (generate_task_id_strip_stable client_id (PyStr.strip worker_name)
              today random_num N2) as [Hstable Hnonempty].
  set (tid := generate_task_id (PyStr.strip client_id) (PyStr.strip worker_name)
                today random_num) in *.
  set (new := created_row today random_num fields task_type client_id tat
                description worker_name).
  set (w1 := mkWorld (Some (after_ensure (sheet2 w) ++ [new])) _).
  assert (Hreq : update_request ufields tid new_status).
  { unfold update_request. repeat split; try assumption.
    unfold get_strip, dict_get. rewrite Htid. cbn [rbind py_strip]. now rewrite Hstable. }
  assert (Hsheet : after_ensure (sheet2 w1) = after_ensure (sheet2 w) ++ [new])
    by apply after_ensure_app.
  assert (Hex : Exists (fun r => PyStr.strip (safe_get r COL.ID) = tid)
                  (after_ensure (sheet2 w1))).
  { rewrite Hsheet. apply Exists_app. right. constructor.
    unfold new, created_row. rewrite new_row_cells. exact Hstable. }
  destruct (find_first_match _ _ Hex) as [k [stored Hm]].
  assert (Hle : (k <= length (after_ensure (sheet2 w)))%nat).
  { destruct Hm as [Hk _]. apply lookup_lt_Some in Hk.
    rewrite Hsheet, length_app in Hk. cbn [length] in Hk. lia. }
  exists k, stored. split; [exact Hle|].
  split; [rewrite <- Hsheet; exact Hm|].
  split.
  { intros Hnone. destruct Hm as [Hk [Hid _]]. rewrite Hsheet in Hk.
    destruct (decide (k < length (after_ensure (sheet2 w)))%nat) as [Hlt | Hge].
    - rewrite lookup_app_l in Hk by exact Hlt.
      apply list_elem_of_lookup_2, list_elem_of_In in Hk.
      rewrite List.Forall_forall in Hnone. now destruct (Hnone stored Hk).
    - assert (Hkeq : k = length (after_ensure (sheet2 w))) by lia.
      split; [exact Hkeq|]. subst k.
      rewrite lookup_app_r in Hk by lia. rewrite Nat.sub_diag in Hk.
      now injection Hk as <-. }
  rewrite (update_task_found later ufields tid new_status w1 k stored Hreq Hm).
  rewrite Hsheet. unfold w1. cbn [sheet2 calls].
  rewrite ensure_calls_with_header; [reflexivity|].
  rewrite header_values_app; apply after_ensure_has_header.
Qed.

Lemma created_task_is_found_witness :
  valid_create_request sample_fields "Audit" "Ashraf Traders" "2026-03-01"
    " books " "Abhishek Kumar"
  /\ fst (create_task (mkDate 2026 2 23) 75076 (JObject sample_fields) no_tab)
     = mkResponse 200
         (CreatedBody "ASHRA_75076-AbhishekKumar-20260223"
            "Task created successfully! ID: ASHRA_75076-AbhishekKumar-20260223")
  /\ fst (update_task (mkDate 2026 3 2) (JObject close_fields)
            (snd (create_task (mkDate 2026 2 23) 75076 (JObject sample_fields) no_tab)))
     = mkResponse 200
         (UpdatedBody
            (updated_message "ASHRA_75076-AbhishekKumar-20260223" "Completed")).
Proof.
  split; [exact sample_fields_valid|]. split; [reflexivity|].
  destruct (created_task_is_found (mkDate 2026 2 23) 75076 sample_fields
              "Audit" "Ashraf Traders" "2026-03-01" " books " "Abhishek Kumar" no_tab
              "ASHRA_75076-AbhishekKumar-20260223"
              "Task created successfully! ID: ASHRA_75076-AbhishekKumar-20260223"
              (mkDate 2026 3 2) close_fields "Completed"
              sample_fields_valid eq_refl eq_refl eq_refl ltac:(discriminate) I I)
    as [k [stored [_ [_ [_ Hrun]]]]].
  now rewrite Hrun.
Defined.

Lemma all_tasks_from_app (l more : list row) :
  forall i,
    all_tasks_from i (l ++ more)
    = all_tasks_from i l ++ all_tasks_from (i + length l) more.
Proof.
  induction l as [|r rest IH]; intros i.
  - cbn. now replace (i + 0)%nat with i by lia.
  - cbn [app all_tasks_from length]. rewrite IH.
    now replace (S i + length rest)%nat with (i + S (length rest))%nat by lia.
Qed.

Lemma after_ensure_nonempty (s : option (list row)) : after_ensure s <> [].
Proof.
  pose proof (after_ensure_has_header s) as H. intros E. now rewrite E in H.
Qed.

(** X11. After a successful [create_task] the new task is the last entry of
    the full view and of the active view: its identifier is the one
    answered, its status is "Pending", its closure fields are empty, and
    its position marker is the sheet row it was appended at. *)
Theorem created_task_is_listed (today : date) (random_num : Z)
    (fields : gmap string json)
    (task_type client_id tat description worker_name : string) (w : world) :
  valid_create_request fields task_type client_id tat description worker_name ->
  exists (t : task) (tasks active : list task) (message : string),
    fst (create_task today random_num (JObject fields) w)
    = mkResponse 200 (CreatedBody (t_ID t) message)
    /\ fst (get_tasks (snd (create_task today random_num (JObject fields) w)))
       = mkResponse 200 (TasksBody (tasks ++ [t]))
    /\ fst (get_active_tasks (snd (create_task today random_num (JObject fields) w)))
       = mkResponse 200 (TasksBody (active ++ [t]))
    /\ length tasks = (length (after_ensure (sheet2 w)) - 1)%nat
    /\ rowIndex t = (length (after_ensure (sheet2 w)) + 1)%nat
    /\ t_Status t = "Pending"
    /\ t_ChnageOnStatus t = "" /\ t_Total_Days_taken t = ""
    /\ t_Task_Delivery_Status t = "".
Proof.
  intros [[H1 N1] [[H2 N2] [[H3 N3] [[H4 N4] [[H5 N5] Hcol]]]]].
  rewrite (create_task_run today random_num fields task_type client_id tat
             description worker_name w H1 N1 H2 N2 H3 N3 H4 N4 H5 N5 Hcol).
  cbn [fst snd]. rewrite get_tasks_run, get_active_tasks_run. cbn [fst sheet2].
  rewrite after_ensure_app.
  pose proof (after_ensure_nonempty (sheet2 w)) as Hne.
  destruct (after_ensure (sheet2 w)) as [|hdr data_rows]; [now destruct Hne|].
  cbn [app tail length]. rewrite all_tasks_from_app.
  unfold stripped_active_tasks. rewrite List.filter_app.
  set (new := created_row today random_num fields task_type client_id tat
                description worker_name).
  exists (task_of_row (2 + length data_rows) new), (all_tasks_from 2 data_rows),
    (List.filter (fun t => negb (excluded (PyStr.strip (t_Status t))))
       (all_tasks_from 2 data_rows)).
  eexists. unfold new, created_row. rewrite new_row_cells.
  split; [reflexivity|]. split; [reflexivity|]. split; [reflexivity|].
  split; [rewrite all_tasks_from_length; lia|].
  split; [cbn [task_of_row rowIndex]; lia|]. repeat split.
Qed.

Lemma created_task_is_listed_witness :
  valid_create_request sample_fields "Audit" "Ashraf Traders" "2026-03-01"
    " books " "Abhishek Kumar"
  /\ exists (t : task) (tasks : list task),
      fst (get_tasks (snd (create_task (mkDate 2026 2 23) 75076
                             (JObject sample_fields) (sheet_of [lowercase_status_row]))))
      = mkResponse 200 (TasksBody (tasks ++ [t]))
      /\ rowIndex t = 3%nat /\ t_Status t = "Pending".
Proof.
  split; [exact sample_fields_valid|].
  destruct (created_task_is_listed (mkDate 2026 2 23) 75076 sample_fields
              "Audit" "Ashraf Traders" "2026-03-01" " books " "Abhishek Kumar"
              (sheet_of [lowercase_status_row]) sample_fields_valid)
    as [t [tasks [active [message [_ [Hall [_ [_ [Hidx [Hst _]]]]]]]]]].
  exists t, tasks. split; [exact Hall|]. split; [exact Hidx | exact Hst].
Defined.

(** ** More on the update flow *)

(** X12. On a sheet whose tab and header row exist, a successful update
    issues exactly one write, the in-place rewrite of the row it found:
    the sheet keeps its length, every other row is untouched, the row
    written has 13 cells, and its identifier cell is the stored one. *)
Theorem update_task_changes_one_row (today : date) (fields : gmap string json)
    (task_id new_status : string) (w : world) (cells : list row) (k : nat)
    (stored : row) :
  sheet2 w = Some cells ->
  header_values cells <> [] ->
  update_request fields task_id new_status ->
  first_match cells task_id k stored ->
  exists r' : row,
    sheet2 (snd (update_task today (JObject fields) w)) = Some (<[k := r']> cells)
    /\ List.filter is_write (new_calls w (snd (update_task today (JObject fields) w)))
       = [ValuesUpdate (Ai_Mi (S k)) r']
    /\ length r' = 13%nat
    /\ safe_get r' COL.ID = safe_get stored COL.ID
    /\ length (<[k := r']> cells) = length cells
    /\ (forall j, j <> k -> <[k := r']> cells !! j = cells !! j).
Proof.
  intros Hs Hh Hreq Hm.
  assert (Hrows : after_ensure (sheet2 w) = cells)
    by (rewrite Hs; now apply after_ensure_with_header).
  rewrite <- Hrows in Hm.
  rewrite (update_task_found today fields task_id new_status w k stored Hreq Hm).
  cbn [snd sheet2]. rewrite new_calls_app, Hrows, Hs, (ensure_calls_with_header _ Hh).
  exists (updated_cells today fields new_status stored).
  split; [reflexivity|]. split; [reflexivity|]. split; [reflexivity|].
  split; [reflexivity|]. split; [apply length_insert|].
  intros j Hj. now apply list_lookup_insert_ne.
Qed.

Lemma sample_update_request :
  update_request close_fields "ASHRA_75076-AbhishekKumar-20260223" "Completed".
Proof. unfold update_request. repeat split; discriminate. Qed.

Lemma sample_first_match :
  first_match [HEADER; sample_row] "ASHRA_75076-AbhishekKumar-20260223" 1 sample_row.
Proof.
  split; [reflexivity|]. split; [reflexivity|].
  intros [|j] r Hj Hr; [|lia]. injection Hr as <-. discriminate.
Qed.

Lemma update_task_changes_one_row_witness :
  sheet2 (sheet_of [sample_row]) = Some [HEADER; sample_row]
  /\ header_values [HEADER; sample_row] <> []
  /\ update_request close_fields "ASHRA_75076-AbhishekKumar-20260223" "Completed"
  /\ first_match [HEADER; sample_row] "ASHRA_75076-AbhishekKumar-20260223" 1 sample_row
  /\ exists r' : row,
      sheet2 (snd (update_task (mkDate 2026 3 2) (JObject close_fields)
                     (sheet_of [sample_row])))
      = Some [HEADER; r'].
Proof.
  split; [reflexivity|]. split; [discriminate|].
  split; [exact sample_update_request|]. split; [exact sample_first_match|].
  destruct (update_task_changes_one_row (mkDate 2026 3 2) close_fields
              "ASHRA_75076-AbhishekKumar-20260223" "Completed" (sheet_of [sample_row])
              [HEADER; sample_row] 1 sample_row eq_refl ltac:(discriminate)
              sample_update_request sample_first_match) as [r' [Hsheet _]].
  exists r'. exact Hsheet.
Defined.

(** X13. An update whose new status is neither "Completed" nor "Cancelled"
    stamps the status and today's date and leaves days-taken and
    delivery-status exactly as stored, whatever they were: a reopened task
    keeps the closure values of its last closing. *)
Theorem update_task_open_status_keeps_closure (today : date)
    (fields : gmap string json) (task_id new_status : string) (w : world)
    (k : nat) (stored : row) :
  update_request fields task_id new_status ->
  first_match (after_ensure (sheet2 w)) task_id k stored ->
  new_status <> "Completed" -> new_status <> "Cancelled" ->
  exists r' : row,
    sheet2 (snd (update_task today (JObject fields) w))
    = Some (<[k := r']> (after_ensure (sheet2 w)))
    /\ safe_get r' COL.Status = new_status
    /\ safe_get r' COL.ChnageOnStatus = strftime_iso today
    /\ safe_get r' COL.Total_Days_taken = safe_get stored COL.Total_Days_taken
    /\ safe_get r' COL.Task_Delivery_Status = safe_get stored COL.Task_Delivery_Status
    /\ safe_get r' COL.Total_DaysRequired = safe_get stored COL.Total_DaysRequired.
Proof.
  intros Hreq Hm N1 N2.
  rewrite (update_task_found today fields task_id new_status w k stored Hreq Hm).
  exists (updated_cells today fields new_status stored). cbn [snd sheet2].
  assert (Hopen : is_closing new_status = false).
  { unfold is_closing. apply String.eqb_neq in N1, N2. now rewrite N1, N2. }
  unfold updated_cells. rewrite Hopen. repeat split.
Qed.

Lemma update_task_open_status_keeps_closure_witness :
  update_request (<["newStatus" := JStr "In Progress"]> close_fields)
    "ASHRA_75076-AbhishekKumar-20260223" "In Progress"
  /\ exists r' : row,
      sheet2 (snd (update_task (mkDate 2026 3 5)
                     (JObject (<["newStatus" := JStr "In Progress"]> close_fields))
                     (sheet_of [padded_status_row])))
      = Some (<[1%nat := r']> [HEADER; padded_status_row])
      /\ safe_get r' COL.Total_Days_taken = "7"
      /\ safe_get r' COL.Task_Delivery_Status = "Late Submission".
Proof.
  assert (Hreq : update_request (<["newStatus" := JStr "In Progress"]> close_fields)
                   "ASHRA_75076-AbhishekKumar-20260223" "In Progress")
    by (unfold update_request; repeat split; discriminate).
  assert (Hm : first_match (after_ensure (sheet2 (sheet_of [padded_status_row])))
                 "ASHRA_75076-AbhishekKumar-20260223" 1 padded_status_row).
  { split; [reflexivity|]. split; [reflexivity|].
    intros [|j] r Hj Hr; [|lia]. injection Hr as <-. discriminate. }
  split; [exact Hreq|].
  destruct (update_task_open_status_keeps_closure (mkDate 2026 3 5)
              (<["newStatus" := JStr "In Progress"]> close_fields)
              "ASHRA_75076-AbhishekKumar-20260223" "In Progress"
              (sheet_of [padded_status_row]) 1 padded_status_row Hreq Hm
              ltac:(discriminate) ltac:(discriminate))
    as [r' [Hsheet [_ [_ [Hd [Hs _]]]]]].
  exists r'. split; [exact Hsheet|]. split; [exact Hd | exact Hs].
Defined.

(** X14. Closing a task whose stored assignment date does not parse does
    not fail: the answer is 200, days-taken stays as stored, and the
    delivery status is still computed from the TAT whenever the TAT
    parses (and stays as stored when it does not). *)
Theorem update_task_unparsable_date (today : date) (fields : gmap string json)
    (task_id new_status : string) (w : world) (k : nat) (stored : row) :
  update_request fields task_id new_status ->
  first_match (after_ensure (sheet2 w)) task_id k stored ->
  new_status = "Completed" \/ new_status = "Cancelled" ->
  parse_date (safe_get stored COL.Date) = None ->
  exists r' : row,
    update_task today (JObject fields) w
    = (mkResponse 200 (UpdatedBody (updated_message task_id new_status)),
       mkWorld (Some (<[k := r']> (after_ensure (sheet2 w))))
         (calls w ++ ensure_calls (sheet2 w)
          ++ [ValuesGet A_M; ValuesUpdate (Ai_Mi (S k)) r']))
    /\ safe_get r' COL.Total_Days_taken = safe_get stored COL.Total_Days_taken
    /\ safe_get r' COL.Task_Delivery_Status
       = match parse_date (safe_get stored COL.TAT) with
         | Some tat_date => get_delivery_status tat_date today
         | None => safe_get stored COL.Task_Delivery_Status
         end.
Proof.
  intros Hreq Hm Hclosing Hdate.
  rewrite (update_task_found today fields task_id new_status w k stored Hreq Hm).
  exists (updated_cells today fields new_status stored).
  assert (Hcl : is_closing new_status = true)
    by (destruct Hclosing as [-> | ->]; reflexivity).
  unfold updated_cells. rewrite Hcl, Hdate. repeat split.
Qed.

Lemma update_task_unparsable_date_witness :
  parse_date (safe_get (<[COL.Date := "yesterday"]> sample_row) COL.Date) = None
  /\ exists r' : row,
      fst (update_task (mkDate 2026 3 2) (JObject close_fields)
             (sheet_of [<[COL.Date := "yesterday"]> sample_row]))
      = mkResponse 200
          (UpdatedBody
             (updated_message "ASHRA_75076-AbhishekKumar-20260223" "Completed"))
      /\ sheet2 (snd (update_task (mkDate 2026 3 2) (JObject close_fields)
                        (sheet_of [<[COL.Date := "yesterday"]> sample_row])))
         = Some [HEADER; r']
      /\ safe_get r' COL.Total_Days_taken = ""
      /\ safe_get r' COL.Task_Delivery_Status = "Late Submission".
Proof.
  split; [reflexivity|].
  assert (Hm : first_match
                 (after_ensure (sheet2 (sheet_of [<[COL.Date := "yesterday"]> sample_row])))
                 "ASHRA_75076-AbhishekKumar-20260223" 1
                 (<[COL.Date := "yesterday"]> sample_row)).
  { split; [reflexivity|]. split; [reflexivity|].
    intros [|j] r Hj Hr; [|lia]. injection Hr as <-. discriminate. }
  destruct (update_task_unparsable_date (mkDate 2026 3 2) close_fields
              "ASHRA_75076-AbhishekKumar-20260223" "Completed"
              (sheet_of [<[COL.Date := "yesterday"]> sample_row]) 1
              (<[COL.Date := "yesterday"]> sample_row)
              sample_update_request Hm (or_introl eq_refl) eq_refl)
    as [r' [Hrun [Hd Hs]]].
  exists r'. rewrite Hrun. repeat split; [exact Hd | exact Hs].
Defined.

Lemma new_cell_idempotent (fields : gmap string json) (key old : string) :
  new_cell fields key (new_cell fields key old) = new_cell fields key old.
Proof.
  unfold new_cell. destruct (fields !! key) as [[| | |s| |]|]; try reflexivity.
  now destruct (String.eqb s "").
Qed.

Lemma updated_cells_idempotent (today : date) (fields : gmap string json)
    (new_status : string) (stored : row) :
  updated_cells today fields new_status
    (updated_cells today fields new_status stored)
  = updated_cells today fields new_status stored.
Proof.
  unfold updated_cells at 1.
  change (safe_get (updated_cells today fields new_status stored) COL.Date)
    with (safe_get stored COL.Date).
  change (safe_get (updated_cells today fields new_status stored) COL.TAT)
    with (safe_get stored COL.TAT).
  change (safe_get (updated_cells today fields new_status stored) COL.Employee_Name)
    with (new_cell fields "newWorker" (safe_get stored COL.Employee_Name)).
  change (safe_get (updated_cells today fields new_status stored) COL.Collegaue)
    with (new_cell fields "newColleague" (safe_get stored COL.Collegaue)).
  rewrite !new_cell_idempotent. unfold updated_cells.
  destruct (is_closing new_status); [|reflexivity].
  destruct (parse_date (safe_get stored COL.Date));
    destruct (parse_date (safe_get stored COL.TAT)); reflexivity.
Qed.

Lemma updated_cells_not_blank (today : date) (fields : gmap string json)
    (new_status : string) (stored : row) :
  new_status <> "" ->
  forallb (String.eqb "") (updated_cells today fields new_status stored) = false.
Proof.
  intros Hne. apply not_true_is_false. intros H.
  rewrite forallb_forall in H.
  specialize (H new_status). apply String.eqb_eq in H; [congruence|].
  unfold updated_cells. cbn [In]. tauto.
Qed.

(** X15. Repeating a successful update with the same request on the same
    day is idempotent: the second run finds the same row, writes the same
    13 cells back, and leaves the sheet as the first run left it. *)
Theorem update_task_idempotent (today : date) (fields : gmap string json)
    (task_id new_status : string) (w : world) (k : nat) (stored : row) :
  update_request fields task_id new_status ->
  first_match (after_ensure (sheet2 w)) task_id k stored ->
  exists r' : row,
    sheet2 (snd (update_task today (JObject fields) w))
    = Some (<[k := r']> (after_ensure (sheet2 w)))
    /\ update_task today (JObject fields) (snd (update_task today (JObject fields) w))
       = (mkResponse 200 (UpdatedBody (updated_message task_id new_status)),
          mkWorld (Some (<[k := r']> (after_ensure (sheet2 w))))
            (calls (snd (update_task today (JObject fields) w))
             ++ [SpreadsheetsGet; ValuesGet A1_M1; ValuesGet A_M;
                 ValuesUpdate (Ai_Mi (S k)) r'])).
Proof.
  intros Hreq Hm.
  rewrite (update_task_found today fields task_id new_status w k stored Hreq Hm).
  cbn [snd sheet2].
  set (rows := after_ensure (sheet2 w)) in *.
  set (u := updated_cells today fields new_status stored).
  exists u. split; [reflexivity|].
  destruct Hm as [Hk [Hid Hfirst]].
  assert (Hlt : (k < length rows)%nat) by (eapply lookup_lt_Some; exact Hk).
  assert (Hh : header_values (<[k := u]> rows) <> []).
  { pose proof (after_ensure_has_header (sheet2 w)) as Hh0. fold rows in Hh0.
    destruct rows as [|r0 rest]; [cbn in Hlt; lia|].
    destruct k as [|k'].
    - cbn [insert list_insert header_values]. unfold u.
      rewrite updated_cells_not_blank by apply Hreq. discriminate.
    - exact Hh0. }
  set (w1 := mkWorld (Some (<[k := u]> rows)) _).
  assert (Hrows1 : after_ensure (sheet2 w1) = <[k := u]> rows)
    by (apply after_ensure_with_header, Hh).
  assert (Hm1 : first_match (after_ensure (sheet2 w1)) task_id k u).
  { rewrite Hrows1. split; [now apply list_lookup_insert_eq|].
    split; [exact Hid|].
    intros j r Hj Hr. rewrite list_lookup_insert_ne in Hr by lia.
    now apply (Hfirst j r). }
  rewrite (update_task_found today fields task_id new_status w1 k u Hreq Hm1).
  rewrite Hrows1. unfold u at 1 3. rewrite updated_cells_idempotent. fold u.
  rewrite list_insert_insert_eq.
  unfold w1. cbn [sheet2 calls]. now rewrite (ensure_calls_with_header _ Hh).
Qed.

Lemma update_task_idempotent_witness :
  update_request close_fields "ASHRA_75076-AbhishekKumar-20260223" "Completed"
  /\ sheet2 (snd (update_task (mkDate 2026 3 2) (JObject close_fields)
                    (snd (update_task (mkDate 2026 3 2) (JObject close_fields)
                            (sheet_of [sample_row])))))
     = sheet2 (snd (update_task (mkDate 2026 3 2) (JObject close_fields)
                      (sheet_of [sample_row]))).
Proof.
  split; [exact sample_update_request|].
  destruct (update_task_idempotent (mkDate 2026 3 2) close_fields
              "ASHRA_75076-AbhishekKumar-20260223" "Completed" (sheet_of [sample_row])
              1 sample_row sample_update_request sample_first_match)
    as [r' [H1 H2]].
  now rewrite H2, H1.
Defined.

(** ** Rejected requests *)

Lemma get_strip_field_text (fields : gmap string json) (key s : string) :
  field_text fields key = Some s ->
  get_strip (JObject fields) key "" = Ok (PyStr.strip s).
Proof.
  unfold field_text, get_strip, dict_get.
  destruct (fields !! key) as [[| | |s'| |]|]; intros H; try discriminate;
    injection H as <-; reflexivity.
Qed.

(** X16. An update request whose taskId and newStatus are each left out or
    a string, with at least one of them blank, is answered 400 before any
    remote call: "taskId is required" when the identifier is blank,
    "newStatus is required" otherwise; the store is not touched. *)
Theorem update_task_requires_fields (today : date) (fields : gmap string json)
    (id_text status_text : string) (w : world) :
  field_text fields "taskId" = Some id_text ->
  field_text fields "newStatus" = Some status_text ->
  PyStr.strip id_text = "" \/ PyStr.strip status_text = "" ->
  update_task today (JObject fields) w
  = (mkResponse 400
       (ErrorBody (if String.eqb (PyStr.strip id_text) "" then "taskId is required"
                   else "newStatus is required")),
     w).
Proof.
  intros Hid Hst Hblank. unfold update_task, handler, bind, lift.
  rewrite (get_strip_field_text _ _ _ Hid), (get_strip_field_text _ _ _ Hst).
  destruct (String.eqb_spec (PyStr.strip id_text) "") as [E | Hne]; [reflexivity|].
  destruct Hblank as [H | H]; [contradiction|]. now rewrite H.
Qed.

Lemma update_task_requires_fields_witness :
  field_text (delete "newStatus" unknown_fields) "taskId" = Some "NO-SUCH-TASK"
  /\ field_text (delete "newStatus" unknown_fields) "newStatus" = Some ""
  /\ update_task (mkDate 2026 3 2) (JObject (delete "newStatus" unknown_fields)) no_tab
     = (mkResponse 400 (ErrorBody "newStatus is required"), no_tab).
Proof.
  split; [reflexivity|]. split; [reflexivity|].
  apply (update_task_requires_fields (mkDate 2026 3 2)
           (delete "newStatus" unknown_fields) "NO-SUCH-TASK" "" no_tab);
    [reflexivity | reflexivity | now right].
Defined.

Lemma first_missing_not_a_string (fields : gmap string json) (pre : list string)
    (f : string) (post : list string) (v : json) :
  Forall (nonblank_str fields) pre ->
  fields !! f = Some v ->
  (forall s, v <> JStr s) ->
  first_missing (JObject fields) (pre ++ f :: post)
  = Raise (AttributeError (type_name v) "strip").
Proof.
  intros Hpre Hv Hns. induction Hpre as [|g pre Hg _ IH].
  - cbn [app first_missing dict_get rbind]. rewrite Hv.
    destruct v; try reflexivity. now destruct (Hns s).
  - cbn [app]. now rewrite first_missing_nonblank.
Qed.

(** X17. A create request in which a required field holds a value that is
    not a string (null, a number, a boolean, a list, an object), the
    required fields before it being non-blank strings, is answered 500
    with Python's attribute error for that type, not 400, and no remote
    call is made. *)
Theorem create_task_non_string_field (today : date) (random_num : Z)
    (fields : gmap string json) (pre : list string) (f : string)
    (post : list string) (v : json) (w : world) :
  REQUIRED = pre ++ f :: post ->
  Forall (nonblank_str fields) pre ->
  fields !! f = Some v ->
  (forall s, v <> JStr s) ->
  create_task today random_num (JObject fields) w
  = (mkResponse 500
       (ErrorBody ("'" +:+ type_name v +:+ "' object has no attribute 'strip'")),
     w).
Proof.
  intros Hreq Hpre Hv Hns. unfold create_task, handler, bind, lift.
  now rewrite Hreq, (first_missing_not_a_string fields pre f post v Hpre Hv Hns).
Qed.

Lemma create_task_non_string_field_witness :
  REQUIRED = ["taskType"] ++ "clientId" :: ["tat"; "taskDescription"; "workerName"]
  /\ (<["clientId" := JNull]> sample_fields) !! "clientId" = Some JNull
  /\ create_task (mkDate 2026 2 23) 75076
       (JObject (<["clientId" := JNull]> sample_fields)) no_tab
     = (mkResponse 500 (ErrorBody "'NoneType' object has no attribute 'strip'"),
        no_tab).
Proof.
  split; [reflexivity|]. split; [reflexivity|].
  apply (create_task_non_string_field (mkDate 2026 2 23) 75076
           (<["clientId" := JNull]> sample_fields) ["taskType"] "clientId"
           ["tat"; "taskDescription"; "workerName"] JNull no_tab eq_refl).
  - repeat constructor. exists "Audit". split; [reflexivity | discriminate].
  - reflexivity.
  - discriminate.
Defined.

(** X18. When several required fields of a create request are missing or
    blank, the 400 answer names the first of them in the order taskType,
    clientId, tat, taskDescription, workerName, whatever the later fields
    hold, and no remote call is made. *)
Theorem create_task_names_first_missing (today : date) (random_num : Z)
    (fields : gmap string json) (pre : list string) (f : string)
    (post : list string) (w : world) :
  REQUIRED = pre ++ f :: post ->
  Forall (nonblank_str fields) pre ->
  missing_or_blank fields f ->
  create_task today random_num (JObject fields) w
  = (mkResponse 400 (ErrorBody ("Missing required field: " +:+ f)), w).
Proof. apply create_task_rejects_first_missing. Qed.

Lemma create_task_names_first_missing_witness :
  REQUIRED = ["taskType"] ++ "clientId" :: ["tat"; "taskDescription"; "workerName"]
  /\ missing_or_blank (delete "clientId" (<["workerName" := JNull]> sample_fields))
       "clientId"
  /\ create_task (mkDate 2026 2 23) 75076
       (JObject (delete "clientId" (<["workerName" := JNull]> sample_fields))) no_tab
     = (mkResponse 400 (ErrorBody "Missing required field: clientId"), no_tab).
Proof.
  split; [reflexivity|].
  assert (Hm : missing_or_blank
                 (delete "clientId" (<["workerName" := JNull]> sample_fields))
                 "clientId") by (left; reflexivity).
  split; [exact Hm|].
  apply (create_task_names_first_missing (mkDate 2026 2 23) 75076
           (delete "clientId" (<["workerName" := JNull]> sample_fields)) ["taskType"]
           "clientId" ["tat"; "taskDescription"; "workerName"] no_tab eq_refl);
    [|exact Hm].
  repeat constructor. exists "Audit". split; [reflexivity | discriminate].
Defined.

(** ** Reassignment and closure, end to end *)

(** X19. A newWorker that is a non-empty string always replaces the
    employee cell with its stripped value, so a newWorker made only of
    white space erases the employee name; an empty or absent newWorker
    leaves the cell as stored. *)
Theorem update_task_reassigns_stripped (today : date) (fields : gmap string json)
    (task_id new_status : string) (w : world) (k : nat) (stored : row)
    (new_worker : string) :
  update_request fields task_id new_status ->
  first_match (after_ensure (sheet2 w)) task_id k stored ->
  fields !! "newWorker" = Some (JStr new_worker) ->
  exists r' : row,
    sheet2 (snd (update_task today (JObject fields) w))
    = Some (<[k := r']> (after_ensure (sheet2 w)))
    /\ safe_get r' COL.Employee_Name
       = if String.eqb new_worker "" then safe_get stored COL.Employee_Name
         else PyStr.strip new_worker.
Proof.
  intros Hreq Hm Hnw.
  rewrite (update_task_found today fields task_id new_status w k stored Hreq Hm).
  exists (updated_cells today fields new_status stored). cbn [snd sheet2].
  split; [reflexivity|].
  change (safe_get (updated_cells today fields new_status stored) COL.Employee_Name)
    with (new_cell fields "newWorker" (safe_get stored COL.Employee_Name)).
  unfold new_cell. now rewrite Hnw.
Qed.

Lemma update_task_reassigns_stripped_witness :
  update_request (<["newWorker" := JStr "   "]> close_fields)
    "ASHRA_75076-AbhishekKumar-20260223" "Completed"
  /\ exists r' : row,
      sheet2 (snd (update_task (mkDate 2026 3 2)
                     (JObject (<["newWorker" := JStr "   "]> close_fields))
                     (sheet_of [sample_row])))
      = Some [HEADER; r']
      /\ safe_get sample_row COL.Employee_Name = "Abhishek Kumar"
      /\ safe_get r' COL.Employee_Name = "".
Proof.
  assert (Hreq : update_request (<["newWorker" := JStr "   "]> close_fields)
                   "ASHRA_75076-AbhishekKumar-20260223" "Completed")
    by (unfold update_request; repeat split; discriminate).
  split; [exact Hreq|].
  destruct (update_task_reassigns_stripped (mkDate 2026 3 2)
              (<["newWorker" := JStr "   "]> close_fields)
              "ASHRA_75076-AbhishekKumar-20260223" "Completed" (sheet_of [sample_row])
              1 sample_row "   " Hreq sample_first_match eq_refl)
    as [r' [Hsheet Hemp]].
  exists r'. split; [exact Hsheet|]. split; [reflexivity | exact Hemp].
Defined.

(** X20. A task created on a valid day from year 1000 on with a parsable
    TAT and later closed (no earlier row carrying its identifier) ends
    with consistent cells:
    days-required is (TAT - creation day).days, days-taken is
    (closing day - creation day).days, the delivery status is the
    classification of (TAT, closing day), and it is "On Time" exactly when
    days-taken does not exceed days-required. *)
Theorem closed_task_days_are_consistent (today later : date) (random_num : Z)
    (fields : gmap string json)
    (task_type client_id tat description worker_name : string) (w : world)
    (tat_date : date) (taskId message : string)
    (ufields : gmap string json) (new_status : string) :
  valid_create_request fields task_type client_id tat description worker_name ->
  valid_date today -> 1000 <= year today ->
  parse_date tat = Some tat_date ->
  fst (create_task today random_num (JObject fields) w)
  = mkResponse 200 (CreatedBody taskId message) ->
  Forall (fun r => PyStr.strip (safe_get r COL.ID) <> taskId)
    (after_ensure (sheet2 w)) ->
  ufields !! "taskId" = Some (JStr taskId) ->
  get_strip (JObject ufields) "newStatus" "" = Ok new_status ->
  new_status = "Completed" \/ new_status = "Cancelled" ->
  optional_str ufields "newWorker" -> optional_str ufields "newColleague" ->
  exists r' : row,
    sheet2 (snd (update_task later (JObject ufields)
                   (snd (create_task today random_num (JObject fields) w))))
    = Some (after_ensure (sheet2 w) ++ [r'])
    /\ int_of_str (safe_get r' COL.Total_DaysRequired) = sub_days tat_date today
    /\ int_of_str (safe_get r' COL.Total_Days_taken) = sub_days later today
    /\ safe_get r' COL.Task_Delivery_Status = get_delivery_status tat_date later
    /\ (safe_get r' COL.Task_Delivery_Status = "On Time"
        <-> int_of_str (safe_get r' COL.Total_Days_taken)
            <= int_of_str (safe_get r' COL.Total_DaysRequired)).
Proof.
  intros Hvalid Hday _ Htat Hresp Hfresh Htid Hst Hclosing Hw Hc.
  destruct Hvalid as [[H1 N1] [[H2 N2] [[H3 N3] [[H4 N4] [[H5 N5] Hcol]]]]].
  rewrite (create_task_run today random_num fields task_type client_id tat
             description worker_name w H1 N1 H2 N2 H3 N3 H4 N4 H5 N5 Hcol) in *.
  cbn [fst snd] in *. injection Hresp as <- _.
  destruct (generate_task_id_strip_stable client_id (PyStr.strip worker_name)
              today random_num N2) as [Hstable Hnonempty].
  set (tid := generate_task_id (PyStr.strip client_id) (PyStr.strip worker_name)
                today random_num) in *.
  set (new := created_row today random_num fields task_type client_id tat
                description worker_name).
  set (rows := after_ensure (sheet2 w)) in *.
  set (w1 := mkWorld (Some (rows ++ [new])) _).
  assert (Nst : new_status <> "") by (destruct Hclosing as [-> | ->]; discriminate).
  assert (Hcl : is_closing new_status = true)
    by (destruct Hclosing as [-> | ->]; reflexivity).
  assert (Hreq : update_request ufields tid new_status).
  { unfold update_request. repeat split; try assumption.
    unfold get_strip, dict_get. rewrite Htid. cbn [rbind py_strip]. now rewrite Hstable. }
  assert (Hsheet : after_ensure (sheet2 w1) = rows ++ [new]) by apply after_ensure_app.
  assert (Hnew : PyStr.strip (safe_get new COL.ID) = tid).
  { unfold new, created_row. rewrite new_row_cells. exact Hstable. }
  assert (Hm : first_match (after_ensure (sheet2 w1)) tid (length rows) new).
  { rewrite Hsheet. split; [apply list_lookup_middle; reflexivity|].
    split; [exact Hnew|].
    intros j r Hj Hr. rewrite lookup_app_l in Hr by exact Hj.
    rewrite List.Forall_forall in Hfresh. apply Hfresh.
    apply list_elem_of_In, list_elem_of_lookup. now exists j. }
  rewrite (update_task_found later ufields tid new_status w1 (length rows) new Hreq Hm).
  cbn [snd sheet2]. rewrite Hsheet.
  exists (updated_cells later ufields new_status new).
  split.
  { rewrite insert_app_r_alt by lia. now replace (length rows - length rows)%nat with 0%nat by lia. }
  assert (Hdate : parse_date (safe_get new COL.Date) = Some today).
  { unfold new, created_row. rewrite new_row_cells.
    change (safe_get _ COL.Date) with (strftime_iso today).
    now apply parse_date_strftime_iso. }
  assert (Htat' : parse_date (safe_get new COL.TAT) = Some tat_date).
  { unfold new, created_row. rewrite new_row_cells.
    change (safe_get _ COL.TAT) with (PyStr.strip tat). now rewrite parse_date_strip. }
  assert (Hreq9 : safe_get new COL.Total_DaysRequired
                  = PyStr.str_of_int (sub_days tat_date today)).
  { unfold new, created_row. rewrite new_row_cells, parse_date_strip, Htat. reflexivity. }
  unfold updated_cells. rewrite Hcl, Hdate, Htat', Hreq9.
  change (safe_get _ COL.Total_DaysRequired)
    with (PyStr.str_of_int (sub_days tat_date today)).
  change (safe_get _ COL.Total_Days_taken)
    with (PyStr.str_of_int (sub_days later today)).
  change (safe_get _ COL.Task_Delivery_Status) with (get_delivery_status tat_date later).
  rewrite !int_of_str_of_int.
  split; [reflexivity|]. split; [reflexivity|]. split; [reflexivity|].
  unfold get_delivery_status, sub_days.
  destruct (Z.leb_spec (toordinal later - toordinal tat_date) 0) as [Hle | Hgt].
  - split; [lia | reflexivity].
  - split; [|lia].
    destruct (toordinal later - toordinal tat_date =? 1); discriminate.
Qed.

Lemma closed_task_days_are_consistent_witness :
  valid_create_request sample_fields "Audit" "Ashraf Traders" "2026-03-01"
    " books " "Abhishek Kumar"
  /\ valid_date (mkDate 2026 2 23)
  /\ 1000 <= year (mkDate 2026 2 23)
  /\ parse_date "2026-03-01" = Some (mkDate 2026 3 1)
  /\ exists r' : row,
      sheet2 (snd (update_task (mkDate 2026 3 2) (JObject close_fields)
                     (snd (create_task (mkDate 2026 2 23) 75076
                             (JObject sample_fields) no_tab))))
      = Some (after_ensure None ++ [r'])
      /\ int_of_str (safe_get r' COL.Total_DaysRequired) = 6
      /\ int_of_str (safe_get r' COL.Total_Days_taken) = 7
      /\ safe_get r' COL.Task_Delivery_Status = "Late Submission".
Proof.
  assert (Hyear : 1000 <= year (mkDate 2026 2 23)) by (cbn; lia).
  split; [exact sample_fields_valid|]. split; [reflexivity|]. split; [exact Hyear|].
  split; [reflexivity|].
  assert (Hfresh : Forall (fun r => PyStr.strip (safe_get r COL.ID)
                                    <> "ASHRA_75076-AbhishekKumar-20260223")
                     (after_ensure (sheet2 no_tab))).
  { repeat constructor. discriminate. }
  destruct (closed_task_days_are_consistent (mkDate 2026 2 23) (mkDate 2026 3 2) 75076
              sample_fields "Audit" "Ashraf Traders" "2026-03-01" " books "
              "Abhishek Kumar" no_tab (mkDate 2026 3 1)
              "ASHRA_75076-AbhishekKumar-20260223"
              "Task created successfully! ID: ASHRA_75076-AbhishekKumar-20260223"
              close_fields "Completed"
              sample_fields_valid eq_refl Hyear eq_refl eq_refl Hfresh eq_refl eq_refl
              (or_introl eq_refl) I I)
    as [r' [Hsheet [H9 [H10 [H11 _]]]]].
  exists r'. split; [exact Hsheet|]. split; [exact H9|]. split; [exact H10 | exact H11].
Defined.

(** ** White space around a date *)

Lemma rstrip_snoc_space (s : string) (c : ascii) :
  PyStr.is_space c = true ->
  PyStr.rstrip (s +:+ String c EmptyString) = PyStr.rstrip s.
Proof.
  intros Hc. induction s as [|a r IH].
  - change (EmptyString +:+ String c EmptyString) with (String c EmptyString).
    cbn [PyStr.rstrip]. now rewrite Hc.
  - rewrite append_cons. cbn [PyStr.rstrip]. now rewrite IH.
Qed.

Lemma strip_snoc_space (s : string) (c : ascii) :
  PyStr.is_space c = true ->
  PyStr.strip (s +:+ String c EmptyString) = PyStr.strip s.
Proof.
  intros Hc. unfold PyStr.strip. induction s as [|a r IH].
  - change (EmptyString +:+ String c EmptyString) with (String c EmptyString).
    cbn [PyStr.lstrip]. now rewrite Hc.
  - rewrite append_cons. cbn [PyStr.lstrip].
    destruct (PyStr.is_space a); [exact IH|].
    rewrite <- append_cons. now apply rstrip_snoc_space.
Qed.

Lemma parse_date_same_strip (a b : string) :
  PyStr.strip a = PyStr.strip b -> parse_date a = parse_date b.
Proof.
  intros H. unfold parse_date, DATE_FORMATS. cbn [parse_date_loop]. now rewrite H.
Qed.

(** X21. White space around a date string never changes how it is parsed:
    adding a white-space character in front of the string or after it
    gives the same result, a date or the absent value. *)
Theorem parse_date_ignores_outer_space (c : ascii) (date_str : string) :
  PyStr.is_space c = true ->
  parse_date (String c date_str) = parse_date date_str
  /\ parse_date (date_str +:+ String c EmptyString) = parse_date date_str.
Proof.
  intros Hc. split; apply parse_date_same_strip.
  - unfold PyStr.strip. cbn [PyStr.lstrip]. now rewrite Hc.
  - now apply strip_snoc_space.
Qed.

Lemma parse_date_ignores_outer_space_witness :
  PyStr.is_space "010" = true
  /\ parse_date ("05/03/2024" +:+ String "010" EmptyString) = Some (mkDate 2024 3 5).
Proof.
  split; [reflexivity|].
  destruct (parse_date_ignores_outer_space "010" "05/03/2024" eq_refl) as [_ H].
  rewrite H. reflexivity.
Defined.
